(** * ipgen: the IP-core packaging pipeline of [ipgen/ipgen.py]

    A shallow embedding of [SystemBuilder] ([render], [build],
    [build_package_general], [build_package_axi], [build_package_avalon])
    and of the function [log2], together with the properties of the
    packaging pipeline that the specification states.

    The Python code is effectful: it raises exceptions, calls the RTL
    analyzer, renders templates, and creates directories and files.  It is
    embedded in a state-and-exception monad [M] over a [World] made of a
    file system and a log of the externally visible actions. *)

From stdpp Require Import gmap strings list fin_maps pretty sorting.
From Stdlib Require Import ZArith Lia Ascii Floats.

Open Scope string_scope.
Open Scope list_scope.
Open Scope Z_scope.

(** ** Python strings *)

Module PyStr.

(** [s.count(sub)]: the number of non-overlapping occurrences of [sub]
    in [s], scanning from the left.  [skip] is the number of characters
    of the last match that are still to be stepped over. *)
Fixpoint count_from (sub : string) (skip : nat) (s : string) : nat :=
  match s with
  | EmptyString => match sub with EmptyString => 1%nat | _ => 0%nat end
  | String _ s' =>
      match skip with
      | S n => count_from sub n s'
      | O => if String.prefix sub s
             then S (count_from sub (String.length sub - 1) s')
             else count_from sub 0 s'
      end
  end.

Definition count (s sub : string) : nat := count_from sub 0 s.

(** A Python integer used as a condition is true when it is not zero. *)
Definition truthy_nat (n : nat) : bool := negb (Nat.eqb n 0).

(** [s.replace(old, new)] *)
Fixpoint replace_from (old new : string) (skip : nat) (s : string) : string :=
  match s with
  | EmptyString => match old with EmptyString => new | _ => EmptyString end
  | String c s' =>
      match skip with
      | S n => replace_from old new n s'
      | O => if String.prefix old s
             then match old with
                  | EmptyString => new +:+ String c (replace_from old new 0 s')
                  | _ => new +:+ replace_from old new (String.length old - 1) s'
                  end
             else String c (replace_from old new 0 s')
      end
  end.

Definition replace (s old new : string) : string := replace_from old new 0 s.

(** [s.endswith(suffix)] *)
Definition endswith (s suffix : string) : bool :=
  let n := String.length s in
  let m := String.length suffix in
  if (m <=? n)%nat then String.eqb (String.substring (n - m) m s) suffix
  else false.

(** [s.startswith(p)] *)
Definition startswith (s p : string) : bool := String.prefix p s.

(** [''.join(l)] *)
Definition join (l : list string) : string := foldr String.append "" l.

End PyStr.

(** ** Python values held by the [configs] dictionary *)

Inductive PyVal : Type :=
| VNone
| VBool (b : bool)
| VInt (z : Z)
| VStr (s : string).

(** Truth value of an object in a condition. *)
Definition truthy (v : PyVal) : bool :=
  match v with
  | VNone => false
  | VBool b => b
  | VInt z => negb (z =? 0)
  | VStr s => negb (String.eqb s "")
  end.

(** [a == b]; [bool] is a subclass of [int], so [True == 1]. *)
Definition py_eq (a b : PyVal) : bool :=
  match a, b with
  | VNone, VNone => true
  | VBool x, VBool y => Bool.eqb x y
  | VBool x, VInt y | VInt y, VBool x => Z.b2z x =? y
  | VInt x, VInt y => x =? y
  | VStr x, VStr y => String.eqb x y
  | _, _ => false
  end.

Definition py_ne (a b : PyVal) : bool := negb (py_eq a b).

(** [str(v)] *)
Definition py_str (v : PyVal) : string :=
  match v with
  | VNone => "None"
  | VBool true => "True"
  | VBool false => "False"
  | VInt z => pretty z
  | VStr s => s
  end.

(** An integer or [None]. *)
Definition py_int (n : option Z) : PyVal :=
  match n with
  | Some z => VInt z
  | None => VNone
  end.

(** The [configs] argument of [build] is a dictionary with string keys. *)
Abbreviation Configs := (gmap string PyVal).

(** ** The syntax tree handed over by the analyzer

    The nodes are those of [pyverilog.vparser.ast].  Expressions, the
    design as a whole and parameter declarations are opaque to the
    pipeline except for the attributes it reads ([pv.name], [pv.value]),
    so their types are left abstract; ports, widths and wires are built
    and taken apart by the pipeline itself. *)

Section Syntax.
Variables Expr Ast Param : Type.

(** [vast.Width(msb, lsb)] *)
Record Width := mkWidth { msb : Expr; lsb : Expr }.

(** The class of a port node, as far as [isinstance] tells. *)
Inductive PortClass := Input | Output | Inout | OtherPort.

(** [vast.Input], [vast.Output], [vast.Inout]: [name], [width], [signed]. *)
Record Port := mkPort {
  port_class : PortClass;
  port_name : string;
  port_width : option Width;
  port_signed : bool }.

(** [vast.Wire(name, width, signed)] *)
Record Wire := mkWire {
  wire_name : string;
  wire_width : option Width;
  wire_signed : bool }.

(** What [ASTCodeGenerator.visit] is applied to. *)
Inductive Node :=
| NSource (a : Ast)
| NParam (p : Param)
| NExpr (e : Expr)
| NWidth (w : Width)
| NWire (w : Wire)
| NIoport (first : Port) (second : Wire).

(** The analyzer's results: [generate], [getResourceDefinitions],
    [getTopParameters], [getTopIOPorts], [getNotFoundModules].  The two
    ordered dictionaries are kept as association lists, in iteration
    order.  A port comes with its resolved bit count, an integer, or with
    [None] where the analyzer has resolved none. *)
Record Analysis (Resource : Type) := mkAnalysis {
  userlogic_ast : Ast;
  an_masterlist : list Resource;
  an_slavelist : list Resource;
  an_top_parameters : list (string * Param);
  an_top_ioports : list (string * (Port * option Z));
  an_not_found_modules : list string }.
End Syntax.

Arguments mkWidth {Expr}.
Arguments msb {Expr}.
Arguments lsb {Expr}.
Arguments mkPort {Expr}.
Arguments port_class {Expr}.
Arguments port_name {Expr}.
Arguments port_width {Expr}.
Arguments port_signed {Expr}.
Arguments mkWire {Expr}.
Arguments wire_name {Expr}.
Arguments wire_width {Expr}.
Arguments wire_signed {Expr}.
Arguments NSource {Expr Ast Param}.
Arguments NParam {Expr Ast Param}.
Arguments NExpr {Expr Ast Param}.
Arguments NWidth {Expr Ast Param}.
Arguments NWire {Expr Ast Param}.
Arguments NIoport {Expr Ast Param}.
Arguments mkAnalysis {Expr Ast Param Resource}.
Arguments userlogic_ast {Expr Ast Param Resource}.
Arguments an_masterlist {Expr Ast Param Resource}.
Arguments an_slavelist {Expr Ast Param Resource}.
Arguments an_top_parameters {Expr Ast Param Resource}.
Arguments an_top_ioports {Expr Ast Param Resource}.
Arguments an_not_found_modules {Expr Ast Param Resource}.

(** ** Template contexts *)

(** [ipgen.utils.componentgen.AxiDefinition(name, datawidth, master, lite)] *)
Record AxiDefinition := mkAxiDefinition {
  axi_name : string;
  axi_datawidth : Z;
  axi_master : bool;
  axi_lite : bool }.

(** Rows of the descriptor tables: [(_name, _value, _dt)] and
    [(_name, _dir, _vec)] are triples of strings; the rows of [ext_ports]
    are [(_name, _dir, _vec, _msb)]. *)
Abbreviation Row3 := (string * string * string)%type.
Abbreviation ExtPort := (string * string * option Z * option string)%type.

Section Contexts.
Variable Resource : Type.

(** The dictionary literal [template_dict] of [render]. *)
Record TemplateDict := mkTemplateDict {
  td_userlogic_name : string;
  td_masterlist : list Resource;
  td_slavelist : list Resource;
  td_def_top_parameters : list string;
  td_def_top_localparams : list string;
  td_def_top_ioports : list string;
  td_name_top_ioports : list string;
  td_ext_addrwidth : PyVal;
  td_ext_burstlength : Z;
  td_ext_burstlen_width : Z;
  td_hdlname : option string;
  td_common_hdlname : option string;
  td_testname : option string;
  td_ipcore_version : option string;
  td_memimg : string;
  td_binfile : bool;
  td_usertestcode : string;
  td_simaddrwidth : option PyVal;
  td_mpd_parameters : list Row3;
  td_mpd_ports : list Row3;
  td_tcl_parameters : list Row3;
  td_tcl_ports : list Row3;
  td_clock_hperiod_userlogic : option PyVal;
  td_clock_hperiod_bus : option PyVal;
  td_single_clock : PyVal;
  td_ignore_protocol_error : bool }.

(** The externally visible actions of a build, in the order they happen.
    An action on the file system is logged when it is attempted, whether
    it then succeeds or raises.  [EvAnalyze] stands for the run of the
    analyzer, which reads the HDL sources, and [EvRender] for the call of
    the template engine, which reads the template. *)
Inductive Event :=
| EvAnalyze (filelist : list string) (topmodule : string)
            (include define : option (list string)) (skip_not_found : bool)
| EvDump
| EvPrint (line : string)
| EvRender (template_file : string) (td : TemplateDict)
| EvComponentGen (name : string) (memorylist : list AxiDefinition)
                 (ext_addrwidth : PyVal) (ext_burstlength : Z)
                 (ext_ports : list ExtPort) (ext_params : list Row3)
| EvRead (path : string)
| EvMkdir (path : string)
| EvWrite (path : string) (content : string)
| EvCopy (src dst : string).
End Contexts.

Arguments EvAnalyze {Resource}.
Arguments EvDump {Resource}.
Arguments EvPrint {Resource}.
Arguments EvRender {Resource}.
Arguments EvComponentGen {Resource}.
Arguments EvRead {Resource}.
Arguments EvMkdir {Resource}.
Arguments EvWrite {Resource}.
Arguments EvCopy {Resource}.
Arguments mkTemplateDict {Resource}.
Arguments td_userlogic_name {Resource}.
Arguments td_masterlist {Resource}.
Arguments td_slavelist {Resource}.
Arguments td_def_top_parameters {Resource}.
Arguments td_def_top_localparams {Resource}.
Arguments td_def_top_ioports {Resource}.
Arguments td_name_top_ioports {Resource}.
Arguments td_ext_addrwidth {Resource}.
Arguments td_ext_burstlength {Resource}.
Arguments td_ext_burstlen_width {Resource}.
Arguments td_hdlname {Resource}.
Arguments td_common_hdlname {Resource}.
Arguments td_testname {Resource}.
Arguments td_ipcore_version {Resource}.
Arguments td_memimg {Resource}.
Arguments td_binfile {Resource}.
Arguments td_usertestcode {Resource}.
Arguments td_simaddrwidth {Resource}.
Arguments td_mpd_parameters {Resource}.
Arguments td_mpd_ports {Resource}.
Arguments td_tcl_parameters {Resource}.
Arguments td_tcl_ports {Resource}.
Arguments td_clock_hperiod_userlogic {Resource}.
Arguments td_clock_hperiod_bus {Resource}.
Arguments td_single_clock {Resource}.
Arguments td_ignore_protocol_error {Resource}.

(** ** Exceptions and results *)

Inductive Exn : Type :=
| ValueError (msg : string)
| KeyError (key : string)
| TypeError (msg : string)
| FileNotFoundError (path : string)
| FileExistsError (path : string)
| IsADirectoryError (path : string)
| NotADirectoryError (path : string)
| SameFileError (src dst : string)
| ExternalError (msg : string).

Inductive Result (A : Type) : Type :=
| Ok (a : A)
| Raise (e : Exn).

Arguments Ok {A}.
Arguments Raise {A}.

(** ** The file system

    A tree of directories and regular files, addressed by the list of the
    components of an absolute path; the root is the empty list and is
    always a directory.  There are no links and no permissions, and no
    limits on the length of a name or on the space that is left.  A
    component [..] is kept as a name like any other, so that a path with
    such a component names no node of a tree: the pipeline puts none into
    the paths that it builds, and what is stated of a path of the caller
    says so where it matters. *)

Inductive Inode : Type :=
| Dir
| File (content : string).

Record FileSys := mkFileSys {
  cwd : list string;
  nodes : gmap (list string) Inode }.

Definition push_component (cur : string) (l : list string) : list string :=
  if String.eqb cur "" || String.eqb cur "." then l else cur :: l.

Fixpoint components_from (cur s : string) : list string :=
  match s with
  | EmptyString => push_component cur []
  | String c s' =>
      if Ascii.eqb c "/"%char
      then push_component cur (components_from "" s')
      else components_from (cur +:+ String c "") s'
  end.

(** The components of a path: empty components and [.] are dropped. *)
Definition components (p : string) : list string := components_from "" p.

Definition resolve (fs : FileSys) (p : string) : list string :=
  if PyStr.startswith p "/" then components p else cwd fs ++ components p.

Definition inode_at (fs : FileSys) (k : list string) : option Inode :=
  match k with
  | [] => Some Dir
  | _ => nodes fs !! k
  end.

(** The walk down to [k]: every node on the way, from the root to the
    parent of [k], has to be a directory.  The walk stops at a name that
    is missing ([ENOENT]) or that is a regular file ([ENOTDIR]). *)
Fixpoint walk_from (fs : FileSys) (cur rest : list string) : option (string → Exn) :=
  match rest with
  | [] => None
  | c :: rest' =>
      match inode_at fs cur with
      | Some Dir => walk_from fs (cur ++ [c]) rest'
      | Some (File _) => Some NotADirectoryError
      | None => Some FileNotFoundError
      end
  end.

Definition walk (fs : FileSys) (k : list string) : option (string → Exn) :=
  walk_from fs [] k.

(** The last name in a path, slashes apart. *)
Fixpoint last_name_from (last cur s : string) : string :=
  match s with
  | EmptyString => if String.eqb cur "" then last else cur
  | String c s' =>
      if Ascii.eqb c "/"%char
      then last_name_from (if String.eqb cur "" then last else cur) "" s'
      else last_name_from last (cur +:+ String c "") s'
  end.

(** A path that ends with the component [.] is walked to its very end:
    the node that it leads to has to be a directory too. *)
Definition trailing_dot (p : string) : bool :=
  String.eqb (last_name_from "" "" p) ".".

Definition steps (fs : FileSys) (p : string) : list string :=
  resolve fs p ++ (if trailing_dot p then ["."] else []).

(** Python refuses a path with a null character. *)
Fixpoint has_nul (s : string) : bool :=
  match s with
  | EmptyString => false
  | String c s' => Ascii.eqb c Ascii.zero || has_nul s'
  end.

Definition set_inode (fs : FileSys) (k : list string) (i : Inode) : FileSys :=
  mkFileSys (cwd fs) (<[k := i]> (nodes fs)).

(** [os.stat], with an error read as "nothing there", as [os.path.exists]
    and [os.path.isdir] read it: the empty path names nothing, and neither
    does a path that cannot be walked or a regular file followed by a
    slash. *)
Definition fs_stat (fs : FileSys) (p : string) : option Inode :=
  if has_nul p then None
  else if String.eqb p "" then None
  else
    let k := resolve fs p in
    match walk fs (steps fs p) with
    | Some _ => None
    | None =>
        match inode_at fs k with
        | Some (File c) => if PyStr.endswith p "/" then None else Some (File c)
        | o => o
        end
    end.

(** [os.path.exists], [os.path.isdir] *)
Definition fs_exists (fs : FileSys) (p : string) : bool :=
  match fs_stat fs p with Some _ => true | None => false end.

Definition fs_isdir (fs : FileSys) (p : string) : bool :=
  match fs_stat fs p with Some Dir => true | _ => false end.

(** [os.path.samefile], with a failing [stat] read as "not the same". *)
Definition fs_samefile (fs : FileSys) (p q : string) : bool :=
  fs_exists fs p && fs_exists fs q && bool_decide (resolve fs p = resolve fs q).

(** [os.mkdir(p)] *)
Definition fs_mkdir (fs : FileSys) (p : string) : Result FileSys :=
  if has_nul p then Raise (ValueError "embedded null byte")
  else if String.eqb p "" then Raise (FileNotFoundError p)
  else
    let k := resolve fs p in
    match walk fs (steps fs p) with
    | Some e => Raise (e p)
    | None =>
        match inode_at fs k with
        | Some _ => Raise (FileExistsError p)
        | None => Ok (set_inode fs k Dir)
        end
    end.

(** [f = open(p, 'w'); f.write(c); f.close()]: the file is created or
    truncated; a path that ends with a slash asks for a directory. *)
Definition fs_write (fs : FileSys) (p c : string) : Result FileSys :=
  if has_nul p then Raise (ValueError "embedded null byte")
  else if String.eqb p "" then Raise (FileNotFoundError p)
  else
    let k := resolve fs p in
    match walk fs (steps fs p) with
    | Some e => Raise (e p)
    | None =>
        if PyStr.endswith p "/" then Raise (IsADirectoryError p)
        else match inode_at fs k with
             | Some Dir => Raise (IsADirectoryError p)
             | Some (File _) | None => Ok (set_inode fs k (File c))
             end
    end.

(** [open(p, 'r').read()] *)
Definition fs_read (fs : FileSys) (p : string) : Result string :=
  if has_nul p then Raise (ValueError "embedded null byte")
  else if String.eqb p "" then Raise (FileNotFoundError p)
  else
    let k := resolve fs p in
    match walk fs (steps fs p) with
    | Some e => Raise (e p)
    | None =>
        match inode_at fs k with
        | Some Dir => Raise (IsADirectoryError p)
        | Some (File c) =>
            if PyStr.endswith p "/" then Raise (NotADirectoryError p) else Ok c
        | None => Raise (FileNotFoundError p)
        end
    end.

(** [os.path.basename], [os.path.join] *)
Fixpoint basename_from (cur s : string) : string :=
  match s with
  | EmptyString => cur
  | String c s' =>
      if Ascii.eqb c "/"%char then basename_from "" s'
      else basename_from (cur +:+ String c "") s'
  end.

Definition basename (p : string) : string := basename_from "" p.

Definition path_join (a b : string) : string :=
  if PyStr.startswith b "/" then b
  else if String.eqb a "" || PyStr.endswith a "/" then a +:+ b
  else a +:+ "/" +:+ b.

(** ** The world and the monad of the pipeline *)

Section Monad.
Variable Resource : Type.

Record World := mkWorld {
  fs : FileSys;
  log : list (Event Resource) }.

Definition M (A : Type) : Type := World → Result A * World.

Definition ret {A} (a : A) : M A := λ w, (Ok a, w).

Definition raise {A} (e : Exn) : M A := λ w, (Raise e, w).

Definition bind {A B} (m : M A) (k : A → M B) : M B :=
  λ w, match m w with
       | (Ok a, w') => k a w'
       | (Raise e, w') => (Raise e, w')
       end.

Definition emit (ev : Event Resource) : M unit :=
  λ w, (Ok tt, mkWorld (fs w) (log w ++ [ev])).

(** Lifting of a result that needs no world. *)
Definition of_result {A} (r : Result A) : M A := λ w, (r, w).

(** Lifting of an update of the file system. *)
Definition update_fs (f : FileSys → Result FileSys) : M unit :=
  λ w, match f (fs w) with
       | Ok fs' => (Ok tt, mkWorld fs' (log w))
       | Raise e => (Raise e, w)
       end.

Definition query_fs {A} (f : FileSys → Result A) : M A :=
  λ w, (f (fs w), w).
End Monad.

Arguments mkWorld {Resource}.
Arguments fs {Resource}.
Arguments log {Resource}.
Arguments ret {Resource A}.
Arguments raise {Resource A}.
Arguments bind {Resource A B}.
Arguments emit {Resource}.
Arguments of_result {Resource A}.
Arguments update_fs {Resource}.
Arguments query_fs {Resource A}.

Declare Scope comp_scope.
Delimit Scope comp_scope with comp.
Notation "x ← y ; z" := (bind y (λ x : _, z))
  (at level 20, y at level 100, z at level 200, only parsing) : comp_scope.
Notation "' x ← y ; z" := (bind y (λ x : _, z))
  (at level 20, x pattern, y at level 100, z at level 200, only parsing) : comp_scope.
Notation "x ;; z" := (bind x (λ _, z))
  (at level 100, z at level 200, only parsing, right associativity) : comp_scope.
Open Scope comp_scope.

(** A loop that threads its accumulators through a monadic body. *)
Fixpoint foldM {Resource A B} (f : A → B → M Resource A) (l : list B) (a : A)
  : M Resource A :=
  match l with
  | [] => ret a
  | x :: l' => a' ← f a x; foldM f l' a'
  end.

(** A loop whose body can raise and acts on nothing but its accumulator. *)
Fixpoint foldR {A B} (f : A → B → Result A) (l : list B) (a : A) : Result A :=
  match l with
  | [] => Ok a
  | x :: l' =>
      match f a x with
      | Ok a' => foldR f l' a'
      | Raise e => Raise e
      end
  end.

(** A loop run for its effects only. *)
Fixpoint forM_ {Resource B} (f : B → M Resource unit) (l : list B)
  : M Resource unit :=
  match l with
  | [] => ret tt
  | x :: l' => f x;; forM_ f l'
  end.

(** ** Input and output *)

(** [shutil.copyfile(src, dst)] *)
Definition fs_copyfile (fs : FileSys) (src dst : string) : Result FileSys :=
  if fs_samefile fs src dst then Raise (SameFileError src dst)
  else match fs_read fs src with
       | Ok c => fs_write fs dst c
       | Raise e => Raise e
       end.

(** [shutil.copy(src, dst)]: into [dst] when that is a directory. *)
Definition fs_copy (fs : FileSys) (src dst : string) : Result FileSys :=
  let dst := if fs_isdir fs dst then path_join dst (basename src) else dst in
  fs_copyfile fs src dst.

Section IO.
Context {Resource : Type}.

Definition os_path_exists (p : string) : M Resource bool :=
  query_fs (λ fs, Ok (fs_exists fs p)).

Definition os_mkdir (p : string) : M Resource unit :=
  emit (EvMkdir p);; update_fs (λ fs, fs_mkdir fs p).

(** The two statements [if not os.path.exists(d): os.mkdir(d)]. *)
Definition mkdir_unless_exists (d : string) : M Resource unit :=
  e ← os_path_exists d;
  if negb e then os_mkdir d else ret tt.

(** The statements [f = open(p, 'w'); f.write(c); f.close()], where [c] is
    all that is written between opening and closing. *)
Definition write_file (p c : string) : M Resource unit :=
  emit (EvWrite p c);; update_fs (λ fs, fs_write fs p c).

(** [open(p, 'r').read()] of a file named by the caller. *)
Definition read_file (p : string) : M Resource string :=
  emit (EvRead p);; query_fs (λ fs, fs_read fs p).

Definition shutil_copyfile (src dst : string) : M Resource unit :=
  emit (EvCopy src dst);; update_fs (λ fs, fs_copyfile fs src dst).

Definition shutil_copy (src dst : string) : M Resource unit :=
  emit (EvCopy src dst);; update_fs (λ fs, fs_copy fs src dst).

Definition print (line : string) : M Resource unit := emit (EvPrint line).

(** [configs[k]] *)
Definition config_get (configs : Configs) (k : string) : M Resource PyVal :=
  match configs !! k with
  | Some v => ret v
  | None => raise (KeyError k)
  end.
End IO.

(** [sorted(configs.items(), key=lambda x:x[0])] *)
Definition key_le (x y : string * PyVal) : Prop := String.leb x.1 y.1 = true.

#[global] Instance key_le_dec x y : Decision (key_le x y).
Proof. unfold key_le. apply _. Defined.

Definition sorted_items (configs : Configs) : list (string * PyVal) :=
  merge_sort key_le (map_to_list configs).

(** ** The floating-point numbers of CPython

    [math.log(v, b)] on two integers and [int(math.ceil(x))], as the
    module [math] of CPython computes them with the doubles of IEEE 754:
    each logarithm is the C library's [log] of the integer converted to a
    double, and the result is the quotient of the two.  The C library's
    [log] is the argument [ln]. *)

Module Binary64.

(** The double nearest to an integer, ties to even; infinity stands for
    the overflow of the conversion. *)
Definition of_int (v : Z) : PrimFloat.float :=
  SF2Prim (binary_normalize prec emax v 0 false).

(** [_PyLong_Frexp]: a positive integer as [x * 2**e] with [0.5 <= x < 1],
    [x] rounded to 53 bits, ties to even. *)
Definition frexp (v : Z) : PrimFloat.float * Z :=
  let e := Z.log2 v + 1 in
  let shift := e - 53 in
  let m :=
    if shift <=? 0 then v * 2 ^ (- shift)
    else
      let q := v / 2 ^ shift in
      let r := v mod 2 ^ shift in
      let half := 2 ^ (shift - 1) in
      if (half <? r) || ((r =? half) && Z.odd q) then q + 1 else q in
  if m =? 2 ^ 53 then (PrimFloat.div (of_int 1) (of_int 2), e + 1)
  else (Z.ldexp (of_int m) (- 53), e).

(** [loghelper]: the logarithm of a positive integer; one that is too
    large for a double is taken apart first. *)
Definition loghelper (ln : PrimFloat.float → PrimFloat.float) (v : Z)
  : PrimFloat.float :=
  let x := of_int v in
  if PrimFloat.is_infinity x
  then let '(x, e) := frexp v in (ln x + ln (of_int 2) * of_int e)%float
  else ln x.

(** [math.log(v, b)] *)
Definition log (ln : PrimFloat.float → PrimFloat.float) (v b : Z)
  : PrimFloat.float :=
  (loghelper ln v / loghelper ln b)%float.

(** [int(math.ceil(x))] of a finite [x]. *)
Definition ceil (x : PrimFloat.float) : Z :=
  match Prim2SF x with
  | S754_finite s m e =>
      let n := if s then Z.neg m else Z.pos m in
      if 0 <=? e then n * 2 ^ e else - ((- n) / 2 ^ (- e))
  | _ => 0
  end.

End Binary64.

(** ** The collaborators of the pipeline

    The libraries and the parts of the package that [ipgen.py] calls but
    does not define: the C library's logarithm, pyverilog's code generator
    and identifier utilities, the RTL converter, the template engine with
    the template directory, the IP-XACT generator and the expansion of the
    user's home directory. *)

Class External := {
  Expr : Type;
  Ast : Type;
  Param : Type;
  Resource : Type;
  float : Type;
  (** attributes read by the pipeline *)
  param_name : Param → string;
  param_value : Param → Expr;
  res_name : Resource → string;
  res_datawidth : Resource → Z;
  res_lite : Resource → bool;
  (** [math.log(v, b)] of a positive integer, and [int(math.ceil(x))] *)
  math_log : Z → Z → float;
  math_ceil : float → Z;
  (** [ASTCodeGenerator().visit] *)
  visit : Node Expr Ast Param → string;
  (** [iv.getIdentifiers], [ir.replaceIdentifiers] *)
  getIdentifiers : Expr → list string;
  replaceIdentifiers : Expr → gmap string string → Expr;
  (** [RtlConverter(filelist, topmodule, include, define)] followed by
      [generate(skip_not_found)] and the getters; a function of its
      arguments, the HDL sources that it reads being given once and for
      all *)
  RtlConverter : list string → string → option (list string) →
                 option (list string) → bool →
                 Result (Analysis Expr Ast Param Resource);
  (** [self.env.get_template(template_file).render(template_dict)] *)
  jinja_render : string → TemplateDict Resource → string;
  (** [open(TEMPLATE_DIR + name, 'r').read()]: the files of the template
      directory are part of the installed package and are never written *)
  template_source : string → string;
  (** [ComponentGen().generate] *)
  componentgen_generate : string → list AxiDefinition → PyVal → Z →
                          list ExtPort → list Row3 → string;
  (** [os.path.expanduser] *)
  expanduser : string → string }.

(** The collaborators [E] with the floating-point numbers of CPython in
    the place of their own. *)
Definition with_binary64 (ln : PrimFloat.float → PrimFloat.float) (E : External)
  : External := {|
  Expr := @Expr E;
  Ast := @Ast E;
  Param := @Param E;
  Resource := @Resource E;
  float := PrimFloat.float;
  param_name := @param_name E;
  param_value := @param_value E;
  res_name := @res_name E;
  res_datawidth := @res_datawidth E;
  res_lite := @res_lite E;
  math_log := Binary64.log ln;
  math_ceil := Binary64.ceil;
  visit := @visit E;
  getIdentifiers := @getIdentifiers E;
  replaceIdentifiers := @replaceIdentifiers E;
  RtlConverter := @RtlConverter E;
  jinja_render := @jinja_render E;
  template_source := @template_source E;
  componentgen_generate := @componentgen_generate E;
  expanduser := @expanduser E |}.

(** The keyword arguments of [render]. *)
Inductive Kw : Type :=
| kw_ext_addrwidth (v : PyVal)
| kw_ext_burstlength (v : Z)
| kw_single_clock (v : PyVal)
| kw_hdlname (v : string)
| kw_common_hdlname (v : string)
| kw_testname (v : string)
| kw_ipcore_version (v : string)
| kw_memimg (v : option string)
| kw_binfile (v : bool)
| kw_usertestcode (v : option string)
| kw_simaddrwidth (v : PyVal)
| kw_mpd_parameters (v : list Row3)
| kw_mpd_ports (v : list Row3)
| kw_tcl_parameters (v : list Row3)
| kw_tcl_ports (v : list Row3)
| kw_clock_hperiod_userlogic (v : PyVal)
| kw_clock_hperiod_bus (v : PyVal)
| kw_ignore_protocol_error (v : bool).

(** The value of a keyword argument, or its default. *)
Definition kwarg {A} (sel : Kw → option A) (default : A) (kws : list Kw) : A :=
  foldl (λ acc k, match sel k with Some v => v | None => acc end) default kws.

(** ** The pipeline *)

Section Pipeline.
Context `{E : External}.

Abbreviation Comp := (M Resource).
Abbreviation AstNode := (Node Expr Ast Param).

(** The double quote, as a one-character string. *)
Definition dquote : string := String (ascii_of_nat 34) EmptyString.

(** [log2(v)]: [int(math.ceil(math.log(v, 2)))]; [math.log] raises on a
    number that is not positive. *)
Definition log2 (v : Z) : Comp Z :=
  if v <=? 0 then raise (ValueError "math domain error")
  else ret (math_ceil (math_log v 2)).

(** The dictionary [template_dict] that [render] hands to the template,
    given the burst-length width that [render] has computed. *)
Definition template_dict (userlogic_name : string)
    (masterlist slavelist : list Resource)
    (def_top_parameters def_top_localparams : list string)
    (def_top_ioports name_top_ioports : list string)
    (kws : list Kw) (ext_burstlen_width : Z) : TemplateDict Resource :=
  {|
    td_userlogic_name := userlogic_name;
    td_masterlist := masterlist;
    td_slavelist := slavelist;
    td_def_top_parameters := def_top_parameters;
    td_def_top_localparams := def_top_localparams;
    td_def_top_ioports := def_top_ioports;
    td_name_top_ioports := name_top_ioports;
    td_ext_addrwidth :=
      kwarg (λ k, match k with kw_ext_addrwidth v => Some v | _ => None end) (VInt 32) kws;
    td_ext_burstlength :=
      kwarg (λ k, match k with kw_ext_burstlength v => Some v | _ => None end) 256 kws;
    td_ext_burstlen_width := ext_burstlen_width;
    td_hdlname :=
      kwarg (λ k, match k with kw_hdlname v => Some (Some v) | _ => None end) None kws;
    td_common_hdlname :=
      kwarg (λ k, match k with kw_common_hdlname v => Some (Some v) | _ => None end) None kws;
    td_testname :=
      kwarg (λ k, match k with kw_testname v => Some (Some v) | _ => None end) None kws;
    td_ipcore_version :=
      kwarg (λ k, match k with kw_ipcore_version v => Some (Some v) | _ => None end) None kws;
    td_memimg :=
      default "None"
        (kwarg (λ k, match k with kw_memimg v => Some v | _ => None end) None kws);
    td_binfile :=
      kwarg (λ k, match k with kw_binfile v => Some v | _ => None end) false kws;
    td_usertestcode :=
      default ""
        (kwarg (λ k, match k with kw_usertestcode v => Some v | _ => None end) None kws);
    td_simaddrwidth :=
      kwarg (λ k, match k with kw_simaddrwidth v => Some (Some v) | _ => None end) None kws;
    td_mpd_parameters :=
      kwarg (λ k, match k with kw_mpd_parameters v => Some v | _ => None end) [] kws;
    td_mpd_ports :=
      kwarg (λ k, match k with kw_mpd_ports v => Some v | _ => None end) [] kws;
    td_tcl_parameters :=
      kwarg (λ k, match k with kw_tcl_parameters v => Some v | _ => None end) [] kws;
    td_tcl_ports :=
      kwarg (λ k, match k with kw_tcl_ports v => Some v | _ => None end) [] kws;
    td_clock_hperiod_userlogic :=
      kwarg (λ k, match k with kw_clock_hperiod_userlogic v => Some (Some v) | _ => None end)
            None kws;
    td_clock_hperiod_bus :=
      kwarg (λ k, match k with kw_clock_hperiod_bus v => Some (Some v) | _ => None end)
            None kws;
    td_single_clock :=
      kwarg (λ k, match k with kw_single_clock v => Some v | _ => None end) (VBool false) kws;
    td_ignore_protocol_error :=
      kwarg (λ k, match k with kw_ignore_protocol_error v => Some v | _ => None end) false kws
  |}.

(** [SystemBuilder.render] *)
Definition render (template_file userlogic_name : string)
    (masterlist slavelist : list Resource)
    (def_top_parameters def_top_localparams : list string)
    (def_top_ioports name_top_ioports : list string)
    (kws : list Kw) : Comp string :=
  let ext_burstlength :=
    kwarg (λ k, match k with kw_ext_burstlength v => Some v | _ => None end) 256 kws in
  ext_burstlen_width ← log2 ext_burstlength;
  let template_dict :=
    template_dict userlogic_name masterlist slavelist
                  def_top_parameters def_top_localparams
                  def_top_ioports name_top_ioports kws ext_burstlen_width in
  emit (EvRender template_file template_dict);;
  ret (jinja_render template_file template_dict).

(** The converter: construction, [generate] and the getters. *)
Definition convert (userlogic_filelist : list string) (userlogic_topmodule : string)
    (include define : option (list string)) (skip_not_found : bool)
  : Comp (Analysis Expr Ast Param Resource) :=
  emit (EvAnalyze userlogic_filelist userlogic_topmodule include define skip_not_found);;
  of_result (RtlConverter userlogic_filelist userlogic_topmodule include define
                          skip_not_found).

(** [vast.Wire(pv.name, pv.width, pv.signed)] *)
Definition wire_of (pv : Port Expr) : Wire Expr :=
  mkWire (port_name pv) (port_width pv) (port_signed pv).

(** [build_package_general] *)
Definition build_package_general (configs : Configs)
    (synthesized_code common_code : string) : Comp unit :=
  let code := synthesized_code +:+ common_code in
  output ← config_get configs "output";
  match output with
  | VStr path => write_file path code
  | _ => raise (TypeError "configs['output'] is not a path")
  end.

(** *** The AXI package *)

(** The datatype of a parameter and the directions of a port, as the
    conditional expressions of [build_package_axi] give them. *)
Definition axi_dt (r : string) : string :=
  if PyStr.truthy_nat (PyStr.count r dquote) then "string" else "integer".

Definition axi_mpd_dir (pv : Port Expr) : string :=
  match port_class pv with
  | Input => "I"
  | Output => "O"
  | _ => "IO"
  end.

Definition axi_ext_dir (pv : Port Expr) : string :=
  match port_class pv with
  | Input => "in"
  | Output => "out"
  | _ => "inout"
  end.

(** First loop over [top_parameters]: the accumulators are
    [def_top_parameters], [def_top_localparams] and [mpd_parameters]. *)
Definition axi_mpd_parameters_step
    (acc : list string * list string * list Row3) (item : string * Param)
  : list string * list string * list Row3 :=
  let '(def_top_parameters, def_top_localparams, mpd_parameters) := acc in
  let '(pk, pv) := item in
  let r := visit (NParam pv) in
  let def_top_parameters := def_top_parameters ++ [r] in
  if PyStr.truthy_nat (PyStr.count r "localparam")
  then (def_top_parameters, def_top_localparams ++ [r], mpd_parameters)
  else
    let _name := param_name pv in
    let _value := visit (NExpr (param_value pv)) in
    let _dt := axi_dt r in
    (def_top_parameters, def_top_localparams,
     mpd_parameters ++ [(_name, _value, _dt)]).

(** First loop over [top_ioports]: [name_top_ioports], [def_top_ioports]
    and [mpd_ports]. *)
Definition axi_mpd_ports_step
    (acc : list string * list string * list Row3)
    (item : string * (Port Expr * option Z))
  : list string * list string * list Row3 :=
  let '(name_top_ioports, def_top_ioports, mpd_ports) := acc in
  let '(pk, (pv, pwidth)) := item in
  let name_top_ioports := name_top_ioports ++ [pk] in
  let new_pv := wire_of pv in
  let def_top_ioports := def_top_ioports ++ [visit (NWire new_pv)] in
  let _name := port_name pv in
  let _dir := axi_mpd_dir pv in
  let _vec := match port_width pv with
              | None => ""
              | Some w => visit (NWidth w)
              end in
  (name_top_ioports, def_top_ioports, mpd_ports ++ [(_name, _dir, _vec)]).

(** The dictionary [_d] of the second loop over [top_ioports]. *)
Definition modelparam_accessor (i : string) : string :=
  "(spirit:decode(id('MODELPARAM_VALUE." +:+ i +:+ "')))".

Definition accessor_dict (_ids : list string) : gmap string string :=
  foldl (λ _d i, <[i := modelparam_accessor i]> _d) ∅ _ids.

(** [pwidth - 1]: an integer, or the [TypeError] of [None - 1]. *)
Definition minus_one (pwidth : option Z) : Result Z :=
  match pwidth with
  | Some n => Ok (n - 1)
  | None => Raise (TypeError "unsupported operand type(s) for -: 'NoneType' and 'int'")
  end.

(** Second loop over [top_ioports]: [ext_ports].  The subtraction is
    evaluated for a port with a width only, and raises when the analyzer
    has resolved no bit count for it. *)
Definition axi_ext_ports_step (ext_ports : list ExtPort)
    (item : string * (Port Expr * option Z)) : Result (list ExtPort) :=
  let '(pk, (pv, pwidth)) := item in
  let _name := port_name pv in
  let _dir := axi_ext_dir pv in
  match (match port_width pv with
         | None => Ok None
         | Some _ => match minus_one pwidth with
                     | Ok n => Ok (Some n)
                     | Raise e => Raise e
                     end
         end) with
  | Raise e => Raise e
  | Ok _vec =>
      let _ids := match port_width pv with
                  | None => None
                  | Some w => Some (getIdentifiers (msb w))
                  end in
      let _d := match _ids with
                | None => ∅
                | Some ids => accessor_dict ids
                end in
      let _msb := match _ids, port_width pv with
                  | Some _, Some w => Some (visit (NExpr (replaceIdentifiers (msb w) _d)))
                  | _, _ => None
                  end in
      Ok (ext_ports ++ [(_name, _dir, _vec, _msb)])
  end.

(** Second loop over [top_parameters]: [def_top_localparams] (once more)
    and [ext_params]. *)
Definition axi_ext_params_step (acc : list string * list Row3)
    (item : string * Param) : list string * list Row3 :=
  let '(def_top_localparams, ext_params) := acc in
  let '(pk, pv) := item in
  let r := visit (NParam pv) in
  if PyStr.truthy_nat (PyStr.count r "localparam")
  then (def_top_localparams ++ [r], ext_params)
  else
    let _name := param_name pv in
    let _value := visit (NExpr (param_value pv)) in
    let _dt := axi_dt r in
    (def_top_localparams, ext_params ++ [(_name, _value, _dt)]).

(** [memorylist] *)
Definition axi_memorylist (masterlist slavelist : list Resource)
  : list AxiDefinition :=
  let memorylist := [] in
  let memorylist :=
    foldl (λ acc m, acc ++ [mkAxiDefinition (res_name m +:+ "_AXI") (res_datawidth m)
                                            true (res_lite m)])
          memorylist masterlist in
  foldl (λ acc s, acc ++ [mkAxiDefinition (res_name s +:+ "_AXI") (res_datawidth s)
                                          false (res_lite s)])
        memorylist slavelist.

(** [build_package_axi] *)
Definition build_package_axi (configs : Configs)
    (synthesized_code common_code : string)
    (masterlist slavelist : list Resource)
    (top_parameters : list (string * Param))
    (top_ioports : list (string * (Port Expr * option Z)))
    (userlogic_topmodule : string)
    (memimg usertest : option string)
    (ignore_protocol_error : bool) : Comp unit :=
  let code := synthesized_code +:+ common_code in
  (* default values *)
  let ext_burstlength := 256 in
  let '(def_top_parameters, def_top_localparams, mpd_parameters) :=
    foldl axi_mpd_parameters_step ([], [], []) top_parameters in
  let '(name_top_ioports, def_top_ioports, mpd_ports) :=
    foldl axi_mpd_ports_step ([], [], []) top_ioports in
  ext_ports ← of_result (foldR axi_ext_ports_step top_ioports []);
  let '(def_top_localparams, ext_params) :=
    foldl axi_ext_params_step (def_top_localparams, []) top_parameters in
  (* names *)
  let ipcore_version := "_v1_00_a" in
  let mpd_version := "_v2_1_0" in
  let dirname := "ipgen_" +:+ userlogic_topmodule +:+ ipcore_version +:+ "/" in
  let mpdname := "ipgen_" +:+ userlogic_topmodule +:+ mpd_version +:+ ".mpd" in
  let paoname := "ipgen_" +:+ userlogic_topmodule +:+ mpd_version +:+ ".pao" in
  let tclname := "ipgen_" +:+ userlogic_topmodule +:+ mpd_version +:+ ".tcl" in
  let xmlname := "component.xml" in
  let xdcname := "ipgen_" +:+ userlogic_topmodule +:+ ".xdc" in
  let bdname := "bd.tcl" in
  let xguiname := "xgui.tcl" in
  let hdlname := "ipgen_" +:+ userlogic_topmodule +:+ ".v" in
  let testname := "test_ipgen_" +:+ userlogic_topmodule +:+ ".v" in
  let memname := "mem.img" in
  let makefilename := "Makefile" in
  let copied_memimg := match memimg with Some _ => Some memname | None => None end in
  let binfile := match memimg with
                 | Some m => PyStr.endswith m ".bin"
                 | None => false
                 end in
  let mpdpath := dirname +:+ "data/" in
  let paopath := dirname +:+ "data/" in
  let tclpath := dirname +:+ "data/" in
  let xmlpath := dirname in
  let xdcpath := dirname +:+ "data/" in
  let bdpath := dirname +:+ "bd/" in
  let xguipath := dirname +:+ "xgui/" in
  let hdlpath := dirname +:+ "hdl/" in
  let verilogpath := dirname +:+ "hdl/verilog/" in
  let testpath := dirname +:+ "test/" in
  let makefilepath := dirname +:+ "test/" in
  (* directories *)
  mkdir_unless_exists dirname;;
  mkdir_unless_exists (dirname +:+ "/" +:+ "data");;
  mkdir_unless_exists (dirname +:+ "/" +:+ "doc");;
  mkdir_unless_exists (dirname +:+ "/" +:+ "bd");;
  mkdir_unless_exists (dirname +:+ "/" +:+ "xgui");;
  mkdir_unless_exists (dirname +:+ "/" +:+ "hdl");;
  mkdir_unless_exists (dirname +:+ "/" +:+ "hdl/verilog");;
  mkdir_unless_exists (dirname +:+ "/" +:+ "test");;
  (* mpd file *)
  let mpd_template_file := "mpd.txt" in
  a ← config_get configs "ext_addrwidth";
  s ← config_get configs "single_clock";
  mpd_code ← render mpd_template_file userlogic_topmodule masterlist slavelist
                def_top_parameters def_top_localparams def_top_ioports name_top_ioports
                [kw_ext_addrwidth a; kw_ext_burstlength ext_burstlength;
                 kw_single_clock s; kw_hdlname hdlname;
                 kw_ipcore_version ipcore_version;
                 kw_mpd_ports mpd_ports; kw_mpd_parameters mpd_parameters];
  write_file (mpdpath +:+ mpdname) mpd_code;;
  (* pao file *)
  let pao_template_file := "pao.txt" in
  a ← config_get configs "ext_addrwidth";
  s ← config_get configs "single_clock";
  pao_code ← render pao_template_file userlogic_topmodule masterlist slavelist
                def_top_parameters def_top_localparams def_top_ioports name_top_ioports
                [kw_ext_addrwidth a; kw_ext_burstlength ext_burstlength;
                 kw_single_clock s; kw_hdlname hdlname;
                 kw_ipcore_version ipcore_version;
                 kw_mpd_ports mpd_ports; kw_mpd_parameters mpd_parameters];
  write_file (paopath +:+ paoname) pao_code;;
  (* tcl file *)
  s ← config_get configs "single_clock";
  let tcl_code := if negb (truthy s) then template_source "pcore_tcl.tcl" else "" in
  write_file (tclpath +:+ tclname) tcl_code;;
  let memorylist := axi_memorylist masterlist slavelist in
  (* component.xml *)
  a ← config_get configs "ext_addrwidth";
  emit (EvComponentGen ("ipgen_" +:+ userlogic_topmodule) memorylist a
                       ext_burstlength ext_ports ext_params);;
  let xml_code := componentgen_generate ("ipgen_" +:+ userlogic_topmodule) memorylist a
                                        ext_burstlength ext_ports ext_params in
  write_file (xmlpath +:+ xmlname) xml_code;;
  (* xdc *)
  s ← config_get configs "single_clock";
  let xdc_code := if negb (truthy s) then template_source "ipxact.xdc" else "" in
  write_file (xdcpath +:+ xdcname) xdc_code;;
  (* bd *)
  let bd_code := template_source "bd.tcl" in
  write_file (bdpath +:+ bdname) bd_code;;
  (* xgui file *)
  let xgui_template_file := "xgui_tcl.txt" in
  a ← config_get configs "ext_addrwidth";
  s ← config_get configs "single_clock";
  xgui_code ← render xgui_template_file userlogic_topmodule masterlist slavelist
                 def_top_parameters def_top_localparams def_top_ioports name_top_ioports
                 [kw_ext_addrwidth a; kw_ext_burstlength ext_burstlength;
                  kw_single_clock s; kw_hdlname hdlname;
                  kw_ipcore_version ipcore_version;
                  kw_mpd_ports mpd_ports; kw_mpd_parameters mpd_parameters];
  write_file (xguipath +:+ xguiname) xgui_code;;
  (* hdl file *)
  write_file (verilogpath +:+ hdlname) code;;
  (* user test code *)
  usertestcode ← match usertest with
                 | Some path => c ← read_file path; ret (Some c)
                 | None => ret None
                 end;
  (* test file *)
  let test_template_file := "test_ipgen_axi.txt" in
  a ← config_get configs "ext_addrwidth";
  s ← config_get configs "single_clock";
  sim ← config_get configs "sim_addrwidth";
  hu ← config_get configs "hperiod_ulogic";
  hb ← config_get configs "hperiod_bus";
  test_code ← render test_template_file userlogic_topmodule masterlist slavelist
                 def_top_parameters def_top_localparams def_top_ioports name_top_ioports
                 [kw_ext_addrwidth a; kw_ext_burstlength ext_burstlength;
                  kw_single_clock s; kw_hdlname hdlname;
                  kw_memimg copied_memimg; kw_binfile binfile;
                  kw_usertestcode usertestcode; kw_simaddrwidth sim;
                  kw_clock_hperiod_userlogic hu; kw_clock_hperiod_bus hb;
                  kw_ignore_protocol_error ignore_protocol_error];
  write_file (testpath +:+ testname)
             (test_code +:+ template_source "axi_master_fifo.v");;
  (* memory image for test *)
  match memimg with
  | Some m => shutil_copyfile (expanduser m) (testpath +:+ memname)
  | None => ret tt
  end;;
  (* makefile file *)
  let makefile_template_file := "Makefile.txt" in
  a ← config_get configs "ext_addrwidth";
  s ← config_get configs "single_clock";
  makefile_code ← render makefile_template_file userlogic_topmodule masterlist slavelist
                     def_top_parameters def_top_localparams def_top_ioports
                     name_top_ioports
                     [kw_ext_addrwidth a; kw_ext_burstlength ext_burstlength;
                      kw_single_clock s; kw_testname testname];
  write_file (makefilepath +:+ makefilename) makefile_code.

(** *** The Avalon package *)

Definition avalon_dt (r : string) : string :=
  if PyStr.truthy_nat (PyStr.count r dquote) then "STRING"
  else if PyStr.truthy_nat (PyStr.count r "integer") then "INTEGER"
  else "STD_LOGIC_VECTOR".

Definition avalon_dir (pv : Port Expr) : string :=
  match port_class pv with
  | Input => "Input"
  | Output => "Output"
  | _ => "Inout"
  end.

(** Loop over [top_parameters]: [def_top_parameters],
    [def_top_localparams] and [tcl_parameters]. *)
Definition avalon_tcl_parameters_step
    (acc : list string * list string * list Row3) (item : string * Param)
  : list string * list string * list Row3 :=
  let '(def_top_parameters, def_top_localparams, tcl_parameters) := acc in
  let '(pk, pv) := item in
  let r := visit (NParam pv) in
  let def_top_parameters := def_top_parameters ++ [r] in
  if PyStr.truthy_nat (PyStr.count r "localparam")
  then (def_top_parameters, def_top_localparams ++ [r], tcl_parameters)
  else
    let _name := param_name pv in
    let _value := visit (NExpr (param_value pv)) in
    let _dt := avalon_dt r in
    (def_top_parameters, def_top_localparams,
     tcl_parameters ++ [(_name, _value, _dt)]).

(** Loop over [top_ioports]: [name_top_ioports], [def_top_ioports] and
    [tcl_ports]. *)
Definition avalon_tcl_ports_step
    (acc : list string * list string * list Row3)
    (item : string * (Port Expr * option Z))
  : list string * list string * list Row3 :=
  let '(name_top_ioports, def_top_ioports, tcl_ports) := acc in
  let '(pk, (pv, pwidth)) := item in
  let name_top_ioports := name_top_ioports ++ [pk] in
  let new_pv := wire_of pv in
  let def_top_ioports := def_top_ioports ++ [visit (NWire new_pv)] in
  let _name := port_name pv in
  let _dir := avalon_dir pv in
  let _vec := py_str (py_int pwidth) in
  (name_top_ioports, def_top_ioports, tcl_ports ++ [(_name, _dir, _vec)]).

(** [build_package_avalon] *)
Definition build_package_avalon (configs : Configs)
    (synthesized_code common_code : string)
    (masterlist slavelist : list Resource)
    (top_parameters : list (string * Param))
    (top_ioports : list (string * (Port Expr * option Z)))
    (userlogic_topmodule : string)
    (memimg usertest : option string)
    (ignore_protocol_error : bool) : Comp unit :=
  (* default values *)
  let ext_burstlength := 256 in
  let '(def_top_parameters, def_top_localparams, tcl_parameters) :=
    foldl avalon_tcl_parameters_step ([], [], []) top_parameters in
  let '(name_top_ioports, def_top_ioports, tcl_ports) :=
    foldl avalon_tcl_ports_step ([], [], []) top_ioports in
  (* names *)
  let ipcore_version := "_v1_00_a" in
  let dirname := "ipgen_" +:+ userlogic_topmodule +:+ ipcore_version +:+ "/" in
  let tclname := "ipgen_" +:+ userlogic_topmodule +:+ ".tcl" in
  let hdlname := "ipgen_" +:+ userlogic_topmodule +:+ ".v" in
  let common_hdlname := "ipgen_common.v" in
  let testname := "test_ipgen_" +:+ userlogic_topmodule +:+ ".v" in
  let memname := "mem.img" in
  let makefilename := "Makefile" in
  let copied_memimg := match memimg with Some _ => Some memname | None => None end in
  let binfile := match memimg with
                 | Some m => PyStr.endswith m ".bin"
                 | None => false
                 end in
  let hdlpath := dirname +:+ "hdl/" in
  let verilogpath := dirname +:+ "hdl/verilog/" in
  let tclpath := dirname +:+ "hdl/verilog/" in
  let testpath := dirname +:+ "test/" in
  let makefilepath := dirname +:+ "test/" in
  (* directories *)
  mkdir_unless_exists dirname;;
  mkdir_unless_exists (dirname +:+ "/" +:+ "hdl");;
  mkdir_unless_exists (dirname +:+ "/" +:+ "hdl/verilog");;
  mkdir_unless_exists (dirname +:+ "/" +:+ "test");;
  (* tcl file *)
  let tcl_template_file := "qsys_tcl.txt" in
  a ← config_get configs "ext_addrwidth";
  s ← config_get configs "single_clock";
  tcl_code ← render tcl_template_file userlogic_topmodule masterlist slavelist
                def_top_parameters def_top_localparams def_top_ioports name_top_ioports
                [kw_ext_addrwidth a; kw_ext_burstlength ext_burstlength;
                 kw_single_clock s; kw_hdlname hdlname;
                 kw_common_hdlname common_hdlname;
                 kw_tcl_ports tcl_ports; kw_tcl_parameters tcl_parameters];
  write_file (tclpath +:+ tclname) tcl_code;;
  (* hdl file *)
  write_file (verilogpath +:+ hdlname) synthesized_code;;
  (* common hdl file *)
  write_file (verilogpath +:+ common_hdlname) common_code;;
  (* user test code *)
  usertestcode ← match usertest with
                 | Some path => c ← read_file path; ret (Some c)
                 | None => ret None
                 end;
  (* test file *)
  let test_template_file := "test_ipgen_avalon.txt" in
  a ← config_get configs "ext_addrwidth";
  s ← config_get configs "single_clock";
  sim ← config_get configs "sim_addrwidth";
  hu ← config_get configs "hperiod_ulogic";
  hb ← config_get configs "hperiod_bus";
  test_code ← render test_template_file userlogic_topmodule masterlist slavelist
                 def_top_parameters def_top_localparams def_top_ioports name_top_ioports
                 [kw_ext_addrwidth a; kw_ext_burstlength ext_burstlength;
                  kw_single_clock s; kw_hdlname hdlname;
                  kw_common_hdlname common_hdlname;
                  kw_memimg copied_memimg; kw_binfile binfile;
                  kw_usertestcode usertestcode; kw_simaddrwidth sim;
                  kw_clock_hperiod_userlogic hu; kw_clock_hperiod_bus hb;
                  kw_ignore_protocol_error ignore_protocol_error];
  write_file (testpath +:+ testname)
             (test_code +:+ template_source "avalon_master_fifo.v");;
  (* memory image for test *)
  match memimg with
  | Some m => shutil_copy m (testpath +:+ memname)
  | None => ret tt
  end;;
  (* makefile file *)
  let makefile_template_file := "Makefile.txt" in
  a ← config_get configs "ext_addrwidth";
  s ← config_get configs "single_clock";
  makefile_code ← render makefile_template_file userlogic_topmodule masterlist slavelist
                     def_top_parameters def_top_localparams def_top_ioports
                     name_top_ioports
                     [kw_ext_addrwidth a; kw_ext_burstlength ext_burstlength;
                      kw_single_clock s; kw_testname testname];
  write_file (makefilepath +:+ makefilename) makefile_code.

(** *** The orchestrator *)

(** Body of the loop of [build] over [top_parameters.values()]:
    [def_top_parameters] and [def_top_localparams]. *)
Definition build_parameters_step (acc : list string * list string) (p : Param)
  : list string * list string :=
  let '(def_top_parameters, def_top_localparams) := acc in
  let r := visit (NParam p) in
  if PyStr.truthy_nat (PyStr.count r "localparam")
  then (def_top_parameters, def_top_localparams ++ [r])
  else (def_top_parameters ++ [PyStr.replace r ";" ","], def_top_localparams).

(** [copy.deepcopy(pv)] with the attribute [name] reassigned. *)
Definition renamed (pv : Port Expr) (name : string) : Port Expr :=
  mkPort (port_class pv) name (port_width pv) (port_signed pv).

(** Body of the loop of [build] over [top_ioports.items()]:
    [def_top_ioports] and [name_top_ioports]. *)
Definition build_ioports_step (configs : Configs)
    (acc : list string * list string) (item : string * (Port Expr * option Z))
  : Comp (list string * list string) :=
  let '(def_top_ioports, name_top_ioports) := acc in
  let '(pk, (pv, pwidth)) := item in
  if_type ← config_get configs "if_type";
  let def_top_ioports :=
    if py_eq if_type (VStr "avalon")
    then
      let new_pv := renamed pv ("coe_" +:+ port_name pv) in
      def_top_ioports ++ [visit (NIoport new_pv (wire_of new_pv))]
    else
      def_top_ioports ++ [visit (NIoport pv (wire_of pv))] in
  ret (def_top_ioports, name_top_ioports ++ [pk]).

(** The lines printed under "Synthesis Setting". *)
Definition setting_line (item : string * PyVal) : string :=
  "  " +:+ item.1 +:+ " : " +:+ py_str item.2.

(** [SystemBuilder.build] *)
Definition build (configs : Configs) (userlogic_topmodule : string)
    (userlogic_filelist : list string)
    (include define : option (list string))
    (memimg usertest : option string)
    (skip_not_found ignore_protocol_error : bool) : Comp unit :=
  (* default values *)
  let ext_burstlength := 256 in
  sc ← config_get configs "single_clock";
  mismatch ← (if truthy sc
              then hu ← config_get configs "hperiod_ulogic";
                   hb ← config_get configs "hperiod_bus";
                   ret (py_ne hu hb)
              else ret false : Comp bool);
  if mismatch
  then raise (ValueError "All clock periods should be same in single clock mode.")
  else
  (* User RTL Conversion *)
  converter ← convert userlogic_filelist userlogic_topmodule include define
                      skip_not_found;
  let userlogic_ast := userlogic_ast converter in
  let masterlist := an_masterlist converter in
  let slavelist := an_slavelist converter in
  let top_parameters := an_top_parameters converter in
  let top_ioports := an_top_ioports converter in
  let not_found_modules := an_not_found_modules converter in
  (* dump *)
  emit EvDump;;
  (* Code Generator *)
  let userlogic_code := visit (NSource userlogic_ast) in
  let '(def_top_parameters, def_top_localparams) :=
    foldl build_parameters_step ([], []) (top_parameters.*2) in
  '(def_top_ioports, name_top_ioports) ←
    foldM (build_ioports_step configs) top_ioports ([], []);
  if_type ← config_get configs "if_type";
  let node_template_file :=
    if py_eq if_type (VStr "axi") then "node_axi.txt"
    else if py_eq if_type (VStr "avalon") then "node_avalon.txt"
    else "node_general.txt" in
  a ← config_get configs "ext_addrwidth";
  s ← config_get configs "single_clock";
  node_code ← render node_template_file userlogic_topmodule masterlist slavelist
                 def_top_parameters def_top_localparams def_top_ioports name_top_ioports
                 [kw_ext_addrwidth a; kw_ext_burstlength ext_burstlength;
                  kw_single_clock s];
  (* finalize of code generation *)
  let synthesized_code_list := [node_code; userlogic_code] in
  let common_code_list := [] in
  if_type ← config_get configs "if_type";
  let common_code_list :=
    if py_eq if_type (VStr "axi")
    then common_code_list ++
           [template_source "axi_master_interface.v";
            template_source "axi_lite_master_interface.v";
            template_source "axi_slave_interface.v";
            template_source "axi_lite_slave_interface.v"]
    else common_code_list in
  let common_code_list :=
    if py_eq if_type (VStr "avalon")
    then common_code_list ++
           [template_source "avalon_master_interface.v";
            template_source "avalon_lite_master_interface.v";
            template_source "avalon_slave_interface.v";
            template_source "avalon_lite_slave_interface.v"]
    else common_code_list in
  let synthesized_code := PyStr.join synthesized_code_list in
  let common_code := PyStr.join common_code_list in
  (* Print settings *)
  print "----------------------------------------";;
  print "Synthesis Setting";;
  forM_ (λ item, print (setting_line item)) (sorted_items configs);;
  (* write to file *)
  if py_eq if_type (VStr "general")
  then build_package_general configs synthesized_code common_code
  else if py_eq if_type (VStr "axi")
  then build_package_axi configs synthesized_code common_code masterlist slavelist
                         top_parameters top_ioports userlogic_topmodule
                         memimg usertest ignore_protocol_error
  else if py_eq if_type (VStr "avalon")
  then build_package_avalon configs synthesized_code common_code masterlist slavelist
                            top_parameters top_ioports userlogic_topmodule
                            memimg usertest ignore_protocol_error
  else raise (ValueError ("Interface type '" +:+ py_str if_type +:+ "' is not supported.")).

End Pipeline.

(** ** Notions used to state the properties *)

(** *** Observations on the log *)

Section Observations.
Context {Resource : Type}.

Definition is_mkdir (ev : Event Resource) : bool :=
  match ev with
  | EvMkdir _ => true
  | _ => false
  end.

(** The path that an action creates or overwrites. *)
Definition target_path (ev : Event Resource) : option string :=
  match ev with
  | EvMkdir p | EvWrite p _ | EvCopy _ p => Some p
  | _ => None
  end.

(** The burst length and the burst-length width handed to a generator. *)
Definition emitted_burstlength (ev : Event Resource) : option Z :=
  match ev with
  | EvRender _ td => Some (td_ext_burstlength td)
  | EvComponentGen _ _ _ b _ _ => Some b
  | _ => None
  end.

Definition emitted_burstlen_width (ev : Event Resource) : option Z :=
  match ev with
  | EvRender _ td => Some (td_ext_burstlen_width td)
  | _ => None
  end.

(** Every action that a computation adds to the log satisfies [P],
    whether the computation returns or raises. *)
Definition Emits (P : Event Resource → Prop) {A} (m : M Resource A) : Prop :=
  ∀ w r w', m w = (r, w') → ∃ evs, log w' = log w ++ evs ∧ Forall P evs.
End Observations.

(** *** Paths *)

(** [p] lies under the directory [d]: the components of [d] resolve to a
    prefix of those of [p]. *)
Definition under (fs : FileSys) (d p : string) : Prop :=
  resolve fs d `prefix_of` resolve fs p.

(** *** The clock invariant of a configuration *)

(** The test [configs['single_clock'] and (configs['hperiod_ulogic'] !=
    configs['hperiod_bus'])] evaluates, and to a false value. *)
Definition clocks_consistent (configs : Configs) : Prop :=
  ∃ sc, configs !! "single_clock" = Some sc ∧
        (truthy sc = true →
         ∃ hu hb, configs !! "hperiod_ulogic" = Some hu ∧
                  configs !! "hperiod_bus" = Some hb ∧ py_eq hu hb = true).

(** The interface families that [build] dispatches on. *)
Definition supported_family (v : PyVal) : bool :=
  py_eq v (VStr "general") || py_eq v (VStr "axi") || py_eq v (VStr "avalon").

(** *** Classification, in the words of the specification *)

Inductive Family : Type := AXI | AVALON.

Inductive Datatype : Type := DT_STRING | DT_INTEGER | DT_VECTOR.

(** [sub] occurs in [s]. *)
Fixpoint occurs (sub s : string) : bool :=
  String.prefix sub s ||
  match s with
  | EmptyString => false
  | String _ s' => occurs sub s'
  end.

(** "STRING when the rendered declaration contains a quote character,
    INTEGER when it instead contains the integer keyword, and a raw
    bit-vector type otherwise." *)
Definition spec_datatype (r : string) : Datatype :=
  if occurs (String (ascii_of_nat 34) EmptyString) r then DT_STRING
  else if occurs "integer" r then DT_INTEGER
  else DT_VECTOR.

(** The datatype that a tag of a descriptor table stands for. *)
Definition datatype_of_tag (tag : string) : Datatype :=
  if String.eqb tag "STRING" || String.eqb tag "string" then DT_STRING
  else if String.eqb tag "INTEGER" || String.eqb tag "integer" then DT_INTEGER
  else DT_VECTOR.

(** "The vector-width field is None when the port is scalar and otherwise
    equals the resolved bit count minus one." *)
Definition spec_vector_width {Expr} (pv : Port Expr) (pwidth : Z) : PyVal :=
  match port_width pv with
  | None => VNone
  | Some _ => VInt (pwidth - 1)
  end.

(** A port with a width has a resolved bit count. *)
Definition resolved {Expr} (item : string * (Port Expr * option Z)) : bool :=
  match port_width item.2.1, item.2.2 with
  | Some _, None => false
  | _, _ => true
  end.

(** *** The tables of the packages *)

Section Tables.
Context `{E : External}.

(** The datatype tag of a rendered declaration and the direction tag of a
    port, per interface family. *)
Definition datatype_tag (family : Family) (r : string) : string :=
  match family with
  | AXI => axi_dt r
  | AVALON => avalon_dt r
  end.

Definition direction_tag (family : Family) (pv : Port Expr) : string :=
  match family with
  | AXI => axi_mpd_dir pv
  | AVALON => avalon_dir pv
  end.

(** The value of the vector-width field of a classified port, per table:
    the rows [mpd_ports] and [ext_ports] of the AXI package and the rows
    [tcl_ports] of the Avalon package. *)
Definition mpd_vector_width (item : string * (Port Expr * option Z)) : list PyVal :=
  (λ row : Row3, VStr row.2) <$> (axi_mpd_ports_step ([], [], []) item).2.

Definition ext_vector_width (item : string * (Port Expr * option Z))
  : Result (list PyVal) :=
  match axi_ext_ports_step [] item with
  | Ok rows => Ok ((λ row : ExtPort, py_int row.1.2) <$> rows)
  | Raise e => Raise e
  end.

Definition tcl_vector_width (item : string * (Port Expr * option Z)) : list PyVal :=
  (λ row : Row3, VStr row.2) <$> (avalon_tcl_ports_step ([], [], []) item).2.

(** The rows that the loops of the packages build, written as maps over
    the analyzer's dictionaries.  The loop that builds the rows of
    [ext_ports] raises at a port with a width and without a resolved bit
    count; it builds the rows [ext_port_row] when it returns. *)
Definition is_localparam (item : string * Param) : bool :=
  PyStr.truthy_nat (PyStr.count (visit (NParam item.2)) "localparam").

Definition parameter_row (dt : string → string) (item : string * Param) : Row3 :=
  (param_name item.2, visit (NExpr (param_value item.2)), dt (visit (NParam item.2))).

Definition ext_port_row (item : string * (Port Expr * option Z)) : ExtPort :=
  let pv := item.2.1 in
  (port_name pv, axi_ext_dir pv,
   match port_width pv with None => None | Some _ => (λ n, n - 1) <$> item.2.2 end,
   match port_width pv with
   | None => None
   | Some w => Some (visit (NExpr (replaceIdentifiers (msb w)
                                     (accessor_dict (getIdentifiers (msb w))))))
   end).

(** The declaration of a port in the wrapper, per interface family. *)
Definition wrapper_ioport (if_type : PyVal) (item : string * (Port Expr * option Z)) : string :=
  let pv := item.2.1 in
  if py_eq if_type (VStr "avalon")
  then visit (NIoport (renamed pv ("coe_" +:+ port_name pv))
                      (mkWire ("coe_" +:+ port_name pv) (port_width pv) (port_signed pv)))
  else visit (NIoport pv (mkWire (port_name pv) (port_width pv) (port_signed pv))).

(** The burst length and its width, wherever a generator is handed them,
    are those of the default burst length. *)
Definition default_burst (ev : Event Resource) : Prop :=
  (∀ b, emitted_burstlength ev = Some b → b = 256) ∧
  (∀ bw, emitted_burstlen_width ev = Some bw → bw = math_ceil (math_log 256 2)).

(** The wrapper template of an interface family. *)
Definition node_template (if_type : PyVal) : string :=
  if py_eq if_type (VStr "axi") then "node_axi.txt"
  else if py_eq if_type (VStr "avalon") then "node_avalon.txt"
  else "node_general.txt".

(** The context of the wrapper template, the code that [build] hands to
    the packages and the actions of [build] before it dispatches on the
    interface family. *)
Definition node_dict (an : Analysis Expr Ast Param Resource)
    (userlogic_topmodule : string) (if_type a s : PyVal) : TemplateDict Resource :=
  let acc := foldl build_parameters_step ([], []) ((an_top_parameters an).*2) in
  template_dict userlogic_topmodule (an_masterlist an) (an_slavelist an)
                acc.1 acc.2
                (wrapper_ioport if_type <$> an_top_ioports an)
                ((an_top_ioports an).*1)
                [kw_ext_addrwidth a; kw_ext_burstlength 256; kw_single_clock s]
                (math_ceil (math_log 256 2)).

Definition synthesized_code_of (an : Analysis Expr Ast Param Resource)
    (userlogic_topmodule : string) (if_type a s : PyVal) : string :=
  jinja_render (node_template if_type) (node_dict an userlogic_topmodule if_type a s)
  +:+ visit (NSource (userlogic_ast an)).

Definition common_code_of (if_type : PyVal) : string :=
  PyStr.join
    ((if py_eq if_type (VStr "axi")
      then [template_source "axi_master_interface.v";
            template_source "axi_lite_master_interface.v";
            template_source "axi_slave_interface.v";
            template_source "axi_lite_slave_interface.v"]
      else []) ++
     (if py_eq if_type (VStr "avalon")
      then [template_source "avalon_master_interface.v";
            template_source "avalon_lite_master_interface.v";
            template_source "avalon_slave_interface.v";
            template_source "avalon_lite_slave_interface.v"]
      else [])).

Definition prelude_events (configs : Configs)
    (an : Analysis Expr Ast Param Resource)
    (userlogic_topmodule : string) (userlogic_filelist : list string)
    (include define : option (list string)) (skip_not_found : bool)
    (if_type a s : PyVal) : list (Event Resource) :=
  [EvAnalyze userlogic_filelist userlogic_topmodule include define skip_not_found;
   EvDump;
   EvRender (node_template if_type) (node_dict an userlogic_topmodule if_type a s);
   EvPrint "----------------------------------------";
   EvPrint "Synthesis Setting"] ++
  ((λ item, EvPrint (setting_line item)) <$> sorted_items configs).
End Tables.

(** *** Re-running a build *)

(** Directory or regular file. *)
Definition kind (o : option Inode) : option bool :=
  match o with
  | Some Dir => Some true
  | Some (File _) => Some false
  | None => None
  end.

(** [g] has every node of [f], each of the same kind: nothing was removed,
    no directory became a file and no file a directory. *)
Definition fs_le (f g : FileSys) : Prop :=
  cwd g = cwd f ∧
  ∀ k, nodes f !! k ≠ None → kind (nodes g !! k) = kind (nodes f !! k).

(** The relation between the states of a first run, from [f0] to [fn],
    and of a second run that starts from [fn], at the same point of the
    program: [f] in the first run and [h] in the second.  A node of [h] is
    as the first run had it at that point, or it is still as the first run
    left it and the first run had not touched it by then. *)
Definition replay_inv (f0 fn f h : FileSys) : Prop :=
  cwd h = cwd f ∧ cwd fn = cwd f ∧ cwd f0 = cwd f ∧
  ∀ k, (nodes h !! k = nodes f !! k ∨
        (nodes h !! k = nodes fn !! k ∧ nodes f !! k = nodes f0 !! k)) ∧
       kind (nodes h !! k) = kind (nodes fn !! k).

(** The files named by [paths] read the same in [f0] and in [fn]. *)
Definition same_inputs (paths : list string) (f0 fn : FileSys) : Prop :=
  ∀ p, p ∈ paths → nodes fn !! resolve fn p = nodes f0 !! resolve f0 p.

Section Replay.
Context {Resource : Type}.

Definition Mono {A} (m : M Resource A) : Prop :=
  ∀ w a w', m w = (Ok a, w') → fs_le (fs w) (fs w').

(** A successful step of the first run succeeds in the second run with
    the same result, keeps the two runs related and creates no
    directory. *)
Definition Replays (paths : list string) {A} (m : M Resource A) : Prop :=
  ∀ f0 fn w a w' v,
    same_inputs paths f0 fn →
    m w = (Ok a, w') →
    fs_le (fs w') fn →
    replay_inv f0 fn (fs w) (fs v) →
    ∃ v' evs, m v = (Ok a, v') ∧ replay_inv f0 fn (fs w') (fs v') ∧
              log v' = log v ++ evs ∧ Forall (λ ev, is_mkdir ev = false) evs.

Definition Good (paths : list string) {A} (m : M Resource A) : Prop :=
  Mono m ∧ Replays paths m.
End Replay.

(** The paths of the files that a build reads on behalf of the caller. *)
Definition input_paths `{E : External} (memimg usertest : option string) : list string :=
  match usertest with Some p => [p] | None => [] end ++
  match memimg with Some m => [m; expanduser m] | None => [] end.

(** *** What a run yields *)

(** The files that a run writes and the copies that it makes. *)
Inductive Artifact : Type :=
| Written (path content : string)
| Copied (src dst : string).

Section Runs.
Context {Resource : Type}.

Definition artifact (ev : Event Resource) : option Artifact :=
  match ev with
  | EvWrite p c => Some (Written p c)
  | EvCopy src dst => Some (Copied src dst)
  | _ => None
  end.

(** The templates rendered, with their contexts. *)
Definition rendering (ev : Event Resource) : option (string * TemplateDict Resource) :=
  match ev with
  | EvRender tf td => Some (tf, td)
  | _ => None
  end.

(** The calls of the IP-XACT generator, with their arguments. *)
Definition generator_call (ev : Event Resource)
  : option (string * list AxiDefinition * PyVal * Z * list ExtPort * list Row3) :=
  match ev with
  | EvComponentGen name memorylist addrwidth burstlength ext_ports ext_params =>
      Some (name, memorylist, addrwidth, burstlength, ext_ports, ext_params)
  | _ => None
  end.

(** The lines printed. *)
Definition printed (ev : Event Resource) : option string :=
  match ev with
  | EvPrint line => Some line
  | _ => None
  end.

(** A computation that returns has added to the log actions whose
    observations [obs] are related by [R] to what it returns. *)
Definition Yields {A B} (obs : Event Resource → option B) (m : M Resource A)
    (R : A → list B → Prop) : Prop :=
  ∀ w a w', m w = (Ok a, w') → ∃ evs, log w' = log w ++ evs ∧ R a (omap obs evs).

(** Whether it returns or raises, a computation leaves every node of the
    file system in place, a directory a directory and a file a file. *)
Definition Keeps {A} (m : M Resource A) : Prop :=
  ∀ w r w', m w = (r, w') → fs_le (fs w) (fs w').

(** A computation that returns leaves a file system with the property
    [Q]. *)
Definition Leaves (Q : FileSys → Prop) {A} (m : M Resource A) : Prop :=
  ∀ w a w', m w = (Ok a, w') → Q (fs w').

(** A computation that returns keeps the property [Q] of the file
    system. *)
Definition Preserves (Q : FileSys → Prop) {A} (m : M Resource A) : Prop :=
  ∀ w a w', Q (fs w) → m w = (Ok a, w') → Q (fs w').

(** What a computation adds to the log begins with the creation of
    directories and goes on without any. *)
Definition DirectoriesFirst {A} (m : M Resource A) : Prop :=
  ∀ w r w', m w = (r, w') →
    ∃ dirs rest, log w' = log w ++ dirs ++ rest ∧
                 Forall (λ ev, is_mkdir ev = true) dirs ∧
                 Forall (λ ev, is_mkdir ev = false) rest.
End Runs.

(** ** A sample instance

    Small collaborators and a small design, on which the pipeline can be
    run: a module [foo] with a parameter [W], a localparam [L], an output
    [d] of width [W] and a scalar input [c], and one master [m0]. *)

Module Sample.

Inductive expr : Type :=
| IntConst (z : Z)
| Identifier (s : string)
| Minus (a b : expr).

Fixpoint show (e : expr) : string :=
  match e with
  | IntConst z => pretty z
  | Identifier s => s
  | Minus a b => show a +:+ "-" +:+ show b
  end.

Fixpoint identifiers (e : expr) : list string :=
  match e with
  | IntConst _ => []
  | Identifier s => [s]
  | Minus a b => identifiers a ++ identifiers b
  end.

Fixpoint replace_identifiers (e : expr) (d : gmap string string) : expr :=
  match e with
  | IntConst z => IntConst z
  | Identifier s => Identifier (default s (d !! s))
  | Minus a b => Minus (replace_identifiers a d) (replace_identifiers b d)
  end.

Record param := mkParam { local : bool; name : string; value : expr }.

Record resource := mkResource { rname : string; datawidth : Z; lite : bool }.

Definition show_width (w : option (Width expr)) : string :=
  match w with
  | None => ""
  | Some w => "[" +:+ show (msb w) +:+ ":" +:+ show (lsb w) +:+ "] "
  end.

Definition codegen (n : Node expr string param) : string :=
  match n with
  | NSource a => a
  | NParam p =>
      (if local p then "localparam " else "parameter ") +:+
      name p +:+ " = " +:+ show (value p) +:+ ";"
  | NExpr e => show e
  | NWidth w => show_width (Some w)
  | NWire w => "wire " +:+ show_width (wire_width w) +:+ wire_name w +:+ ";"
  | NIoport f s =>
      match port_class f with
      | Input => "input "
      | Output => "output "
      | _ => "inout "
      end +:+ "wire " +:+ show_width (wire_width s) +:+ wire_name s
  end.

Definition port_d : Port expr :=
  mkPort Output "d" (Some (mkWidth (Minus (Identifier "W") (IntConst 1)) (IntConst 0)))
         false.

Definition port_c : Port expr := mkPort Input "c" None false.

Definition foo : Analysis expr string param resource :=
  mkAnalysis "module foo; endmodule"
             [mkResource "m0" 32 false] []
             [("W", mkParam false "W" (IntConst 8)); ("L", mkParam true "L" (IntConst 3))]
             [("d", (port_d, Some 8)); ("c", (port_c, None))]
             [].

#[local] Instance collaborators : External := {|
  Expr := expr;
  Ast := string;
  Param := param;
  Resource := resource;
  float := Z;
  param_name := name;
  param_value := value;
  res_name := rname;
  res_datawidth := datawidth;
  res_lite := lite;
  math_log := λ v b, Z.log2_up v;
  math_ceil := id;
  visit := codegen;
  getIdentifiers := identifiers;
  replaceIdentifiers := replace_identifiers;
  RtlConverter := λ filelist topmodule include define skip_not_found, Ok foo;
  jinja_render := λ template_file td, "<" +:+ template_file +:+ ">";
  template_source := λ name, "{" +:+ name +:+ "}";
  componentgen_generate := λ _ _ _ _ _ _, "<component/>";
  expanduser := id |}.

(** The C library's [log] where the sample runs call it: at 2 and at
    [2**29]. *)
Definition libm_log (x : PrimFloat.float) : PrimFloat.float :=
  if (x =? Binary64.of_int 2)%float then 0x1.62e42fefa39efp-1%float
  else if (x =? Binary64.of_int (2 ^ 29))%float then 0x1.419ecb712c481p+4%float
  else 0%float.

Definition configs (if_type output : string) : Configs :=
  list_to_map
    [("if_type", VStr if_type); ("single_clock", VBool false);
     ("hperiod_ulogic", VInt 5); ("hperiod_bus", VInt 5);
     ("ext_addrwidth", VInt 32); ("ext_burstlength", VInt 16);
     ("sim_addrwidth", VInt 27); ("output", VStr output)].

(** Single-clock mode with two different half periods. *)
Definition mismatched : Configs :=
  <["single_clock" := VBool true]> (<["hperiod_bus" := VInt 4]> (configs "axi" "out")).

(** A working directory [/work] that holds a directory [out], a test
    bench fragment and a memory image. *)
Definition world : World resource :=
  mkWorld (mkFileSys ["work"]
             (<[["work"; "mem.bin"] := File "0123"]>
                (<[["work"; "tb.v"] := File "initial begin end"]>
                   (<[["work"; "out"] := Dir]> (<[["work"] := Dir]> ∅)))))
          [].

Definition run (if_type output : string) (memimg usertest : option string)
  : Result unit * World resource :=
  build (configs if_type output) "foo" ["foo.v"] None None memimg usertest false false
        world.

(** Collaborators whose analyzer does not find a module. *)
Definition failing : External := {|
  Expr := expr;
  Ast := string;
  Param := param;
  Resource := resource;
  float := Z;
  param_name := name;
  param_value := value;
  res_name := rname;
  res_datawidth := datawidth;
  res_lite := lite;
  math_log := λ v b, Z.log2_up v;
  math_ceil := id;
  visit := codegen;
  getIdentifiers := identifiers;
  replaceIdentifiers := replace_identifiers;
  RtlConverter := λ filelist topmodule include define skip_not_found,
    Raise (ExternalError "module bar is not found");
  jinja_render := λ template_file td, "<" +:+ template_file +:+ ">";
  template_source := λ name, "{" +:+ name +:+ "}";
  componentgen_generate := λ _ _ _ _ _ _, "<component/>";
  expanduser := id |}.

End Sample.

(** * Properties *)

(** ** Strings *)

Lemma append_cons (c : ascii) (s t : string) : String c s +:+ t = String c (s +:+ t).
Proof. reflexivity. Qed.

Lemma append_empty_l (s : string) : "" +:+ s = s.
Proof. reflexivity. Qed.

Lemma append_empty_r (s : string) : s +:+ "" = s.
Proof. induction s as [|c s IH]; [done|]. by rewrite append_cons, IH. Qed.

Lemma append_assoc (a b c : string) : (a +:+ b) +:+ c = a +:+ (b +:+ c).
Proof. induction a as [|x a IH]; [done|]. by rewrite !append_cons, IH. Qed.

Lemma prefix_spec (p s : string) :
  String.prefix p s = true ↔ ∃ b, s = p +:+ b.
Proof.
  revert s. induction p as [|c p IH]; intros s.
  - split; [intros _; by exists s | by destruct s].
  - destruct s as [|c' s]; cbn [String.prefix].
    + split; [done | by intros [b Hb]].
    + destruct (ascii_dec c c') as [->|Hne].
      * rewrite IH. split; intros [b Hb]; exists b.
        -- by rewrite append_cons, Hb.
        -- rewrite append_cons in Hb. by injection Hb.
      * split; [done|]. intros [b Hb]. rewrite append_cons in Hb.
        injection Hb as ? ?. by subst.
Qed.

(** [occurs sub s] holds exactly when [s] is [sub] between two strings. *)
Lemma occurs_spec (sub s : string) :
  occurs sub s = true ↔ ∃ a b, s = a +:+ sub +:+ b.
Proof.
  induction s as [|c s IH]; cbn [occurs].
  - rewrite orb_false_r, prefix_spec. split.
    + intros [b Hb]. by exists "", b.
    + intros ([|x a] & b & Hab); [by exists b | by rewrite append_cons in Hab].
  - rewrite orb_true_iff, prefix_spec, IH. split.
    + intros [[b Hb] | (a & b & Hab)].
      * by exists "", b.
      * exists (String c a), b. by rewrite append_cons, Hab.
    + intros ([|x a] & b & Hab).
      * left. by exists b.
      * right. exists a, b. rewrite append_cons in Hab. by injection Hab.
Qed.

Example count_overlapping : PyStr.count "aaaa" "aa" = 2%nat.
Proof. reflexivity. Qed.

Example count_empty : PyStr.count "abc" "" = 4%nat.
Proof. reflexivity. Qed.

Example replace_semicolon :
  PyStr.replace "parameter W = 8;" ";" "," = "parameter W = 8,".
Proof. reflexivity. Qed.

Example endswith_bin :
  PyStr.endswith "mem.bin" ".bin" = true ∧ PyStr.endswith "bin" ".bin" = false.
Proof. split; reflexivity. Qed.

Example components_of_package_path :
  components "ipgen_foo_v1_00_a//hdl/verilog" = ["ipgen_foo_v1_00_a"; "hdl"; "verilog"].
Proof. reflexivity. Qed.

Lemma join_pair (a b : string) : PyStr.join [a; b] = a +:+ b.
Proof. unfold PyStr.join. cbn [foldr]. by rewrite append_empty_r. Qed.

(** ** The monad *)

Section MonadLemmas.
Context {Resource : Type}.
Implicit Types w v : World Resource.

Lemma bind_ok {A B} (m : M Resource A) (k : A → M Resource B) w a w' :
  m w = (Ok a, w') → bind m k w = k a w'.
Proof. intros H. unfold bind. by rewrite H. Qed.

Lemma bind_inv_ok {A B} (m : M Resource A) (k : A → M Resource B) w b w'' :
  bind m k w = (Ok b, w'') →
  ∃ a w', m w = (Ok a, w') ∧ k a w' = (Ok b, w'').
Proof.
  unfold bind. destruct (m w) as [[a|e] w'] eqn:Hm; [eauto | discriminate].
Qed.

Lemma bind_inv {A B} (m : M Resource A) (k : A → M Resource B) w r w'' :
  bind m k w = (r, w'') →
  (∃ a w', m w = (Ok a, w') ∧ k a w' = (r, w'')) ∨
  (∃ e, m w = (Raise e, w'') ∧ r = Raise e).
Proof.
  unfold bind. destruct (m w) as [[a|e] w'] eqn:Hm; [eauto |].
  intros [= <- <-]. eauto.
Qed.

Lemma config_get_some (configs : Configs) k x w :
  configs !! k = Some x → config_get (Resource:=Resource) configs k w = (Ok x, w).
Proof. intros H. unfold config_get. by rewrite H. Qed.

Lemma bind_config_get {B} (configs : Configs) k x (f : PyVal → M Resource B) w :
  configs !! k = Some x → bind (config_get configs k) f w = f x w.
Proof. intros H. by rewrite (bind_ok _ _ _ _ _ (config_get_some _ _ _ w H)). Qed.

Lemma bind_emit {B} ev (f : unit → M Resource B) w :
  bind (emit ev) f w = f tt (mkWorld (fs w) (log w ++ [ev])).
Proof. reflexivity. Qed.

Lemma bind_ret {A B} (a : A) (f : A → M Resource B) w : bind (ret a) f w = f a w.
Proof. reflexivity. Qed.

Lemma bind_assoc {A B C} (m : M Resource A) (f : A → M Resource B)
    (g : B → M Resource C) w :
  bind (bind m f) g w = bind m (λ a, bind (f a) g) w.
Proof. unfold bind. by destruct (m w) as [[a|e] w']. Qed.

Lemma forM_print (f : string * PyVal → string) (l : list (string * PyVal)) w :
  forM_ (λ item, print (f item)) l w
  = (Ok tt, mkWorld (fs w) (log w ++ map (λ item, EvPrint (f item)) l)).
Proof.
  revert w. induction l as [|x l IH]; intros w; simpl.
  - rewrite app_nil_r. by destruct w.
  - unfold print at 1. rewrite bind_emit, IH. simpl. by rewrite <- app_assoc.
Qed.
End MonadLemmas.

(** ** The clock check *)

Section ClockCheck.
Context `{E : External}.

(** C1.  When the single-clock flag of the configuration is true and the
    half period of the user logic differs from that of the bus, [build]
    raises [ValueError] and leaves the world as it found it: the log is
    unchanged, so the analyzer has not been called, and the file system
    is unchanged, so no directory or file has been created. *)
Theorem build_rejects_clock_mismatch
    (configs : Configs) (userlogic_topmodule : string)
    (userlogic_filelist : list string) (include define : option (list string))
    (memimg usertest : option string) (skip_not_found ignore_protocol_error : bool)
    (w : World Resource) (sc hu hb : PyVal) :
  configs !! "single_clock" = Some sc →
  truthy sc = true →
  configs !! "hperiod_ulogic" = Some hu →
  configs !! "hperiod_bus" = Some hb →
  py_eq hu hb = false →
  build configs userlogic_topmodule userlogic_filelist include define memimg usertest
        skip_not_found ignore_protocol_error w
  = (Raise (ValueError "All clock periods should be same in single clock mode."), w).
Proof.
  intros Hsc Ht Hu Hb Hne. unfold build.
  rewrite (bind_config_get _ _ _ _ _ Hsc), Ht.
  unfold bind at 1. unfold bind at 1.
  rewrite (config_get_some _ _ _ _ Hu).
  unfold bind at 1.
  rewrite (config_get_some _ _ _ _ Hb). 
  unfold ret at 1. unfold py_ne. rewrite Hne. reflexivity.
Qed.
End ClockCheck.

(** ** The orchestrator up to its dispatch *)

Section Orchestrator.
Context `{E : External}.
Implicit Types w : World Resource.

Lemma log2_positive (v : Z) w :
  0 < v → log2 v w = (Ok (math_ceil (math_log v 2)), w).
Proof. intros Hv. unfold log2. destruct (Z.leb_spec v 0); [lia | done]. Qed.

Lemma render_default_burst tf name ml sl dp dl di ni a s rest w :
  let kws := kw_ext_addrwidth a :: kw_ext_burstlength 256 :: kw_single_clock s :: rest in
  (∀ k, k ∈ rest → match k with kw_ext_burstlength _ => False | _ => True end) →
  let td := template_dict name ml sl dp dl di ni kws (math_ceil (math_log 256 2)) in
  render tf name ml sl dp dl di ni kws w
  = (Ok (jinja_render tf td), mkWorld (fs w) (log w ++ [EvRender tf td])).
Proof.
  intros kws Hrest td. unfold render.
  assert (Hb : kwarg (λ k, match k with kw_ext_burstlength v => Some v | _ => None end)
                     256 kws = 256).
  { unfold kwarg, kws. simpl. clear -Hrest.
    induction rest as [|k rest IH]; [done|]. simpl.
    assert (Hk := Hrest k (list_elem_of_here _ _)).
    destruct k; try done; apply IH; intros k' Hk'; apply Hrest; by right. }
  rewrite Hb. rewrite (bind_ok _ _ _ _ _ (log2_positive 256 w ltac:(lia))).
  reflexivity.
Qed.

Lemma build_ioports_loop (configs : Configs) t l di ni w :
  configs !! "if_type" = Some t →
  foldM (build_ioports_step configs) l (di, ni) w
  = (Ok (di ++ (wrapper_ioport t <$> l), ni ++ l.*1), w).
Proof.
  intros Ht. revert di ni. induction l as [|[pk [pv pwidth]] l IH]; intros di ni; simpl.
  - by rewrite !app_nil_r.
  - unfold build_ioports_step at 1. cbn beta iota zeta.
    rewrite (bind_assoc (config_get configs "if_type")).
    rewrite (bind_config_get _ _ _ _ _ Ht), bind_ret. fold (build_ioports_step configs).
    rewrite IH.
    unfold wrapper_ioport at 2. unfold wire_of, renamed. cbn [fst snd port_name port_width port_signed fmap list_fmap].
    destruct (py_eq t (VStr "avalon")); by rewrite <- !app_assoc.
Qed.

Lemma clock_check (configs : Configs) w :
  clocks_consistent configs →
  ∃ sc, configs !! "single_clock" = Some sc ∧
        (if truthy sc
         then hu ← config_get configs "hperiod_ulogic";
              hb ← config_get configs "hperiod_bus";
              ret (py_ne hu hb)
         else ret false) w = (Ok false, w).
Proof.
  intros (sc & Hsc & Hc). exists sc. split; [done|].
  destruct (truthy sc); [|done].
  destruct (Hc eq_refl) as (hu & hb & Hu & Hb & Heq).
  rewrite (bind_config_get _ _ _ _ _ Hu), (bind_config_get _ _ _ _ _ Hb).
  unfold py_ne. by rewrite Heq.
Qed.

(** What [build] does before it dispatches on the interface family. *)
Lemma build_dispatch (configs : Configs) top fl inc def mi ut skip ign an t a w :
  clocks_consistent configs →
  RtlConverter fl top inc def skip = Ok an →
  configs !! "if_type" = Some t →
  configs !! "ext_addrwidth" = Some a →
  ∃ s, configs !! "single_clock" = Some s ∧
  build configs top fl inc def mi ut skip ign w
  = (if py_eq t (VStr "general")
     then build_package_general configs (synthesized_code_of an top t a s)
                                (common_code_of t)
     else if py_eq t (VStr "axi")
     then build_package_axi configs (synthesized_code_of an top t a s) (common_code_of t)
            (an_masterlist an) (an_slavelist an) (an_top_parameters an)
            (an_top_ioports an) top mi ut ign
     else if py_eq t (VStr "avalon")
     then build_package_avalon configs (synthesized_code_of an top t a s)
            (common_code_of t)
            (an_masterlist an) (an_slavelist an) (an_top_parameters an)
            (an_top_ioports an) top mi ut ign
     else raise (ValueError ("Interface type '" +:+ py_str t +:+ "' is not supported.")))
    (mkWorld (fs w) (log w ++ prelude_events configs an top fl inc def skip t a s)).
Proof.
  intros Hc Han Ht Ha.
  destruct (clock_check configs w Hc) as (s & Hs & Hcheck).
  exists s. split; [done|].
  unfold build.
  rewrite (bind_config_get _ _ _ _ _ Hs).
  rewrite (bind_ok _ _ _ _ _ Hcheck). cbn iota.
  unfold convert. unfold bind at 1. unfold bind at 1. unfold emit at 1.
  unfold of_result at 1. rewrite Han.
  rewrite bind_emit.
  destruct (foldl build_parameters_step ([], []) (an_top_parameters an).*2)
    as [dp dl] eqn:Hfold.
  rewrite (bind_ok _ _ _ _ _ (build_ioports_loop configs t _ [] [] _ Ht)).
  cbn iota beta. rewrite !app_nil_l.
  rewrite (bind_config_get _ _ _ _ _ Ht).
  rewrite (bind_config_get _ _ _ _ _ Ha).
  rewrite (bind_config_get _ _ _ _ _ Hs).
  rewrite (bind_ok _ _ _ _ _
            (render_default_burst _ _ _ _ _ _ _ _ a s [] _ ltac:(by intros ? ?%elem_of_nil))).
  rewrite (bind_config_get _ _ _ _ _ Ht).
  unfold print at 1 2. rewrite !bind_emit.
  rewrite (bind_ok _ _ _ _ _ (forM_print setting_line _ _)).
  cbn [fs log].
  unfold prelude_events, synthesized_code_of, common_code_of, node_dict, node_template.
  rewrite Hfold, join_pair. cbn [fst snd].
  rewrite <- !app_assoc. cbn [app].
  by destruct (py_eq t (VStr "axi")), (py_eq t (VStr "avalon")).
Qed.
End Orchestrator.

(** ** What a computation adds to the log *)

Section EmitsLemmas.
Context {Resource : Type}.
Implicit Types (w : World Resource) (P : Event Resource → Prop).

Lemma Emits_silent P {A} (m : M Resource A) :
  (∀ w r w', m w = (r, w') → log w' = log w) → Emits P m.
Proof.
  intros H w r w' Hm. exists []. rewrite app_nil_r. split; [eauto | constructor].
Qed.

Lemma Emits_ret P {A} (a : A) : Emits P (ret a).
Proof. apply Emits_silent. by intros w r w' [= <- <-]. Qed.

Lemma Emits_raise P {A} e : Emits P (raise (A:=A) e).
Proof. apply Emits_silent. by intros w r w' [= <- <-]. Qed.

Lemma Emits_bind P {A B} (m : M Resource A) (k : A → M Resource B) :
  Emits P m → (∀ a, Emits P (k a)) → Emits P (bind m k).
Proof.
  intros Hm Hk w r w'' [(a & w' & H1 & H2) | (e & H1 & ->)]%bind_inv.
  - destruct (Hm _ _ _ H1) as (evs1 & E1 & HP1).
    destruct (Hk a _ _ _ H2) as (evs2 & E2 & HP2).
    exists (evs1 ++ evs2). rewrite E2, E1, app_assoc. split; [done|].
    by apply Forall_app.
  - eauto.
Qed.

Lemma Emits_emit P ev : P ev → Emits P (emit ev).
Proof.
  intros HP w r w' [= <- <-]. exists [ev]. split; [done | by constructor].
Qed.

Lemma Emits_of_result P {A} (r : Result A) : Emits P (of_result r).
Proof. apply Emits_silent. by intros w r' w' [= <- <-]. Qed.

Lemma Emits_update_fs P f : Emits P (update_fs (Resource:=Resource) f).
Proof.
  apply Emits_silent. intros w r w'. unfold update_fs.
  by destruct (f (fs w)); intros [= <- <-].
Qed.

Lemma Emits_query_fs P {A} (f : FileSys → Result A) : Emits P (query_fs f).
Proof. apply Emits_silent. by intros w r w' [= <- <-]. Qed.

Lemma Emits_config_get P (configs : Configs) k :
  Emits P (config_get configs k).
Proof. unfold config_get. destruct (configs !! k); [apply Emits_ret | apply Emits_raise]. Qed.

(** The continuation of a lookup may use what was found. *)
Lemma Emits_bind_config_get P {B} (configs : Configs) k (f : PyVal → M Resource B) :
  (∀ x, configs !! k = Some x → Emits P (f x)) →
  Emits P (bind (config_get configs k) f).
Proof.
  intros Hf. unfold config_get. destruct (configs !! k) as [x|] eqn:Hk.
  - intros w r w' Hm. rewrite bind_ret in Hm. by eapply Hf.
  - apply Emits_silent. by intros w r w' [= <- <-].
Qed.

Lemma Emits_os_mkdir P p : P (EvMkdir p) → Emits P (os_mkdir p).
Proof.
  intros HP. apply Emits_bind; [by apply Emits_emit | intros _; apply Emits_update_fs].
Qed.

Lemma Emits_mkdir_unless_exists P d :
  P (EvMkdir d) → Emits P (mkdir_unless_exists d).
Proof.
  intros HP. apply Emits_bind; [apply Emits_query_fs |].
  intros []; [apply Emits_ret | by apply Emits_os_mkdir].
Qed.

Lemma Emits_write_file P p c : P (EvWrite p c) → Emits P (write_file p c).
Proof.
  intros HP. apply Emits_bind; [by apply Emits_emit | intros _; apply Emits_update_fs].
Qed.

Lemma Emits_read_file P p : P (EvRead p) → Emits P (read_file p).
Proof.
  intros HP. apply Emits_bind; [by apply Emits_emit | intros _; apply Emits_query_fs].
Qed.

Lemma Emits_shutil_copyfile P src dst :
  P (EvCopy src dst) → Emits P (shutil_copyfile src dst).
Proof.
  intros HP. apply Emits_bind; [by apply Emits_emit | intros _; apply Emits_update_fs].
Qed.

Lemma Emits_shutil_copy P src dst :
  P (EvCopy src dst) → Emits P (shutil_copy src dst).
Proof.
  intros HP. apply Emits_bind; [by apply Emits_emit | intros _; apply Emits_update_fs].
Qed.

Lemma Emits_forM_ P {B} (f : B → M Resource unit) l :
  (∀ x, x ∈ l → Emits P (f x)) → Emits P (forM_ f l).
Proof.
  induction l as [|x l IH]; intros Hf; simpl; [apply Emits_ret|].
  apply Emits_bind; [apply Hf; by left |].
  intros _. apply IH. intros y Hy. apply Hf. by right.
Qed.

Lemma Emits_foldM P {A B} (f : A → B → M Resource A) l a :
  (∀ a x, x ∈ l → Emits P (f a x)) → Emits P (foldM f l a).
Proof.
  revert a. induction l as [|x l IH]; intros a Hf; simpl; [apply Emits_ret|].
  apply Emits_bind; [apply Hf; by left |].
  intros a'. apply IH. intros b y Hy. apply Hf. by right.
Qed.

End EmitsLemmas.

Section EmitsPipeline.
Context `{E : External}.
Implicit Types (w : World Resource) (P : Event Resource → Prop).

Lemma Emits_log2 P v : Emits P (log2 v).
Proof. unfold log2. destruct (v <=? 0); [apply Emits_raise | apply Emits_ret]. Qed.

(** With the burst length that [render] finds among its keyword arguments. *)
Lemma Emits_render_width P tf name ml sl dp dl di ni kws :
  let b := kwarg (λ k, match k with kw_ext_burstlength v => Some v | _ => None end)
                 256 kws in
  P (EvRender tf (template_dict name ml sl dp dl di ni kws (math_ceil (math_log b 2)))) →
  Emits P (render tf name ml sl dp dl di ni kws).
Proof.
  intros b HP. unfold render. fold b. unfold log2.
  destruct (b <=? 0); [apply Emits_silent; by intros w r w' [= <- <-] |].
  intros w r w' Hm. rewrite bind_ret in Hm. revert w r w' Hm.
  apply Emits_bind; [by apply Emits_emit | intros _; apply Emits_ret].
Qed.

Lemma Emits_convert P fl top inc def skip :
  P (EvAnalyze fl top inc def skip) → Emits P (convert fl top inc def skip).
Proof.
  intros HP. apply Emits_bind; [by apply Emits_emit | intros _; apply Emits_of_result].
Qed.

Lemma Emits_build_ioports_step P configs acc item :
  Emits P (build_ioports_step configs acc item).
Proof.
  destruct acc as [di ni], item as [pk [pv pwidth]]. unfold build_ioports_step.
  apply Emits_bind; [apply Emits_config_get | intros ?; apply Emits_ret].
Qed.

Lemma Emits_print P line : P (EvPrint line) → Emits P (print (Resource:=Resource) line).
Proof. apply Emits_emit. Qed.
End EmitsPipeline.

(** Decomposition of a computation of the pipeline into its steps;
    [solve_ev] proves the property of each action met on the way. *)
Ltac emits_step solve_ev :=
  lazymatch goal with
  | |- Emits _ (bind (config_get _ _) _) => apply Emits_bind_config_get; intros ? ?
  | |- Emits _ (bind _ _) => apply Emits_bind; [ | intros ? ]
  | |- Emits _ (ret _) => apply Emits_ret
  | |- Emits _ (raise _) => apply Emits_raise
  | |- Emits _ (of_result _) => apply Emits_of_result
  | |- Emits _ (config_get _ _) => apply Emits_config_get
  | |- Emits _ (mkdir_unless_exists _) => apply Emits_mkdir_unless_exists; solve_ev
  | |- Emits _ (write_file _ _) => apply Emits_write_file; solve_ev
  | |- Emits _ (read_file _) => apply Emits_read_file; solve_ev
  | |- Emits _ (shutil_copyfile _ _) => apply Emits_shutil_copyfile; solve_ev
  | |- Emits _ (shutil_copy _ _) => apply Emits_shutil_copy; solve_ev
  | |- Emits _ (render _ _ _ _ _ _ _ _ _) => apply Emits_render_width; solve_ev
  | |- Emits _ (convert _ _ _ _ _) => apply Emits_convert; solve_ev
  | |- Emits _ (print _) => apply Emits_print; solve_ev
  | |- Emits _ (emit _) => apply Emits_emit; solve_ev
  | |- Emits _ (build_ioports_step _ _ _) => apply Emits_build_ioports_step
  | |- Emits _ (forM_ _ _) => apply Emits_forM_; intros ? ?
  | |- Emits _ (foldM _ _ _) => apply Emits_foldM; intros ? ? ?
  | |- Emits _ (match ?x with _ => _ end) => destruct x eqn:?
  end.

Ltac emits solve_ev := repeat emits_step solve_ev.

(** ** The burst length *)

Section BurstLength.
Context `{E : External}.

Lemma Emits_run {A} (P : Event Resource → Prop) (m : M Resource A) w :
  Emits P m → ∃ evs, log (m w).2 = log w ++ evs ∧ Forall P evs.
Proof. intros Hm. destruct (m w) as [r w'] eqn:H. by eapply Hm. Qed.

Ltac solve_burst := split; intros ? [= <-]; reflexivity.

Lemma build_package_general_burst configs syn common :
  Emits default_burst (build_package_general configs syn common).
Proof. unfold build_package_general. emits solve_burst. Qed.

Lemma build_package_axi_burst configs syn common ml sl tp ti top mi ut ign :
  Emits default_burst (build_package_axi configs syn common ml sl tp ti top mi ut ign).
Proof. unfold build_package_axi. cbv zeta. emits solve_burst. Qed.

Lemma build_package_avalon_burst configs syn common ml sl tp ti top mi ut ign :
  Emits default_burst (build_package_avalon configs syn common ml sl tp ti top mi ut ign).
Proof. unfold build_package_avalon. cbv zeta. emits solve_burst. Qed.

Lemma build_burst configs top fl inc def mi ut skip ign :
  Emits default_burst (build configs top fl inc def mi ut skip ign).
Proof.
  unfold build. cbv zeta.
  emits solve_burst;
    first [ apply build_package_general_burst | apply build_package_axi_burst
          | apply build_package_avalon_burst ].
Qed.
End BurstLength.

(** ** Paths of the package tree *)

Lemma push_component_app cur l : push_component cur l = push_component cur [] ++ l.
Proof. unfold push_component. by destruct (_ || _). Qed.

Lemma components_from_sep (d cur rest : string) :
  components_from cur (d +:+ ("/" +:+ rest))
  = components_from cur d ++ components rest.
Proof.
  revert cur. induction d as [|c d IH]; intros cur.
  - rewrite append_empty_l, append_cons. simpl. apply push_component_app.
  - rewrite append_cons. simpl. destruct (Ascii.eqb c "/").
    + rewrite IH. rewrite (push_component_app cur (_ ++ _)).
      rewrite (push_component_app cur (components_from _ _)).
      by rewrite app_assoc.
    + apply IH.
Qed.

Lemma components_sep (d rest : string) :
  components (d +:+ ("/" +:+ rest)) = components d ++ components rest.
Proof. apply components_from_sep. Qed.

Lemma resolve_relative f (c : ascii) (s : string) :
  c ≠ "/"%char → resolve f (String c s) = cwd f ++ components (String c s).
Proof.
  intros Hc. unfold resolve, PyStr.startswith. cbn [String.prefix].
  by destruct (Ascii.ascii_dec "/" c) as [<-|].
Qed.

(** The package directory and what lies in it. *)
Lemma under_package f (top rest : string) :
  let dirname := "ipgen_" +:+ top +:+ "_v1_00_a" +:+ "/" in
  under f dirname (dirname +:+ rest).
Proof.
  intros dirname. unfold under.
  assert (Hd : dirname = ("ipgen_" +:+ top +:+ "_v1_00_a") +:+ ("/" +:+ "")).
  { unfold dirname. by rewrite !append_assoc. }
  assert (Hp : dirname +:+ rest = ("ipgen_" +:+ top +:+ "_v1_00_a") +:+ ("/" +:+ rest)).
  { unfold dirname. by rewrite !append_assoc. }
  rewrite Hp, Hd.
  change ("ipgen_" +:+ ?x) with (String "i" ("pgen_" +:+ x)).
  rewrite !append_cons, !resolve_relative by done.
  rewrite <- !append_cons, !components_sep.
  apply prefix_app, prefix_app, prefix_nil.
Qed.

Lemma under_refl f d : under f d d.
Proof. by unfold under. Qed.

Lemma py_eq_str (v : PyVal) (s : string) : py_eq v (VStr s) = true → v = VStr s.
Proof. destruct v; try done. simpl. by intros ->%String.eqb_eq. Qed.

Section PackageTree.
Context `{E : External}.

Ltac solve_under :=
  intros ? [= <-];
  first [ apply under_refl | rewrite ?append_assoc; apply under_package ].

Lemma build_package_axi_under f configs syn common ml sl tp ti top mi ut ign :
  Emits (λ ev, ∀ p, target_path ev = Some p →
               under f ("ipgen_" +:+ top +:+ "_v1_00_a" +:+ "/") p)
        (build_package_axi configs syn common ml sl tp ti top mi ut ign).
Proof.
  unfold build_package_axi. cbv zeta.
  set (dirname := "ipgen_" +:+ top +:+ "_v1_00_a" +:+ "/").
  emits solve_under.
Qed.

Lemma build_package_avalon_under f configs syn common ml sl tp ti top mi ut ign :
  Emits (λ ev, ∀ p, target_path ev = Some p →
               under f ("ipgen_" +:+ top +:+ "_v1_00_a" +:+ "/") p)
        (build_package_avalon configs syn common ml sl tp ti top mi ut ign).
Proof.
  unfold build_package_avalon. cbv zeta.
  set (dirname := "ipgen_" +:+ top +:+ "_v1_00_a" +:+ "/").
  emits solve_under.
Qed.

Lemma build_under f configs top fl inc def mi ut skip ign t :
  configs !! "if_type" = Some t →
  py_eq t (VStr "axi") || py_eq t (VStr "avalon") = true →
  Emits (λ ev, ∀ p, target_path ev = Some p →
               under f ("ipgen_" +:+ top +:+ "_v1_00_a" +:+ "/") p)
        (build configs top fl inc def mi ut skip ign).
Proof.
  intros Ht Hfam. unfold build. cbv zeta.
  emits ltac:(by intros ? [= <-]);
    first [ apply build_package_axi_under | apply build_package_avalon_under | idtac ].
  exfalso.
  repeat match goal with
         | H : configs !! "if_type" = Some ?x |- _ =>
             rewrite Ht in H; injection H as <-
         end.
  match goal with H : py_eq t (VStr "general") = true |- _ =>
    apply py_eq_str in H; subst t end.
  done.
Qed.
End PackageTree.

(** ** The dispatch on the interface family *)

Section Dispatch.
Context `{E : External}.
Implicit Types w : World Resource.

Lemma Emits_true_general configs syn common :
  Emits (λ _, True) (build_package_general configs syn common).
Proof. unfold build_package_general. emits ltac:(done). Qed.

Lemma Emits_true_axi configs syn common ml sl tp ti top mi ut ign :
  Emits (λ _, True) (build_package_axi configs syn common ml sl tp ti top mi ut ign).
Proof. unfold build_package_axi. cbv zeta. emits ltac:(done). Qed.

Lemma Emits_true_avalon configs syn common ml sl tp ti top mi ut ign :
  Emits (λ _, True) (build_package_avalon configs syn common ml sl tp ti top mi ut ign).
Proof. unfold build_package_avalon. cbv zeta. emits ltac:(done). Qed.

(** C2, as amended.  When the interface family is none of [general],
    [axi] and [avalon], the clocks are consistent, the analyzer succeeds
    and the external address width is configured, [build] raises
    [ValueError] "Interface type '...' is not supported." at the very end
    of its dispatch and not before: by then the analyzer has run on the
    HDL sources, the design has been dumped, the wrapper has been
    rendered from [node_general.txt] and the settings have been printed,
    in this order, and nothing else has been done.  No directory has been
    created and no file has been written or copied, and the file system
    is as it was. *)
Theorem build_unsupported_family
    (configs : Configs) (userlogic_topmodule : string)
    (userlogic_filelist : list string) (include define : option (list string))
    (memimg usertest : option string) (skip_not_found ignore_protocol_error : bool)
    (an : Analysis Expr Ast Param Resource) (t a : PyVal) (w : World Resource) :
  clocks_consistent configs →
  RtlConverter userlogic_filelist userlogic_topmodule include define skip_not_found
    = Ok an →
  configs !! "ext_addrwidth" = Some a →
  configs !! "if_type" = Some t →
  supported_family t = false →
  ∃ s,
    configs !! "single_clock" = Some s ∧
    build configs userlogic_topmodule userlogic_filelist include define memimg usertest
          skip_not_found ignore_protocol_error w
    = (Raise (ValueError ("Interface type '" +:+ py_str t +:+ "' is not supported.")),
       mkWorld (fs w)
         (log w ++
          [EvAnalyze userlogic_filelist userlogic_topmodule include define
                     skip_not_found;
           EvDump;
           EvRender "node_general.txt" (node_dict an userlogic_topmodule t a s);
           EvPrint "----------------------------------------";
           EvPrint "Synthesis Setting"] ++
          ((λ item, EvPrint (setting_line item)) <$> sorted_items configs))).
Proof.
  intros Hc Han Ha Ht Hsup.
  destruct (build_dispatch configs userlogic_topmodule userlogic_filelist include define
              memimg usertest skip_not_found ignore_protocol_error an t a w Hc Han Ht Ha)
    as (s & Hs & ->).
  unfold supported_family in Hsup.
  apply orb_false_elim in Hsup as [[Hg Hx]%orb_false_elim Hv].
  rewrite Hg, Hx, Hv. exists s. split; [done|].
  unfold prelude_events, node_template. by rewrite Hx, Hv.
Qed.


(** C10.  When the clocks are consistent, the analyzer succeeds and the
    external address width is configured, [build] renders the wrapper
    template of the family with a port list that declares, for the family
    [avalon], every I/O port under its name prefixed with [coe_], and for
    every other family under its own name; the list of port names holds
    the keys of the analyzer's port dictionary, unprefixed, in both
    cases. *)
Theorem build_wrapper_ports
    (configs : Configs) (userlogic_topmodule : string)
    (userlogic_filelist : list string) (include define : option (list string))
    (memimg usertest : option string) (skip_not_found ignore_protocol_error : bool)
    (an : Analysis Expr Ast Param Resource) (t a : PyVal) (w : World Resource) :
  clocks_consistent configs →
  RtlConverter userlogic_filelist userlogic_topmodule include define skip_not_found
    = Ok an →
  configs !! "ext_addrwidth" = Some a →
  configs !! "if_type" = Some t →
  ∃ td pre post,
    log (build configs userlogic_topmodule userlogic_filelist include define
               memimg usertest skip_not_found ignore_protocol_error w).2
    = log w ++ pre ++ EvRender (node_template t) td :: post ∧
    td_name_top_ioports td = (an_top_ioports an).*1 ∧
    td_def_top_ioports td =
      (λ item : string * (Port Expr * option Z),
         let pv := item.2.1 in
         if py_eq t (VStr "avalon")
         then visit (NIoport (mkPort (port_class pv) ("coe_" +:+ port_name pv)
                                     (port_width pv) (port_signed pv))
                             (mkWire ("coe_" +:+ port_name pv)
                                     (port_width pv) (port_signed pv)))
         else visit (NIoport pv (mkWire (port_name pv) (port_width pv) (port_signed pv))))
      <$> an_top_ioports an.
Proof.
  intros Hc Han Ha Ht.
  destruct (build_dispatch configs userlogic_topmodule userlogic_filelist include define
              memimg usertest skip_not_found ignore_protocol_error an t a w Hc Han Ht Ha)
    as (s & Hs & ->).
  match goal with |- context [ ?m (mkWorld (fs w) ?l) ] =>
    destruct (Emits_run (λ _, True) m (mkWorld (fs w) l)) as (evs & Hlog & _) end.
  { destruct (py_eq t (VStr "general")); [apply Emits_true_general|].
    destruct (py_eq t (VStr "axi")); [apply Emits_true_axi|].
    destruct (py_eq t (VStr "avalon")); [apply Emits_true_avalon | apply Emits_raise]. }
  exists (node_dict an userlogic_topmodule t a s),
         [EvAnalyze userlogic_filelist userlogic_topmodule include define skip_not_found;
          EvDump],
         ([EvPrint "----------------------------------------"; EvPrint "Synthesis Setting"]
          ++ ((λ item, EvPrint (setting_line item)) <$> sorted_items configs) ++ evs).
  split; [|split; reflexivity].
  rewrite Hlog. cbn [log]. unfold prelude_events. by rewrite <- !app_assoc.
Qed.
End Dispatch.

(** ** Classification *)

(** [s.count(sub)] is true, as a condition, exactly when [sub] occurs. *)
Lemma count_truthy (s sub : string) :
  PyStr.truthy_nat (PyStr.count s sub) = occurs sub s.
Proof.
  unfold PyStr.count. induction s as [|c s IH].
  - destruct sub; [done|]. cbn. by destruct sub.
  - cbn [PyStr.count_from occurs].
    destruct (String.prefix sub (String c s)); [done|]. by rewrite IH.
Qed.

Section Classification.
Context `{E : External}.

Lemma axi_dt_spec r :
  axi_dt r = if occurs dquote r then "string" else "integer".
Proof. unfold axi_dt. by rewrite count_truthy. Qed.

Lemma avalon_dt_spec r :
  avalon_dt r = if occurs dquote r then "STRING"
                else if occurs "integer" r then "INTEGER" else "STD_LOGIC_VECTOR".
Proof. unfold avalon_dt. by rewrite !count_truthy. Qed.

Lemma filter_snoc_true {A} (P : A → Prop) `{∀ x, Decision (P x)} l x :
  P x → filter P (l ++ [x]) = filter P l ++ [x].
Proof. intros. rewrite filter_app, filter_cons_True by done. done. Qed.

Lemma filter_snoc_false {A} (P : A → Prop) `{∀ x, Decision (P x)} l x :
  ¬ P x → filter P (l ++ [x]) = filter P l.
Proof. intros. rewrite filter_app, filter_cons_False by done. apply app_nil_r. Qed.

Lemma axi_mpd_parameters_loop (tp : list (string * Param)) :
  foldl axi_mpd_parameters_step ([], [], []) tp
  = ((λ item, visit (NParam item.2)) <$> tp,
     (λ item, visit (NParam item.2)) <$> filter (λ item, is_localparam item = true) tp,
     parameter_row axi_dt <$> filter (λ item, is_localparam item = false) tp).
Proof.
  induction tp as [|[pk pv] tp IH] using rev_ind; [done|].
  rewrite foldl_app, IH. cbn [foldl axi_mpd_parameters_step].
  rewrite fmap_app. change (PyStr.truthy_nat (PyStr.count (visit (NParam pv)) "localparam"))
    with (is_localparam (pk, pv)).
  destruct (is_localparam (pk, pv)) eqn:Hl.
  - rewrite filter_snoc_true, filter_snoc_false, fmap_app by (by rewrite ?Hl). done.
  - rewrite filter_snoc_false, filter_snoc_true, fmap_app by (by rewrite ?Hl). done.
Qed.

Lemma axi_ext_params_loop (tp : list (string * Param)) dl :
  foldl axi_ext_params_step (dl, []) tp
  = (dl ++ ((λ item, visit (NParam item.2)) <$>
              filter (λ item, is_localparam item = true) tp),
     parameter_row axi_dt <$> filter (λ item, is_localparam item = false) tp).
Proof.
  induction tp as [|[pk pv] tp IH] using rev_ind; [by rewrite app_nil_r|].
  rewrite foldl_app, IH. cbn [foldl axi_ext_params_step].
  change (PyStr.truthy_nat (PyStr.count (visit (NParam pv)) "localparam"))
    with (is_localparam (pk, pv)).
  destruct (is_localparam (pk, pv)) eqn:Hl.
  - rewrite filter_snoc_true, filter_snoc_false, fmap_app, app_assoc by (by rewrite ?Hl).
    done.
  - rewrite filter_snoc_false, filter_snoc_true, fmap_app by (by rewrite ?Hl). done.
Qed.

Lemma avalon_tcl_parameters_loop (tp : list (string * Param)) :
  foldl avalon_tcl_parameters_step ([], [], []) tp
  = ((λ item, visit (NParam item.2)) <$> tp,
     (λ item, visit (NParam item.2)) <$> filter (λ item, is_localparam item = true) tp,
     parameter_row avalon_dt <$> filter (λ item, is_localparam item = false) tp).
Proof.
  induction tp as [|[pk pv] tp IH] using rev_ind; [done|].
  rewrite foldl_app, IH. cbn [foldl avalon_tcl_parameters_step].
  rewrite fmap_app. change (PyStr.truthy_nat (PyStr.count (visit (NParam pv)) "localparam"))
    with (is_localparam (pk, pv)).
  destruct (is_localparam (pk, pv)) eqn:Hl.
  - rewrite filter_snoc_true, filter_snoc_false, fmap_app by (by rewrite ?Hl). done.
  - rewrite filter_snoc_false, filter_snoc_true, fmap_app by (by rewrite ?Hl). done.
Qed.

Lemma axi_mpd_ports_loop (ti : list (string * (Port Expr * option Z))) :
  foldl axi_mpd_ports_step ([], [], []) ti
  = (ti.*1,
     (λ item, visit (NWire (wire_of item.2.1))) <$> ti,
     (λ item, (port_name item.2.1, axi_mpd_dir item.2.1,
               match port_width item.2.1 with
               | None => ""
               | Some w => visit (NWidth w)
               end)) <$> ti).
Proof.
  induction ti as [|[pk [pv pwidth]] ti IH] using rev_ind; [done|].
  rewrite foldl_app, IH. cbn [foldl axi_mpd_ports_step]. by rewrite !fmap_app.
Qed.

(** One turn of the loop that builds [ext_ports]: a row is added, or
    [TypeError] is raised at a port with a width and without a resolved bit
    count. *)
Lemma axi_ext_ports_step_spec acc (item : string * (Port Expr * option Z)) :
  axi_ext_ports_step acc item
  = match port_width item.2.1, item.2.2 with
    | Some _, None =>
        Raise (TypeError "unsupported operand type(s) for -: 'NoneType' and 'int'")
    | _, _ => Ok (acc ++ [ext_port_row item])
    end.
Proof.
  destruct item as [pk [pv [n|]]]; unfold axi_ext_ports_step, ext_port_row;
    cbn [fst snd minus_one]; by destruct (port_width pv).
Qed.

Lemma axi_ext_ports_loop (ti : list (string * (Port Expr * option Z))) acc :
  foldR axi_ext_ports_step ti acc
  = if forallb resolved ti
    then Ok (acc ++ (ext_port_row <$> ti))
    else Raise (TypeError "unsupported operand type(s) for -: 'NoneType' and 'int'").
Proof.
  revert acc. induction ti as [|item ti IH]; intros acc.
  - cbn. by rewrite app_nil_r.
  - cbn [foldR forallb]. rewrite axi_ext_ports_step_spec. unfold resolved at 1.
    destruct (port_width item.2.1), item.2.2; cbn [andb]; try done.
    all: rewrite IH; destruct (forallb resolved ti); [|done].
    all: by rewrite fmap_cons, <- app_assoc.
Qed.

Lemma axi_ext_ports_loop_inv (ti : list (string * (Port Expr * option Z))) rows :
  foldR axi_ext_ports_step ti [] = Ok rows →
  forallb resolved ti = true ∧ rows = ext_port_row <$> ti.
Proof.
  rewrite axi_ext_ports_loop. destruct (forallb resolved ti); [|done].
  by intros [= <-].
Qed.

Lemma avalon_tcl_ports_loop (ti : list (string * (Port Expr * option Z))) :
  foldl avalon_tcl_ports_step ([], [], []) ti
  = (ti.*1,
     (λ item, visit (NWire (wire_of item.2.1))) <$> ti,
     (λ item, (port_name item.2.1, avalon_dir item.2.1, py_str (py_int item.2.2)))
     <$> ti).
Proof.
  induction ti as [|[pk [pv pwidth]] ti IH] using rev_ind; [done|].
  rewrite foldl_app, IH. cbn [foldl avalon_tcl_ports_step]. by rewrite !fmap_app.
Qed.

Lemma accessor_dict_lookup (ids : list string) (i : string) :
  accessor_dict ids !! i
  = if decide (i ∈ ids) then Some (modelparam_accessor i) else None.
Proof.
  unfold accessor_dict.
  induction ids as [|j ids IH] using rev_ind.
  - cbn. rewrite lookup_empty. by rewrite decide_False by apply not_elem_of_nil.
  - rewrite foldl_app. cbn [foldl]. destruct (decide (j = i)) as [->|Hne].
    + rewrite lookup_insert_eq. rewrite decide_True; [done|].
      apply elem_of_app. right. by left.
    + rewrite lookup_insert_ne by done. rewrite IH.
      destruct (decide (i ∈ ids)) as [Hin|Hin].
      * rewrite decide_True; [done|]. apply elem_of_app. by left.
      * rewrite decide_False; [done|].
        intros [?|?%list_elem_of_singleton]%elem_of_app; congruence.
Qed.
End Classification.

(** ** Re-running a build *)

Lemma inode_at_nodes f k : k ≠ [] → inode_at f k = nodes f !! k.
Proof. by destruct k. Qed.

Lemma fs_le_refl f : fs_le f f.
Proof. by split. Qed.

Lemma fs_le_trans f g h : fs_le f g → fs_le g h → fs_le f h.
Proof.
  intros [Hc1 H1] [Hc2 H2]. split; [congruence|].
  intros k Hk. rewrite H2, H1; [done..|].
  specialize (H1 k Hk). destruct (nodes f !! k) as [[]|], (nodes g !! k) as [[]|]; done.
Qed.

(** A walk that succeeds goes on succeeding where every node is still
    there and of the same kind. *)
Lemma walk_from_kind f g cur rest :
  (∀ k, inode_at f k ≠ None → kind (inode_at g k) = kind (inode_at f k)) →
  walk_from f cur rest = None → walk_from g cur rest = None.
Proof.
  intros Hk. revert cur. induction rest as [|c rest IH]; intros cur; [done|].
  cbn [walk_from]. destruct (inode_at f cur) as [[]|] eqn:Hi; try done.
  specialize (Hk cur). rewrite Hi in Hk. specialize (Hk ltac:(done)).
  destruct (inode_at g cur) as [[]|]; try done. apply IH.
Qed.

Lemma walk_kind f g k :
  (∀ k, inode_at f k ≠ None → kind (inode_at g k) = kind (inode_at f k)) →
  walk f k = None → walk g k = None.
Proof. apply walk_from_kind. Qed.

Lemma fs_le_kind f g k :
  fs_le f g → inode_at f k ≠ None → kind (inode_at g k) = kind (inode_at f k).
Proof. intros [_ Hle]. destruct k; [done|]. apply Hle. Qed.

Lemma walk_le f g k : fs_le f g → walk f k = None → walk g k = None.
Proof. intros Hle. apply walk_kind. intros k'. by apply fs_le_kind. Qed.

Lemma walk_from_app f cur a b :
  walk_from f cur (a ++ b) = None →
  walk_from f cur a = None ∧ walk_from f (cur ++ a) b = None.
Proof.
  revert cur. induction a as [|c a IH]; intros cur; cbn [app walk_from].
  - by rewrite app_nil_r.
  - destruct (inode_at f cur) as [[]|]; try done.
    intros [? ?]%IH. by rewrite <- app_assoc in *.
Qed.

(** A walk goes through directories only. *)
Lemma walk_through f k rest :
  rest ≠ [] → walk f (k ++ rest) = None →
  walk f k = None ∧ inode_at f k = Some Dir.
Proof.
  intros Hrest [Hk Hw]%walk_from_app. split; [done|].
  destruct rest as [|c rest]; [done|]. cbn in Hw.
  by destruct (inode_at f k) as [[]|].
Qed.

Lemma resolve_cwd f g p : cwd g = cwd f → resolve g p = resolve f p.
Proof. intros Hc. unfold resolve. by rewrite Hc. Qed.

Lemma steps_cwd f g p : cwd g = cwd f → steps g p = steps f p.
Proof. intros Hc. unfold steps. by rewrite (resolve_cwd f g p Hc). Qed.

Lemma walk_steps f p : walk f (steps f p) = None → walk f (resolve f p) = None.
Proof. unfold steps. by intros [? _]%walk_from_app. Qed.

(** A path that ends with the component [.] leads to a directory. *)
Lemma walk_steps_dot f p :
  walk f (steps f p) = None → trailing_dot p = true →
  inode_at f (resolve f p) = Some Dir.
Proof.
  unfold steps. intros Hw Hd. rewrite Hd in Hw.
  by apply walk_through in Hw as [_ ?].
Qed.

(** When the operations succeed, and what they do then. *)
Lemma fs_stat_some f p i :
  fs_stat f p = Some i ↔
  has_nul p = false ∧ p ≠ "" ∧ walk f (steps f p) = None ∧
  inode_at f (resolve f p) = Some i ∧ (PyStr.endswith p "/" = true → i = Dir).
Proof.
  unfold fs_stat. destruct (has_nul p); [split; [done | by intros (? & _)]|].
  destruct (String.eqb_spec p ""); [split; [done | by intros (_ & ? & _)]|].
  destruct (walk f (steps f p)); [split; [done | by intros (_ & _ & ? & _)]|].
  destruct (inode_at f (resolve f p)) as [[|c]|].
  - split; [intros [= <-]; by split_and! | by intros (_ & _ & _ & [= <-] & _)].
  - destruct (PyStr.endswith p "/").
    + split; [done|]. intros (_ & _ & _ & [= <-] & H). by specialize (H eq_refl).
    + split; [intros [= <-]; by split_and! | by intros (_ & _ & _ & [= <-] & _)].
  - split; [done | by intros (_ & _ & _ & ? & _)].
Qed.

Lemma fs_mkdir_ok f p f' :
  fs_mkdir f p = Ok f' ↔
  has_nul p = false ∧ p ≠ "" ∧ walk f (steps f p) = None ∧
  inode_at f (resolve f p) = None ∧ f' = set_inode f (resolve f p) Dir.
Proof.
  unfold fs_mkdir. destruct (has_nul p); [split; [done | by intros (? & _)]|].
  destruct (String.eqb_spec p ""); [split; [done | by intros (_ & ? & _)]|].
  destruct (walk f (steps f p)); [split; [done | by intros (_ & _ & ? & _)]|].
  destruct (inode_at f (resolve f p)).
  - split; [done | by intros (_ & _ & _ & ? & _)].
  - split; [intros [= <-]; by split_and! | by intros (_ & _ & _ & _ & ->)].
Qed.

Lemma fs_write_ok f p c f' :
  fs_write f p c = Ok f' ↔
  has_nul p = false ∧ p ≠ "" ∧ walk f (steps f p) = None ∧
  PyStr.endswith p "/" = false ∧
  kind (inode_at f (resolve f p)) ≠ Some true ∧
  f' = set_inode f (resolve f p) (File c).
Proof.
  unfold fs_write. destruct (has_nul p); [split; [done | by intros (? & _)]|].
  destruct (String.eqb_spec p ""); [split; [done | by intros (_ & ? & _)]|].
  destruct (walk f (steps f p)); [split; [done | by intros (_ & _ & ? & _)]|].
  destruct (PyStr.endswith p "/"); [split; [done | by intros (_ & _ & _ & ? & _)]|].
  destruct (inode_at f (resolve f p)) as [[]|].
  - split; [done | by intros (_ & _ & _ & _ & ? & _)].
  - split; [intros [= <-]; by split_and! | by intros (_ & _ & _ & _ & _ & ->)].
  - split; [intros [= <-]; by split_and! | by intros (_ & _ & _ & _ & _ & ->)].
Qed.

Lemma fs_read_ok f p c :
  fs_read f p = Ok c ↔
  has_nul p = false ∧ p ≠ "" ∧ walk f (steps f p) = None ∧
  PyStr.endswith p "/" = false ∧
  inode_at f (resolve f p) = Some (File c).
Proof.
  unfold fs_read. destruct (has_nul p); [split; [done | by intros (? & _)]|].
  destruct (String.eqb_spec p ""); [split; [done | by intros (_ & ? & _)]|].
  destruct (walk f (steps f p)); [split; [done | by intros (_ & _ & ? & _)]|].
  destruct (inode_at f (resolve f p)) as [[]|].
  - split; [done | by intros (_ & _ & _ & _ & ?)].
  - destruct (PyStr.endswith p "/").
    + split; [done | by intros (_ & _ & _ & ? & _)].
    + split; [intros [= <-]; by split_and! | by intros (_ & _ & _ & _ & [= <-])].
  - split; [done | by intros (_ & _ & _ & _ & ?)].
Qed.

Lemma fs_mkdir_inv f p f' :
  fs_mkdir f p = Ok f' →
  resolve f p ≠ [] ∧ inode_at f (resolve f p) = None ∧ f' = set_inode f (resolve f p) Dir.
Proof.
  intros (_ & _ & _ & Hi & ->)%fs_mkdir_ok. split; [|done].
  intros Hk. by rewrite Hk in Hi.
Qed.

Lemma fs_write_inv f p c f' :
  fs_write f p c = Ok f' →
  p ≠ "" ∧ PyStr.endswith p "/" = false ∧ resolve f p ≠ [] ∧
  kind (inode_at f (resolve f p)) ≠ Some true ∧
  f' = set_inode f (resolve f p) (File c).
Proof.
  intros (_ & Hp & _ & He & Hi & ->)%fs_write_ok. split_and!; try done.
  intros Hk. by rewrite Hk in Hi.
Qed.

Lemma fs_read_inv f p c :
  fs_read f p = Ok c →
  p ≠ "" ∧ PyStr.endswith p "/" = false ∧ resolve f p ≠ [] ∧
  nodes f !! resolve f p = Some (File c).
Proof.
  intros (_ & Hp & _ & He & Hi)%fs_read_ok.
  assert (resolve f p ≠ []) by (intros Hk; by rewrite Hk in Hi).
  rewrite inode_at_nodes in Hi by done. done.
Qed.

Lemma fs_mkdir_walk f p f' : fs_mkdir f p = Ok f' → walk f (resolve f p) = None.
Proof. intros (_ & _ & Hw & _)%fs_mkdir_ok. by apply walk_steps. Qed.

Lemma fs_write_walk f p c f' : fs_write f p c = Ok f' → walk f (resolve f p) = None.
Proof. intros (_ & _ & Hw & _)%fs_write_ok. by apply walk_steps. Qed.

Lemma fs_read_walk f p c : fs_read f p = Ok c → walk f (resolve f p) = None.
Proof. intros (_ & _ & Hw & _)%fs_read_ok. by apply walk_steps. Qed.

(** What a path names is named by it where every node is still there and
    of the same kind. *)
Lemma fs_stat_kind f h p :
  cwd h = cwd f →
  (∀ k, inode_at f k ≠ None → kind (inode_at h k) = kind (inode_at f k)) →
  fs_stat f p ≠ None →
  kind (fs_stat h p) = kind (fs_stat f p).
Proof.
  intros Hc Hk Hs. destruct (fs_stat f p) as [i|] eqn:Hf; [|done].
  apply fs_stat_some in Hf as (Hn & Hp & Hw & Hi & He).
  pose proof (Hk (resolve f p)) as Hki. rewrite Hi in Hki.
  specialize (Hki ltac:(done)).
  destruct (inode_at h (resolve f p)) as [j|] eqn:Hj; [|by destruct i].
  assert (Hh : fs_stat h p = Some j).
  { apply fs_stat_some. rewrite (steps_cwd f h p Hc), (resolve_cwd f h p Hc).
    split_and!; try done; [by eapply walk_kind|].
    intros Hs'. specialize (He Hs'). subst i. by destruct j. }
  by rewrite Hh.
Qed.

(** A node is added where there was none, or a file is overwritten. *)
Lemma fs_le_set f k i :
  k ≠ [] →
  (inode_at f k = None ∨ kind (inode_at f k) = kind (Some i)) →
  fs_le f (set_inode f k i).
Proof.
  intros Hk Hi. split; [done|]. intros k' Hk'. cbn.
  destruct (decide (k = k')) as [<-|Hne]; [|by rewrite lookup_insert_ne].
  rewrite lookup_insert_eq. rewrite inode_at_nodes in Hi by done.
  by destruct Hi as [Hi|Hi].
Qed.

Lemma fs_mkdir_mono f p f' : fs_mkdir f p = Ok f' → fs_le f f'.
Proof. intros (Hk & Hi & ->)%fs_mkdir_inv. apply fs_le_set; auto. Qed.

Lemma fs_write_mono f p c f' : fs_write f p c = Ok f' → fs_le f f'.
Proof.
  intros (_ & _ & Hk & Hi & ->)%fs_write_inv. apply fs_le_set; [done|].
  destruct (inode_at f (resolve f p)) as [[]|]; auto. done.
Qed.

Lemma fs_copyfile_mono f src dst f' : fs_copyfile f src dst = Ok f' → fs_le f f'.
Proof.
  unfold fs_copyfile. destruct (fs_samefile f src dst); [done|].
  destruct (fs_read f src); [apply fs_write_mono | done].
Qed.

Lemma fs_copy_mono f src dst f' : fs_copy f src dst = Ok f' → fs_le f f'.
Proof. apply fs_copyfile_mono. Qed.

Lemma fs_stat_le f g p :
  fs_le f g → fs_stat f p ≠ None → kind (fs_stat g p) = kind (fs_stat f p).
Proof.
  intros Hle. apply fs_stat_kind; [by destruct Hle|].
  intros k. by apply fs_le_kind.
Qed.

Lemma fs_exists_le f g p : fs_le f g → fs_exists f p = true → fs_exists g p = true.
Proof.
  intros Hle. unfold fs_exists. intros Hf.
  assert (Hk := fs_stat_le f g p Hle ltac:(by destruct (fs_stat f p))).
  by destruct (fs_stat f p) as [[]|], (fs_stat g p) as [[]|].
Qed.

Lemma fs_isdir_le f g p : fs_le f g → fs_isdir f p = true → fs_isdir g p = true.
Proof.
  intros Hle. unfold fs_isdir. intros Hf.
  assert (Hk := fs_stat_le f g p Hle ltac:(by destruct (fs_stat f p))).
  by destruct (fs_stat f p) as [[]|], (fs_stat g p) as [[]|].
Qed.

(** What has been written reads back, and what has been read exists. *)
Lemma fs_write_read f p c f' : fs_write f p c = Ok f' → fs_read f' p = Ok c.
Proof.
  intros Hw. pose proof (fs_write_mono _ _ _ _ Hw) as Hle.
  pose proof Hw as (_ & _ & Hk & _)%fs_write_inv.
  apply fs_write_ok in Hw as (Hn & Hp & Hwalk & He & _ & ->).
  apply fs_read_ok. split_and!; try done.
  - by apply (walk_le f).
  - cbn [resolve set_inode cwd]. fold (resolve f p).
    rewrite inode_at_nodes by done. cbn. by rewrite lookup_insert_eq.
Qed.

Lemma fs_read_exists f p c : fs_read f p = Ok c → fs_exists f p = true.
Proof.
  intros (Hn & Hp & Hw & He & Hi)%fs_read_ok. unfold fs_exists.
  assert (fs_stat f p = Some (File c)) as ->; [|done].
  apply fs_stat_some. split_and!; try done. by rewrite He.
Qed.

Lemma fs_exists_written f p c f' :
  fs_write f p c = Ok f' → inode_at f (resolve f p) ≠ None → fs_exists f p = true.
Proof.
  intros (Hn & Hp & Hw & He & Hi & _)%fs_write_ok Hne. unfold fs_exists.
  destruct (inode_at f (resolve f p)) as [i|] eqn:Hin; [|done].
  assert (fs_stat f p = Some i) as ->; [|done].
  apply fs_stat_some. split_and!; try done. by rewrite He.
Qed.

Section ReplayFS.
Variables f0 fn : FileSys.

Lemma replay_inv_start f : fs_le f0 fn → f = f0 → replay_inv f0 fn f fn.
Proof. intros [Hc _] ->. repeat split; auto. Qed.

Lemma replay_inv_cwd f h : replay_inv f0 fn f h → cwd h = cwd f.
Proof. by intros (Hc & _). Qed.

Lemma replay_inv_resolve f h p : replay_inv f0 fn f h → resolve h p = resolve f p.
Proof. intros Hinv. by apply resolve_cwd, replay_inv_cwd. Qed.

(** In the second run a node that the first run has is there, of the
    same kind. *)
Lemma replay_inv_kind f h k :
  replay_inv f0 fn f h → fs_le f fn → inode_at f k ≠ None →
  kind (inode_at h k) = kind (inode_at f k).
Proof.
  intros (_ & _ & _ & Hinv) [_ Hle] Hk. destruct k as [|x k]; [done|].
  cbn in *. destruct (Hinv (x :: k)) as [_ ->]. by apply Hle.
Qed.

Lemma walk_replay f h p :
  replay_inv f0 fn f h → fs_le f fn →
  walk f (steps f p) = None → walk h (steps h p) = None.
Proof.
  intros Hinv Hle. rewrite (steps_cwd f h p (replay_inv_cwd _ _ Hinv)).
  apply walk_kind. intros k'. by apply replay_inv_kind.
Qed.

Lemma replay_inv_set f h k i :
  k ≠ [] → replay_inv f0 fn f h →
  kind (nodes fn !! k) = kind (Some i) →
  replay_inv f0 fn (set_inode f k i) (set_inode h k i).
Proof.
  intros Hk (Hc1 & Hc2 & Hc3 & Hinv) Hfn. repeat split; try done.
  - cbn. destruct (decide (k = k0)) as [<-|Hne].
    + left. by rewrite !lookup_insert_eq.
    + rewrite !lookup_insert_ne by done. apply Hinv.
  - cbn. destruct (decide (k = k0)) as [<-|Hne].
    + by rewrite lookup_insert_eq.
    + rewrite lookup_insert_ne by done. apply Hinv.
Qed.

(** The first run creates a node that the second run finds. *)
Lemma replay_inv_added f h k i :
  k ≠ [] → replay_inv f0 fn f h →
  nodes h !! k = Some i →
  replay_inv f0 fn (set_inode f k i) h.
Proof.
  intros Hk (Hc1 & Hc2 & Hc3 & Hinv) Hh. repeat split; try done.
  - cbn. destruct (decide (k = k0)) as [<-|Hne].
    + left. by rewrite lookup_insert_eq.
    + rewrite lookup_insert_ne by done. apply Hinv.
  - apply Hinv.
Qed.

(** What the first run finds, the second run finds, of the same kind. *)
Lemma fs_stat_replay f h p :
  replay_inv f0 fn f h → fs_le f fn → fs_stat f p ≠ None →
  kind (fs_stat h p) = kind (fs_stat f p).
Proof.
  intros Hinv Hle. apply fs_stat_kind; [by eapply replay_inv_cwd|].
  intros k. by apply replay_inv_kind.
Qed.

(** Writing again what the first run wrote. *)
Lemma fs_write_replay f h p c f' :
  fs_write f p c = Ok f' → fs_le f' fn → replay_inv f0 fn f h →
  ∃ h', fs_write h p c = Ok h' ∧ replay_inv f0 fn f' h'.
Proof.
  intros Hw Hle' Hinv.
  assert (Hle : fs_le f fn).
  { eapply fs_le_trans; [by eapply fs_write_mono | done]. }
  pose proof Hw as (_ & _ & Hk & _)%fs_write_inv.
  apply fs_write_ok in Hw as (Hn & Hp & Hwalk & He & Hi & ->).
  assert (Hfn : kind (nodes fn !! resolve f p) = Some false).
  { destruct Hle' as [_ Hle']. rewrite Hle'; cbn; by rewrite lookup_insert_eq. }
  exists (set_inode h (resolve f p) (File c)). split; [|by apply replay_inv_set].
  apply fs_write_ok. rewrite (replay_inv_resolve _ _ _ Hinv).
  split_and!; try done.
  - by eapply walk_replay.
  - rewrite inode_at_nodes by done.
    destruct Hinv as (_ & _ & _ & Hinv). destruct (Hinv (resolve f p)) as [_ Hkh].
    rewrite Hfn in Hkh. by destruct (nodes h !! resolve f p) as [[]|].
Qed.

(** Reading again what the first run read. *)
Lemma fs_read_replay paths f h p c :
  same_inputs paths f0 fn → p ∈ paths →
  fs_read f p = Ok c → fs_le f fn → replay_inv f0 fn f h → fs_read h p = Ok c.
Proof.
  intros Hsame Hin Hr Hle Hinv.
  pose proof Hr as (_ & _ & Hk & Hnode)%fs_read_inv.
  apply fs_read_ok in Hr as (Hn & Hp & Hwalk & He & Hi).
  assert (Hh : nodes h !! resolve f p = Some (File c)).
  { destruct Hinv as (Hc1 & Hc2 & Hc3 & Hinv).
    destruct (Hinv (resolve f p)) as [[->| [-> Hf0]] _]; [done|].
    specialize (Hsame p Hin). unfold resolve in *.
    rewrite Hc2, Hc3 in Hsame. by rewrite Hsame, <- Hf0. }
  apply fs_read_ok. rewrite (replay_inv_resolve _ _ _ Hinv).
  split_and!; try done; [by eapply walk_replay|].
  by rewrite inode_at_nodes.
Qed.
End ReplayFS.

Section ReplayCopy.
Variables f0 fn : FileSys.

Lemma fs_copyfile_replay paths f h src dst f' :
  same_inputs paths f0 fn → src ∈ paths →
  fs_copyfile f src dst = Ok f' → fs_le f' fn → replay_inv f0 fn f h →
  ∃ h', fs_copyfile h src dst = Ok h' ∧ replay_inv f0 fn f' h'.
Proof.
  intros Hsame Hin Hcopy Hle Hinv. unfold fs_copyfile in *.
  destruct (fs_samefile f src dst) eqn:Hsf; [done|].
  destruct (fs_read f src) as [c|] eqn:Hread; [|done].
  assert (Hsh : fs_samefile h src dst = false).
  { unfold fs_samefile in *. rewrite !(replay_inv_resolve _ _ _ _ _ Hinv).
    destruct (decide (resolve f src = resolve f dst)) as [Heq|Hne].
    - exfalso. rewrite bool_decide_eq_true_2, andb_true_r in Hsf by done.
      destruct (fs_read_inv _ _ _ Hread) as (Hp & He & Hk & Hi).
      assert (fs_exists f src = true) as Hs by by eapply fs_read_exists.
      assert (fs_exists f dst = true) as Hd.
      { eapply fs_exists_written; [done|].
        rewrite <- Heq, inode_at_nodes, Hi by done. done. }
      by rewrite Hs, Hd in Hsf.
    - rewrite bool_decide_eq_false_2 by done. apply andb_false_r. }
  destruct (fs_write f dst c) as [f''|] eqn:Hwr; [|done]. injection Hcopy as ->.
  rewrite Hsh, (fs_read_replay _ _ _ _ _ _ _ Hsame Hin Hread
                  (fs_le_trans _ _ _ (fs_write_mono _ _ _ _ Hwr) Hle) Hinv).
  by eapply fs_write_replay.
Qed.

Lemma fs_isdir_replay f h p :
  replay_inv f0 fn f h → fs_le f fn →
  (* the first run goes on to write [p] when [p] is not a directory *)
  (fs_isdir f p = false → kind (nodes fn !! resolve f p) = Some false ∧ resolve f p ≠ []) →
  fs_isdir h p = fs_isdir f p.
Proof.
  intros Hinv Hle Hw. unfold fs_isdir in *.
  assert (Hnot : kind (nodes fn !! resolve f p) = Some false → resolve f p ≠ [] →
                 fs_stat h p ≠ Some Dir).
  { intros Hfn Hk (_ & _ & _ & Hi & _)%fs_stat_some.
    rewrite (replay_inv_resolve _ _ _ _ _ Hinv), inode_at_nodes in Hi by done.
    destruct Hinv as (_ & _ & _ & Hinv). destruct (Hinv (resolve f p)) as [_ Hkh].
    by rewrite Hfn, Hi in Hkh. }
  destruct (fs_stat f p) as [[]|] eqn:Hs.
  - assert (Hk := fs_stat_replay _ _ f h p Hinv Hle ltac:(by rewrite Hs)).
    rewrite Hs in Hk. by destruct (fs_stat h p) as [[]|].
  - destruct (Hw eq_refl) as [Hfn Hk]. specialize (Hnot Hfn Hk).
    by destruct (fs_stat h p) as [[]|].
  - destruct (Hw eq_refl) as [Hfn Hk]. specialize (Hnot Hfn Hk).
    by destruct (fs_stat h p) as [[]|].
Qed.

Lemma fs_copyfile_target f src dst f' :
  fs_copyfile f src dst = Ok f' →
  resolve f dst ≠ [] ∧ ∃ c, nodes f' !! resolve f dst = Some (File c).
Proof.
  unfold fs_copyfile. destruct (fs_samefile f src dst); [done|].
  destruct (fs_read f src) as [c|]; [|done].
  intros (_ & _ & Hk & _ & ->)%fs_write_inv. split; [done|].
  exists c. cbn. by rewrite lookup_insert_eq.
Qed.

Lemma fs_copy_replay paths f h src dst f' :
  same_inputs paths f0 fn → src ∈ paths →
  fs_copy f src dst = Ok f' → fs_le f' fn → replay_inv f0 fn f h →
  ∃ h', fs_copy h src dst = Ok h' ∧ replay_inv f0 fn f' h'.
Proof.
  intros Hsame Hin Hcopy Hle Hinv. unfold fs_copy in *.
  assert (Hd : fs_isdir h dst = fs_isdir f dst).
  { apply fs_isdir_replay; [done | |].
    - eapply fs_le_trans; [by eapply fs_copyfile_mono | done].
    - intros Hnd. rewrite Hnd in Hcopy.
      destruct (fs_copyfile_target _ _ _ _ Hcopy) as (Hk & c & Hc).
      split; [|done]. destruct Hle as [_ Hle]. rewrite Hle; by rewrite Hc. }
  rewrite Hd. by eapply fs_copyfile_replay.
Qed.
End ReplayCopy.

Section GoodLemmas.
Context {Resource : Type}.
Implicit Types (w v : World Resource) (paths : list string).

Lemma Good_static paths {A} (r : Result A) : Good paths (of_result (Resource:=Resource) r).
Proof.
  split.
  - intros w a w' [= -> <-]. apply fs_le_refl.
  - intros f0 fn w a w' v _ [= -> <-] _ Hinv. exists v, []. rewrite app_nil_r.
    split_and!; auto using Forall_nil_2.
Qed.

Lemma Good_ret paths {A} (a : A) : Good paths (ret (Resource:=Resource) a).
Proof. apply (Good_static paths (Ok a)). Qed.

Lemma Good_raise paths {A} e : Good paths (raise (Resource:=Resource) (A:=A) e).
Proof. apply (Good_static paths (Raise e)). Qed.

Lemma Good_config_get paths (configs : Configs) k :
  Good paths (config_get (Resource:=Resource) configs k).
Proof. unfold config_get. destruct (configs !! k); [apply Good_ret | apply Good_raise]. Qed.

Lemma Good_bind paths {A B} (m : M Resource A) (k : A → M Resource B) :
  Good paths m → (∀ a, Good paths (k a)) → Good paths (bind m k).
Proof.
  intros [Mm Rm] Hk. split.
  - intros w b w'' (a & w' & H1 & H2)%bind_inv_ok.
    eapply fs_le_trans; [by eapply Mm | by eapply (Hk a)].
  - intros f0 fn w b w'' v Hsame (a & w' & H1 & H2)%bind_inv_ok Hle Hinv.
    destruct (Hk a) as [Mk Rk].
    destruct (Rm f0 fn w a w' v Hsame H1) as (v' & evs1 & Hv1 & Hinv1 & Hl1 & Hm1);
      [eapply fs_le_trans; [by eapply Mk | done] | done |].
    destruct (Rk f0 fn w' b w'' v' Hsame H2 Hle Hinv1) as (v'' & evs2 & Hv2 & Hinv2 & Hl2 & Hm2).
    exists v'', (evs1 ++ evs2). rewrite (bind_ok _ _ _ _ _ Hv1).
    split_and!; [done..| |].
    + by rewrite Hl2, Hl1, app_assoc.
    + by apply Forall_app.
Qed.

Lemma Good_emit paths ev : is_mkdir ev = false → Good paths (emit (Resource:=Resource) ev).
Proof.
  intros Hev. split.
  - intros w a w' [= <- <-]. apply fs_le_refl.
  - intros f0 fn w a w' v _ [= <- <-] _ Hinv.
    exists (mkWorld (fs v) (log v ++ [ev])), [ev].
    split_and!; auto.
Qed.

Lemma Good_update_fs paths (op : FileSys → Result FileSys) :
  (∀ f f', op f = Ok f' → fs_le f f') →
  (∀ f0 fn f h f', same_inputs paths f0 fn → op f = Ok f' → fs_le f' fn →
                   replay_inv f0 fn f h →
                   ∃ h', op h = Ok h' ∧ replay_inv f0 fn f' h') →
  Good paths (update_fs (Resource:=Resource) op).
Proof.
  intros Hmono Hrep. split.
  - intros w a w'. unfold update_fs. destruct (op (fs w)) eqn:Hop; [|done].
    intros [= <- <-]. by apply Hmono.
  - intros f0 fn w a w' v Hsame. unfold update_fs.
    destruct (op (fs w)) as [f'|] eqn:Hop; [|done]. intros [= <- <-] Hle Hinv.
    destruct (Hrep f0 fn _ _ _ Hsame Hop Hle Hinv) as (h' & Hh & Hinv').
    exists (mkWorld h' (log v)), []. rewrite Hh, app_nil_r.
    split_and!; auto using Forall_nil_2.
Qed.

Lemma Good_write_file paths p c : Good paths (write_file (Resource:=Resource) p c).
Proof.
  apply Good_bind; [by apply Good_emit | intros _].
  apply Good_update_fs.
  - intros f f'. apply fs_write_mono.
  - intros f0 fn f h f' _. apply fs_write_replay.
Qed.

Lemma Good_shutil_copyfile paths src dst :
  src ∈ paths → Good paths (shutil_copyfile (Resource:=Resource) src dst).
Proof.
  intros Hin. apply Good_bind; [by apply Good_emit | intros _].
  apply Good_update_fs.
  - intros f f'. apply fs_copyfile_mono.
  - intros f0 fn f h f' Hsame. by eapply fs_copyfile_replay.
Qed.

Lemma Good_shutil_copy paths src dst :
  src ∈ paths → Good paths (shutil_copy (Resource:=Resource) src dst).
Proof.
  intros Hin. apply Good_bind; [by apply Good_emit | intros _].
  apply Good_update_fs.
  - intros f f'. apply fs_copy_mono.
  - intros f0 fn f h f' Hsame. by eapply fs_copy_replay.
Qed.

Lemma Good_read_file paths p :
  p ∈ paths → Good paths (read_file (Resource:=Resource) p).
Proof.
  intros Hin. apply Good_bind; [by apply Good_emit | intros _]. split.
  - intros w a w' [= _ <-]. apply fs_le_refl.
  - intros f0 fn w a w' v Hsame [= Hr <-] Hle Hinv. exists v, [].
    unfold query_fs.
    rewrite (fs_read_replay _ _ _ _ _ _ _ Hsame Hin Hr Hle Hinv), app_nil_r.
    split_and!; auto using Forall_nil_2.
Qed.

(** A directory that the first run found or made is found by the second. *)
Lemma Good_mkdir_unless_exists paths d :
  Good paths (mkdir_unless_exists (Resource:=Resource) d).
Proof.
  unfold mkdir_unless_exists, os_path_exists, os_mkdir, query_fs. split.
  - intros w a w'. unfold bind at 1. destruct (fs_exists (fs w) d); cbn [negb].
    + intros [= <- <-]. apply fs_le_refl.
    + rewrite bind_emit. unfold update_fs. cbn [fs log].
      destruct (fs_mkdir (fs w) d) eqn:Hmk; [|done]. intros [= <- <-].
      by eapply fs_mkdir_mono.
  - intros f0 fn w a w' v Hsame Hrun Hle Hinv.
    assert (Hex : fs_exists (fs v) d = true ∧ replay_inv f0 fn (fs w') (fs v) ∧ a = tt).
    { revert Hrun. unfold bind at 1.
      destruct (fs_exists (fs w) d) eqn:He; cbn [negb].
      - intros [= <- <-]. split; [|done].
        unfold fs_exists in *.
        assert (Hi : fs_stat (fs w) d ≠ None).
        { by destruct (fs_stat (fs w) d). }
        assert (Hk := fs_stat_replay _ _ (fs w) (fs v) d Hinv Hle Hi).
        destruct (fs_stat (fs w) d) as [[]|], (fs_stat (fs v) d) as [[]|]; done.
      - rewrite bind_emit. unfold update_fs. cbn [fs log].
        destruct (fs_mkdir (fs w) d) as [f'|] eqn:Hmk; [|done]. intros [= <- <-].
        cbn [fs] in *.
        pose proof (fs_mkdir_mono _ _ _ Hmk) as Hmono.
        pose proof Hmk as (Hk & _)%fs_mkdir_inv.
        apply fs_mkdir_ok in Hmk as (Hn & Hd & Hwalk & Hi & ->).
        assert (Hh : nodes (fs v) !! resolve (fs w) d = Some Dir).
        { destruct Hle as [_ Hle']. specialize (Hle' (resolve (fs w) d)).
          cbn in Hle'. rewrite lookup_insert_eq in Hle'. specialize (Hle' ltac:(done)).
          destruct Hinv as (_ & _ & _ & Hinv).
          destruct (Hinv (resolve (fs w) d)) as [_ Hkh]. rewrite Hle' in Hkh.
          by destruct (nodes (fs v) !! resolve (fs w) d) as [[]|]. }
        split_and!; [|by apply replay_inv_added|done].
        unfold fs_exists.
        assert (fs_stat (fs v) d = Some Dir) as ->; [|done].
        apply fs_stat_some. rewrite (replay_inv_resolve _ _ _ _ _ Hinv).
        split_and!; try done.
        + eapply walk_replay; [done | | done].
          eapply fs_le_trans; [exact Hmono | done].
        + by rewrite inode_at_nodes. }
    destruct Hex as (Hex & Hinv' & ->). exists v, [].
    unfold bind. rewrite Hex. cbn. rewrite app_nil_r.
    split_and!; auto using Forall_nil_2.
Qed.

Lemma Good_forM_ paths {B} (f : B → M Resource unit) l :
  (∀ x, x ∈ l → Good paths (f x)) → Good paths (forM_ f l).
Proof.
  induction l as [|x l IH]; intros Hf; simpl; [apply Good_ret|].
  apply Good_bind; [apply Hf; by left |].
  intros _. apply IH. intros y Hy. apply Hf. by right.
Qed.

Lemma Good_foldM paths {A B} (f : A → B → M Resource A) l a :
  (∀ a x, x ∈ l → Good paths (f a x)) → Good paths (foldM f l a).
Proof.
  revert a. induction l as [|x l IH]; intros a Hf; simpl; [apply Good_ret|].
  apply Good_bind; [apply Hf; by left |].
  intros a'. apply IH. intros b y Hy. apply Hf. by right.
Qed.
End GoodLemmas.

Section GoodPipeline.
Context `{E : External}.
Implicit Types paths : list string.

Lemma Good_log2 paths v : Good paths (log2 v).
Proof. unfold log2. destruct (v <=? 0); [apply Good_raise | apply Good_ret]. Qed.

Lemma Good_render paths tf name ml sl dp dl di ni kws :
  Good paths (render tf name ml sl dp dl di ni kws).
Proof.
  unfold render. apply Good_bind; [apply Good_log2 | intros bw].
  apply Good_bind; [by apply Good_emit | intros _; apply Good_ret].
Qed.

Lemma Good_convert paths fl top inc def skip :
  Good paths (convert fl top inc def skip).
Proof.
  apply Good_bind; [by apply Good_emit | intros _; apply Good_static].
Qed.

Lemma Good_print paths line : Good paths (print (Resource:=Resource) line).
Proof. by apply Good_emit. Qed.

Lemma Good_build_ioports_step paths configs acc item :
  Good paths (build_ioports_step configs acc item).
Proof.
  destruct acc as [di ni], item as [pk [pv pwidth]]. unfold build_ioports_step.
  apply Good_bind; [apply Good_config_get | intros ?; apply Good_ret].
Qed.
End GoodPipeline.

Ltac good_step :=
  lazymatch goal with
  | |- Good _ (bind _ _) => apply Good_bind; [ | intros ? ]
  | |- Good _ (ret _) => apply Good_ret
  | |- Good _ (raise _) => apply Good_raise
  | |- Good _ (of_result _) => apply Good_static
  | |- Good _ (config_get _ _) => apply Good_config_get
  | |- Good _ (mkdir_unless_exists _) => apply Good_mkdir_unless_exists
  | |- Good _ (write_file _ _) => apply Good_write_file
  | |- Good _ (read_file _) => apply Good_read_file; set_solver
  | |- Good _ (shutil_copyfile _ _) => apply Good_shutil_copyfile; set_solver
  | |- Good _ (shutil_copy _ _) => apply Good_shutil_copy; set_solver
  | |- Good _ (render _ _ _ _ _ _ _ _ _) => apply Good_render
  | |- Good _ (convert _ _ _ _ _) => apply Good_convert
  | |- Good _ (print _) => apply Good_print
  | |- Good _ (emit _) => apply Good_emit; reflexivity
  | |- Good _ (build_ioports_step _ _ _) => apply Good_build_ioports_step
  | |- Good _ (forM_ _ _) => apply Good_forM_; intros ? ?
  | |- Good _ (foldM _ _ _) => apply Good_foldM; intros ? ? ?
  | |- Good _ (match ?x with _ => _ end) => destruct x eqn:?
  end.

Section Rebuild.
Context `{E : External}.

Lemma Good_build_package_general paths configs syn common :
  Good paths (build_package_general configs syn common).
Proof. unfold build_package_general. repeat good_step. Qed.

Lemma Good_build_package_axi configs syn common ml sl tp ti top mi ut ign :
  Good (input_paths mi ut)
       (build_package_axi configs syn common ml sl tp ti top mi ut ign).
Proof.
  unfold build_package_axi, input_paths. cbv zeta. repeat good_step.
Qed.

Lemma Good_build_package_avalon configs syn common ml sl tp ti top mi ut ign :
  Good (input_paths mi ut)
       (build_package_avalon configs syn common ml sl tp ti top mi ut ign).
Proof.
  unfold build_package_avalon, input_paths. cbv zeta. repeat good_step.
Qed.

Lemma Good_build configs top fl inc def mi ut skip ign :
  Good (input_paths mi ut) (build configs top fl inc def mi ut skip ign).
Proof.
  unfold build. cbv zeta.
  repeat good_step;
    first [ apply Good_build_package_general | apply Good_build_package_axi
          | apply Good_build_package_avalon ].
Qed.

(** C9.  When a build has succeeded and the files that it reads for the
    caller (the user test code and the memory image) read the same after
    it as before it, the same build run again on the resulting world
    succeeds, creates no directory and leaves the file system exactly as
    the first run left it: every directory and every other file is
    untouched and every output file is overwritten with the content it
    already had.  The first run itself removes nothing of what it finds
    and changes no directory into a file or file into a directory. *)
Theorem rebuild_is_idempotent
    (configs : Configs) (userlogic_topmodule : string)
    (userlogic_filelist : list string) (include define : option (list string))
    (memimg usertest : option string) (skip_not_found ignore_protocol_error : bool)
    (w w1 : World Resource) :
  build configs userlogic_topmodule userlogic_filelist include define memimg usertest
        skip_not_found ignore_protocol_error w = (Ok tt, w1) →
  same_inputs (input_paths memimg usertest) (fs w) (fs w1) →
  fs_le (fs w) (fs w1) ∧
  ∃ evs,
    build configs userlogic_topmodule userlogic_filelist include define memimg usertest
          skip_not_found ignore_protocol_error w1
    = (Ok tt, mkWorld (fs w1) (log w1 ++ evs)) ∧
    Forall (λ ev, is_mkdir ev = false) evs.
Proof.
  intros Hrun Hsame.
  destruct (Good_build configs userlogic_topmodule userlogic_filelist include define
              memimg usertest skip_not_found ignore_protocol_error) as [Hmono Hrep].
  assert (Hle := Hmono _ _ _ Hrun). split; [done|].
  destruct (Hrep (fs w) (fs w1) w tt w1 w1 Hsame Hrun (fs_le_refl _))
    as (v' & evs & Hv & Hinv & Hlog & Hmk).
  { by apply replay_inv_start. }
  exists evs. split; [|done]. rewrite Hv. f_equal.
  destruct v' as [[c n] l], w1 as [[c1 n1] l1]. cbn in *. subst l.
  destruct Hinv as (Hc & _ & _ & Hinv). cbn in *. subst c. do 2 f_equal.
  apply map_eq. intros k. by destruct (Hinv k) as [[?|[? _]] _].
Qed.
End Rebuild.

(** ** Burst length, package tree and classification *)

Section Claims.
Context `{E : External}.

(** C3, as amended.  Whatever the configuration holds, every context that
    [build] hands to a template and every call of the IP-XACT generator
    carries the default burst length 256, and every template context
    carries the burst-length width that [log2] computes for 256. *)
Theorem build_emits_default_burst_length
    (configs : Configs) (userlogic_topmodule : string)
    (userlogic_filelist : list string) (include define : option (list string))
    (memimg usertest : option string) (skip_not_found ignore_protocol_error : bool)
    (w : World Resource) :
  ∃ evs,
    log (build configs userlogic_topmodule userlogic_filelist include define
               memimg usertest skip_not_found ignore_protocol_error w).2
    = log w ++ evs ∧
    Forall (λ ev, (∀ b, emitted_burstlength ev = Some b → b = 256) ∧
                  (∀ bw, emitted_burstlen_width ev = Some bw →
                         bw = math_ceil (math_log 256 2)))
           evs.
Proof. apply Emits_run, build_burst. Qed.

(** C4, as amended.  In a build for the family [axi] or [avalon], every
    directory that is created and every file that is written or copied to
    lies under the directory [ipgen_<module>_v1_00_a/], a path relative to
    the working directory; [configs['output']] plays no part. *)
Theorem package_tree_under_package_directory
    (configs : Configs) (userlogic_topmodule : string)
    (userlogic_filelist : list string) (include define : option (list string))
    (memimg usertest : option string) (skip_not_found ignore_protocol_error : bool)
    (t : PyVal) (w : World Resource) :
  configs !! "if_type" = Some t →
  py_eq t (VStr "axi") || py_eq t (VStr "avalon") = true →
  ∃ evs,
    log (build configs userlogic_topmodule userlogic_filelist include define
               memimg usertest skip_not_found ignore_protocol_error w).2
    = log w ++ evs ∧
    Forall (λ ev, ∀ p, target_path ev = Some p →
                       under (fs w) ("ipgen_" +:+ userlogic_topmodule +:+ "_v1_00_a" +:+ "/") p)
           evs.
Proof. intros Ht Hfam. by eapply Emits_run, build_under. Qed.

(** C5, as amended.  The Avalon package types a parameter that is not a
    localparam as [STRING] when its rendered declaration contains a double
    quote, else as [INTEGER] when it contains [integer], else as
    [STD_LOGIC_VECTOR].  The AXI package, in both of its parameter tables,
    types it as [string] when the declaration contains a double quote and
    as [integer] otherwise.  A port of direction output is tagged [O] in
    the AXI port table and [Output] in the Avalon port table. *)
Theorem parameter_and_port_classification
    (tp : list (string * Param)) (ti : list (string * (Port Expr * option Z)))
    (dl : list string) (r name : string) (width : option (Width Expr)) (signed : bool) :
  (foldl avalon_tcl_parameters_step ([], [], []) tp).2
  = (λ item : string * Param,
       (param_name item.2, visit (NExpr (param_value item.2)),
        match spec_datatype (visit (NParam item.2)) with
        | DT_STRING => "STRING"
        | DT_INTEGER => "INTEGER"
        | DT_VECTOR => "STD_LOGIC_VECTOR"
        end))
    <$> filter (λ item, is_localparam item = false) tp ∧
  (foldl axi_mpd_parameters_step ([], [], []) tp).2
  = (λ item : string * Param,
       (param_name item.2, visit (NExpr (param_value item.2)),
        if occurs dquote (visit (NParam item.2)) then "string" else "integer"))
    <$> filter (λ item, is_localparam item = false) tp ∧
  (foldl axi_ext_params_step (dl, []) tp).2
  = (foldl axi_mpd_parameters_step ([], [], []) tp).2 ∧
  datatype_of_tag (datatype_tag AVALON r) = spec_datatype r ∧
  datatype_of_tag (datatype_tag AXI r)
  = (if occurs dquote r then DT_STRING else DT_INTEGER) ∧
  (foldl axi_mpd_ports_step ([], [], []) ti).2.*1
  = (λ item : string * (Port Expr * option Z),
       (port_name item.2.1, direction_tag AXI item.2.1)) <$> ti ∧
  (foldl avalon_tcl_ports_step ([], [], []) ti).2.*1
  = (λ item : string * (Port Expr * option Z),
       (port_name item.2.1, direction_tag AVALON item.2.1)) <$> ti ∧
  direction_tag AXI (mkPort Output name width signed) = "O" ∧
  direction_tag AVALON (mkPort Output name width signed) = "Output".
Proof.
  rewrite avalon_tcl_parameters_loop, axi_mpd_parameters_loop, axi_ext_params_loop,
    axi_mpd_ports_loop, avalon_tcl_ports_loop.
  cbn [fst snd]. split_and!; try done.
  - apply list_fmap_ext. intros _ [pk pv] _. unfold parameter_row.
    rewrite avalon_dt_spec. unfold spec_datatype. cbn [snd]. fold dquote.
    by destruct (occurs dquote (visit (NParam pv))),
         (occurs "integer" (visit (NParam pv))).
  - apply list_fmap_ext. intros _ [pk pv] _. unfold parameter_row.
    by rewrite axi_dt_spec.
  - cbn [datatype_tag]. rewrite avalon_dt_spec. unfold spec_datatype. fold dquote.
    by destruct (occurs dquote r), (occurs "integer" r).
  - cbn [datatype_tag]. rewrite axi_dt_spec. by destruct (occurs dquote r).
  - rewrite <- list_fmap_compose. by apply list_fmap_ext.
  - rewrite <- list_fmap_compose. by apply list_fmap_ext.
Qed.

(** C7, as amended.  In the IP-XACT port list of the AXI package the
    vector width of a port is [None] when the port is scalar and the
    resolved bit count minus one otherwise, and its most significant bit
    is rendered with every identifier replaced by the accessor
    [(spirit:decode(id('MODELPARAM_VALUE.<name>')))]; the loop that builds
    the list raises [TypeError] at a port that has a width and no
    resolved bit count, and builds a row for every port otherwise.  The
    HDL declarations of both packages keep the width of the port as it
    is.  The port table of the AXI package carries the rendered width, or
    the empty string for a scalar port.  The port table of the Avalon
    package carries, for every port, the resolved bit count itself as a
    string: its numeral, not that of the count minus one, and the string
    [None] where the analyzer has resolved none. *)
Theorem port_vector_width_per_table
    (ti : list (string * (Port Expr * option Z)))
    (pk : string) (pv : Port Expr) (pwidth : option Z) (n : Z)
    (c : PortClass) (name : string) (width : Width Expr) (signed : bool) :
  ext_vector_width (pk, (pv, Some n)) = Ok [spec_vector_width pv n] ∧
  ext_vector_width (pk, (mkPort c name None signed, pwidth)) = Ok [VNone] ∧
  ext_vector_width (pk, (mkPort c name (Some width) signed, Some n)) = Ok [VInt (n - 1)] ∧
  ext_vector_width (pk, (mkPort c name (Some width) signed, None))
  = Raise (TypeError "unsupported operand type(s) for -: 'NoneType' and 'int'") ∧
  mpd_vector_width (pk, (pv, pwidth))
  = [VStr match port_width pv with
          | None => ""
          | Some w => visit (NWidth w)
          end] ∧
  tcl_vector_width (pk, (pv, Some n)) = [VStr (pretty n)] ∧
  tcl_vector_width (pk, (pv, None)) = [VStr "None"] ∧
  foldR axi_ext_ports_step ti []
  = (if forallb resolved ti
     then Ok (ext_port_row <$> ti)
     else Raise (TypeError "unsupported operand type(s) for -: 'NoneType' and 'int'")) ∧
  (λ row : ExtPort, row.1.2) <$> (ext_port_row <$> ti)
  = (λ item : string * (Port Expr * option Z),
       match port_width item.2.1 with
       | None => None
       | Some _ => (λ n, n - 1) <$> item.2.2
       end) <$> ti ∧
  (λ row : ExtPort, row.2) <$> (ext_port_row <$> ti)
  = (λ item : string * (Port Expr * option Z),
       (λ w, visit (NExpr (replaceIdentifiers (msb w)
                             (accessor_dict (getIdentifiers (msb w))))))
       <$> port_width item.2.1) <$> ti ∧
  (∀ ids i,
     accessor_dict ids !! i
     = if decide (i ∈ ids)
       then Some ("(spirit:decode(id('MODELPARAM_VALUE." +:+ i +:+ "')))")
       else None) ∧
  (foldl axi_mpd_ports_step ([], [], []) ti).1.2
  = (λ item : string * (Port Expr * option Z),
       visit (NWire (mkWire (port_name item.2.1) (port_width item.2.1)
                            (port_signed item.2.1)))) <$> ti ∧
  (foldl avalon_tcl_ports_step ([], [], []) ti).1.2
  = (λ item : string * (Port Expr * option Z),
       visit (NWire (mkWire (port_name item.2.1) (port_width item.2.1)
                            (port_signed item.2.1)))) <$> ti ∧
  (λ row : Row3, row.2) <$> (foldl axi_mpd_ports_step ([], [], []) ti).2
  = (λ item : string * (Port Expr * option Z),
       match port_width item.2.1 with
       | None => ""
       | Some w => visit (NWidth w)
       end) <$> ti ∧
  (λ row : Row3, row.2) <$> (foldl avalon_tcl_ports_step ([], [], []) ti).2
  = (λ item : string * (Port Expr * option Z),
       match item.2.2 with
       | Some n => pretty n
       | None => "None"
       end) <$> ti.
Proof.
  rewrite axi_ext_ports_loop, axi_mpd_ports_loop, avalon_tcl_ports_loop.
  cbn [fst snd app]. split_and!; try done.
  - unfold ext_vector_width, spec_vector_width. rewrite axi_ext_ports_step_spec.
    unfold ext_port_row. cbn. by destruct (port_width pv).
  - rewrite <- list_fmap_compose. apply list_fmap_ext. intros _ [k [p pw]] _.
    unfold ext_port_row. cbn. by destruct (port_width p).
  - rewrite <- list_fmap_compose. apply list_fmap_ext. intros _ [k [p pw]] _.
    unfold ext_port_row. cbn. by destruct (port_width p).
  - apply accessor_dict_lookup.
  - by rewrite <- list_fmap_compose.
  - rewrite <- list_fmap_compose. apply list_fmap_ext. intros _ [k [p [m|]]] _; done.
Qed.
End Claims.

(** ** The width of the burst length in floating point *)

Section Logarithm.
Context (E : External) (ln : PrimFloat.float → PrimFloat.float).

Lemma binary64_log_small (v : Z) :
  PrimFloat.is_infinity (Binary64.of_int v) = false →
  Binary64.log ln v 2 = (ln (Binary64.of_int v) / ln 2)%float.
Proof.
  intros Hv. unfold Binary64.log, Binary64.loghelper. rewrite Hv.
  by change (PrimFloat.is_infinity (Binary64.of_int 2)) with false.
Qed.

(** C8.  With the floating-point numbers of CPython, [log2(2**29)] is 30
    and not 29.  The C library gives [0x1.419ecb712c481p+4] for the
    logarithm of [2**29] and [0x1.62e42fefa39efp-1] for the logarithm of
    2; [math.log(2**29, 2)] is the quotient of the two doubles, which is
    the double next above 29, and its ceiling is 30.  [render] computes
    this width for the burst length [2**29] and hands it to the
    template. *)
Theorem log2_of_2_to_the_29
    (template_file userlogic_name : string)
    (masterlist slavelist : list (@Resource E))
    (def_top_parameters def_top_localparams def_top_ioports name_top_ioports : list string)
    (w : World (@Resource E)) :
  ln 2%float = 0x1.62e42fefa39efp-1%float →
  ln 0x1p+29%float = 0x1.419ecb712c481p+4%float →
  Binary64.log ln (2 ^ 29) 2 = 0x1.d000000000001p+4%float ∧
  log2 (E:=with_binary64 ln E) (2 ^ 29) w = (Ok 30, w) ∧
  ∃ td,
    (render (E:=with_binary64 ln E) template_file userlogic_name masterlist slavelist
            def_top_parameters def_top_localparams def_top_ioports name_top_ioports
            [kw_ext_burstlength (2 ^ 29)] w).2
    = mkWorld (fs w) (log w ++ [EvRender template_file td]) ∧
    td_ext_burstlength td = 2 ^ 29 ∧
    td_ext_burstlen_width td = 30.
Proof.
  intros H2 H29.
  assert (Hlog : Binary64.log ln (2 ^ 29) 2 = 0x1.d000000000001p+4%float).
  { rewrite binary64_log_small by (vm_compute; reflexivity).
    change (Binary64.of_int (2 ^ 29)) with 0x1p+29%float.
    rewrite H2, H29. vm_compute. reflexivity. }
  assert (Hw : log2 (E:=with_binary64 ln E) (2 ^ 29) w = (Ok 30, w)).
  { unfold log2. change (2 ^ 29 <=? 0) with false. cbv iota.
    change (@math_log (with_binary64 ln E)) with (Binary64.log ln).
    change (@math_ceil (with_binary64 ln E)) with Binary64.ceil.
    rewrite Hlog. reflexivity. }
  split_and!; [done..|].
  unfold render.
  change (kwarg _ 256 [kw_ext_burstlength (2 ^ 29)]) with (2 ^ 29).
  rewrite (bind_ok _ _ _ _ _ Hw), bind_emit. by eexists.
Qed.
End Logarithm.

(** ** The properties on the sample instance *)

Lemma run_returns {Resource} (rw : Result unit * World Resource) :
  rw.1 = Ok tt → rw = (Ok tt, rw.2).
Proof. destruct rw as [r w]. cbn. by intros ->. Defined.

Lemma sample_clocks_consistent if_type output :
  clocks_consistent (Sample.configs if_type output).
Proof. exists (VBool false). split; [reflexivity | intros H; discriminate H]. Defined.

Lemma build_rejects_clock_mismatch_witness :
  build (E:=Sample.collaborators) Sample.mismatched "foo" ["foo.v"] None None None None
        false false Sample.world
  = (Raise (ValueError "All clock periods should be same in single clock mode."),
     Sample.world).
Proof.
  apply (build_rejects_clock_mismatch (E:=Sample.collaborators) Sample.mismatched
           "foo" ["foo.v"] None None None None false false Sample.world
           (VBool true) (VInt 5) (VInt 4)); vm_compute; reflexivity.
Defined.

Lemma unsupported_family_counterexample :
  let rw := Sample.run "wishbone" "out" None None in
  supported_family (VStr "wishbone") = false ∧
  rw.1 = Raise (ValueError "Interface type 'wishbone' is not supported.") ∧
  EvAnalyze ["foo.v"] "foo" None None false ∈ log rw.2.
Proof.
  split_and!; [reflexivity | vm_compute; reflexivity |].
  apply list_elem_of_lookup. exists 0%nat. vm_compute. reflexivity.
Qed.

Lemma build_unsupported_family_witness :
  ∃ s,
    Sample.configs "wishbone" "out" !! "single_clock" = Some s ∧
    build (E:=Sample.collaborators) (Sample.configs "wishbone" "out") "foo" ["foo.v"]
          None None None None false false Sample.world
    = (Raise (ValueError ("Interface type '" +:+ py_str (VStr "wishbone")
                          +:+ "' is not supported.")),
       mkWorld (fs Sample.world)
         (log Sample.world ++
          [EvAnalyze ["foo.v"] "foo" None None false;
           EvDump;
           EvRender "node_general.txt"
                    (node_dict (E:=Sample.collaborators) Sample.foo "foo"
                               (VStr "wishbone") (VInt 32) s);
           EvPrint "----------------------------------------";
           EvPrint "Synthesis Setting"] ++
          ((λ item, EvPrint (setting_line item))
           <$> sorted_items (Sample.configs "wishbone" "out")))).
Proof.
  apply (build_unsupported_family (E:=Sample.collaborators)
           (Sample.configs "wishbone" "out") "foo" ["foo.v"] None None None None
           false false Sample.foo (VStr "wishbone") (VInt 32) Sample.world).
  - apply sample_clocks_consistent.
  - reflexivity.
  - vm_compute. reflexivity.
  - vm_compute. reflexivity.
  - reflexivity.
Defined.

Lemma burst_length_counterexample :
  Sample.configs "axi" "out" !! "ext_burstlength" = Some (VInt 16) ∧
  ∃ ev, ev ∈ log (Sample.run "axi" "out" None None).2 ∧
        emitted_burstlength ev = Some 256 ∧ emitted_burstlen_width ev = Some 8.
Proof.
  split; [vm_compute; reflexivity|].
  exists (EvRender "node_axi.txt"
            (node_dict (E:=Sample.collaborators) Sample.foo "foo" (VStr "axi") (VInt 32)
                       (VBool false))).
  split_and!; [|reflexivity..].
  apply list_elem_of_lookup. exists 2%nat. vm_compute. reflexivity.
Qed.

Lemma package_tree_counterexample :
  let rw := Sample.run "avalon" "out" None None in
  Sample.configs "avalon" "out" !! "output" = Some (VStr "out") ∧
  rw.1 = Ok tt ∧
  EvMkdir "ipgen_foo_v1_00_a/" ∈ log rw.2 ∧
  nodes (fs rw.2) !! ["work"; "ipgen_foo_v1_00_a"] = Some Dir ∧
  nodes (fs rw.2) !! ["work"; "out"; "ipgen_foo_v1_00_a"] = None ∧
  ¬ under (fs Sample.world) "out" "ipgen_foo_v1_00_a/".
Proof.
  split_and!; try (vm_compute; reflexivity).
  - apply list_elem_of_lookup. exists 13%nat. vm_compute. reflexivity.
  - unfold under. intros [k Hk]. vm_compute in Hk. discriminate Hk.
Qed.

Lemma package_tree_under_package_directory_witness :
  ∃ evs,
    log (build (E:=Sample.collaborators) (Sample.configs "axi" "out") "foo" ["foo.v"]
               None None None None false false Sample.world).2
    = log Sample.world ++ evs ∧
    Forall (λ ev, ∀ p, target_path ev = Some p →
                       under (fs Sample.world) ("ipgen_" +:+ "foo" +:+ "_v1_00_a" +:+ "/") p)
           evs.
Proof.
  apply (package_tree_under_package_directory (E:=Sample.collaborators)
           (Sample.configs "axi" "out") "foo" ["foo.v"] None None None None false false
           (VStr "axi") Sample.world); vm_compute; reflexivity.
Defined.

Lemma classification_counterexample :
  let p := Sample.mkParam false "W" (Sample.IntConst 8) in
  let r := @visit Sample.collaborators (NParam p) in
  r = "parameter W = 8;" ∧
  (foldl (axi_mpd_parameters_step (E:=Sample.collaborators)) ([], [], []) [("W", p)]).2
  = [("W", "8", "integer")] ∧
  datatype_of_tag (datatype_tag AXI r) ≠ spec_datatype r.
Proof. split_and!; [vm_compute; reflexivity..|]. vm_compute. discriminate. Qed.

Lemma vector_width_counterexample :
  let d := ("d", (Sample.port_d, Some 8)) in
  let c := ("c", (Sample.port_c, None)) in
  port_width Sample.port_d ≠ None ∧
  spec_vector_width Sample.port_d 8 = VInt 7 ∧
  tcl_vector_width (E:=Sample.collaborators) d = [VStr "8"] ∧
  tcl_vector_width (E:=Sample.collaborators) d ≠ [spec_vector_width Sample.port_d 8] ∧
  tcl_vector_width (E:=Sample.collaborators) d
  ≠ [VStr (py_str (spec_vector_width Sample.port_d 8))] ∧
  mpd_vector_width (E:=Sample.collaborators) d = [VStr "[W-1:0] "] ∧
  mpd_vector_width (E:=Sample.collaborators) d ≠ [spec_vector_width Sample.port_d 8] ∧
  ext_vector_width (E:=Sample.collaborators) d = Ok [VInt 7] ∧
  tcl_vector_width (E:=Sample.collaborators) c = [VStr "None"] ∧
  mpd_vector_width (E:=Sample.collaborators) c = [VStr ""] ∧
  ext_vector_width (E:=Sample.collaborators) c = Ok [VNone].
Proof.
  split_and!; try (vm_compute; reflexivity); vm_compute; discriminate.
Qed.

Lemma log2_of_2_to_the_29_witness :
  Binary64.log Sample.libm_log (2 ^ 29) 2 = 0x1.d000000000001p+4%float ∧
  log2 (E:=with_binary64 Sample.libm_log Sample.collaborators) (2 ^ 29) Sample.world
  = (Ok 30, Sample.world) ∧
  ∃ td,
    (render (E:=with_binary64 Sample.libm_log Sample.collaborators)
            "node_axi.txt" "foo" [] [] [] [] [] []
            [kw_ext_burstlength (2 ^ 29)] Sample.world).2
    = mkWorld (fs Sample.world) (log Sample.world ++ [EvRender "node_axi.txt" td]) ∧
    td_ext_burstlength td = 2 ^ 29 ∧
    td_ext_burstlen_width td = 30.
Proof.
  apply (log2_of_2_to_the_29 Sample.collaborators Sample.libm_log
           "node_axi.txt" "foo" [] [] [] [] [] [] Sample.world);
    vm_compute; reflexivity.
Defined.


Lemma build_wrapper_ports_witness :
  ∃ td pre post,
    log (build (E:=Sample.collaborators) (Sample.configs "avalon" "out") "foo" ["foo.v"]
               None None None None false false Sample.world).2
    = log Sample.world ++ pre ++ EvRender (node_template (VStr "avalon")) td :: post ∧
    td_name_top_ioports td = (an_top_ioports Sample.foo).*1 ∧
    td_def_top_ioports td =
      (λ item : string * (Port Sample.expr * option Z),
         let pv := item.2.1 in
         if py_eq (VStr "avalon") (VStr "avalon")
         then @visit Sample.collaborators
                (NIoport (mkPort (port_class pv) ("coe_" +:+ port_name pv)
                                 (port_width pv) (port_signed pv))
                         (mkWire ("coe_" +:+ port_name pv)
                                 (port_width pv) (port_signed pv)))
         else @visit Sample.collaborators
                (NIoport pv (mkWire (port_name pv) (port_width pv) (port_signed pv))))
      <$> an_top_ioports Sample.foo.
Proof.
  apply (build_wrapper_ports (E:=Sample.collaborators)
           (Sample.configs "avalon" "out") "foo" ["foo.v"] None None None None
           false false Sample.foo (VStr "avalon") (VInt 32) Sample.world).
  - apply sample_clocks_consistent.
  - reflexivity.
  - vm_compute. reflexivity.
  - vm_compute. reflexivity.
Defined.

Lemma rebuild_is_idempotent_witness :
  let w1 := (Sample.run "axi" "out" (Some "mem.bin") (Some "tb.v")).2 in
  fs_le (fs Sample.world) (fs w1) ∧
  ∃ evs,
    build (E:=Sample.collaborators) (Sample.configs "axi" "out") "foo" ["foo.v"]
          None None (Some "mem.bin") (Some "tb.v") false false w1
    = (Ok tt, mkWorld (fs w1) (log w1 ++ evs)) ∧
    Forall (λ ev, is_mkdir ev = false) evs.
Proof.
  apply (rebuild_is_idempotent (E:=Sample.collaborators)
           (Sample.configs "axi" "out") "foo" ["foo.v"] None None
           (Some "mem.bin") (Some "tb.v") false false Sample.world).
  - apply (run_returns (Sample.run "axi" "out" (Some "mem.bin") (Some "tb.v"))).
    vm_compute. reflexivity.
  - intros p Hp.
    change (p ∈ ["tb.v"; "mem.bin"; "mem.bin"]) in Hp.
    repeat (apply elem_of_cons in Hp as [->|Hp]); try (vm_compute; reflexivity).
    by apply elem_of_nil in Hp.
Defined.

(** * Further properties *)

(** ** Python strings, continued *)

Lemma length_append (s t : string) :
  String.length (s +:+ t) = (String.length s + String.length t)%nat.
Proof.
  induction s as [|c s IH]; [by rewrite append_empty_l|].
  rewrite append_cons. cbn [String.length]. by rewrite IH.
Qed.

Lemma substring_all (t : string) : String.substring 0 (String.length t) t = t.
Proof. induction t as [|c t IH]; [done|]. cbn. by rewrite IH. Qed.

Lemma substring_append_skip (p t : string) (m : nat) :
  String.substring (String.length p) m (p +:+ t) = String.substring 0 m t.
Proof.
  induction p as [|c p IH]; [by rewrite append_empty_l|].
  rewrite append_cons. cbn [String.length String.substring]. apply IH.
Qed.

Lemma substring_split (s : string) (k : nat) :
  (k ≤ String.length s)%nat →
  s = String.substring 0 k s +:+ String.substring k (String.length s - k) s.
Proof.
  revert k. induction s as [|c s IH]; intros k Hk.
  - cbn in Hk. assert (k = 0%nat) as -> by lia. done.
  - destruct k as [|k].
    + rewrite Nat.sub_0_r, substring_all. by destruct s.
    + cbn [String.substring String.length Nat.sub]. rewrite append_cons.
      f_equal. apply IH. cbn in Hk. lia.
Qed.

(** [s.endswith(suffix)] holds exactly when [s] is some string followed
    by [suffix]. *)
Lemma endswith_spec (s suffix : string) :
  PyStr.endswith s suffix = true ↔ ∃ stem, s = stem +:+ suffix.
Proof.
  unfold PyStr.endswith. split.
  - destruct (Nat.leb_spec (String.length suffix) (String.length s)) as [Hle|]; [|done].
    intros Heq%String.eqb_eq.
    pose proof (substring_split s (String.length s - String.length suffix)
                  ltac:(lia)) as Hs.
    replace (String.length s - (String.length s - String.length suffix))%nat
      with (String.length suffix) in Hs by lia.
    rewrite Heq in Hs. by eexists.
  - intros [stem ->]. rewrite length_append.
    destruct (Nat.leb_spec (String.length suffix)
                (String.length stem + String.length suffix)) as [_|]; [|lia].
    replace (String.length stem + String.length suffix - String.length suffix)%nat
      with (String.length stem) by lia.
    rewrite substring_append_skip, substring_all. apply String.eqb_refl.
Qed.

(** [s.replace(c, d)] for two different characters leaves no [c]. *)
Lemma replace_char_count (s : string) (c d : ascii) :
  c ≠ d →
  PyStr.count (PyStr.replace s (String c "") (String d "")) (String c "") = 0%nat.
Proof.
  intros Hcd. unfold PyStr.count, PyStr.replace.
  induction s as [|x s IH]; [done|].
  cbn [PyStr.replace_from String.prefix String.length Nat.sub].
  destruct (Ascii.ascii_dec c x) as [->|Hcx].
  - destruct s; cbn [String.prefix]; rewrite append_cons, append_empty_l;
      cbn [PyStr.count_from String.prefix];
      (destruct (Ascii.ascii_dec x d); [done | apply IH]).
  - cbn [PyStr.count_from String.prefix].
    destruct (Ascii.ascii_dec c x); [done | apply IH].
Qed.

(** It changes no other character: the length is kept. *)
Lemma replace_char_length (s : string) (c d : ascii) :
  String.length (PyStr.replace s (String c "") (String d "")) = String.length s.
Proof.
  unfold PyStr.replace. induction s as [|x s IH]; [done|].
  cbn [PyStr.replace_from String.prefix String.length Nat.sub].
  destruct (Ascii.ascii_dec c x) as [->|Hcx].
  - destruct s; cbn [String.prefix]; rewrite append_cons, append_empty_l;
      cbn [String.length]; by rewrite IH.
  - cbn [String.length]. by rewrite IH.
Qed.


(** ** The phases of the orchestrator *)

Section Phases.
Context `{E : External}.
Implicit Types w : World Resource.

Lemma Emits_true_build_tail configs top ml sl tp ti mi ut ign syn common (t : PyVal) :
  Emits (λ _, True)
    (if py_eq t (VStr "general")
     then build_package_general configs syn common
     else if py_eq t (VStr "axi")
     then build_package_axi configs syn common ml sl tp ti top mi ut ign
     else if py_eq t (VStr "avalon")
     then build_package_avalon configs syn common ml sl tp ti top mi ut ign
     else raise (ValueError ("Interface type '" +:+ py_str t +:+ "' is not supported."))).
Proof.
  destruct (py_eq t (VStr "general")); [apply Emits_true_general|].
  destruct (py_eq t (VStr "axi")); [apply Emits_true_axi|].
  destruct (py_eq t (VStr "avalon")); [apply Emits_true_avalon | apply Emits_raise].
Qed.

Lemma Emits_true_build configs top fl inc def mi ut skip ign :
  Emits (λ _, True) (build configs top fl inc def mi ut skip ign).
Proof.
  unfold build. cbv zeta.
  emits ltac:(done);
    first [ apply Emits_true_general | apply Emits_true_axi | apply Emits_true_avalon ].
Qed.

(** With consistent clocks the first action of [build] is the call of the
    analyzer. *)
Lemma build_calls_analyzer configs top fl inc def mi ut skip ign w :
  clocks_consistent configs →
  ∃ evs, log (build configs top fl inc def mi ut skip ign w).2
         = log w ++ EvAnalyze fl top inc def skip :: evs.
Proof.
  intros Hc. destruct (clock_check configs w Hc) as (s & Hs & Hcheck).
  unfold build. rewrite (bind_config_get _ _ _ _ _ Hs), (bind_ok _ _ _ _ _ Hcheck).
  cbn iota. unfold convert.
  rewrite (bind_assoc (emit (EvAnalyze fl top inc def skip))), bind_emit.
  match goal with |- context [ bind ?m ?k ?w1 ] =>
    destruct (Emits_run (λ _, True) (bind m k) w1) as (evs & -> & _) end.
  - cbv zeta.
    emits ltac:(done);
      first [ apply Emits_of_result | apply Emits_true_general
            | apply Emits_true_axi | apply Emits_true_avalon ].
  - exists evs. cbn [log]. by rewrite <- app_assoc.
Qed.

(** Without them [build] raises at once. *)
Lemma build_stops_at_clock_check configs top fl inc def mi ut skip ign w :
  ¬ clocks_consistent configs →
  ∃ e, build configs top fl inc def mi ut skip ign w = (Raise e, w) ∧
       (e = ValueError "All clock periods should be same in single clock mode." ∨
        ∃ k, e = KeyError k ∧ configs !! k = None).
Proof.
  intros Hn. unfold build, clocks_consistent in *.
  destruct (configs !! "single_clock") as [sc|] eqn:Hsc.
  2:{ exists (KeyError "single_clock"). unfold bind, config_get. rewrite Hsc.
      split; [done|]. right. by exists "single_clock". }
  rewrite (bind_config_get _ _ _ _ _ Hsc).
  destruct (truthy sc) eqn:Ht.
  2:{ exfalso. apply Hn. exists sc. by rewrite Ht. }
  destruct (configs !! "hperiod_ulogic") as [hu|] eqn:Hu.
  2:{ exists (KeyError "hperiod_ulogic"). unfold bind, config_get. rewrite Hu.
      split; [done|]. right. by exists "hperiod_ulogic". }
  destruct (configs !! "hperiod_bus") as [hb|] eqn:Hb.
  2:{ exists (KeyError "hperiod_bus"). unfold bind, config_get. rewrite Hu, Hb.
      split; [done|]. right. by exists "hperiod_bus". }
  destruct (py_eq hu hb) eqn:Heq.
  { exfalso. apply Hn. exists sc. split; [done|]. intros _. by exists hu, hb. }
  exists (ValueError "All clock periods should be same in single clock mode.").
  split; [|by left].
  unfold bind, config_get. rewrite Hu, Hb. unfold ret, py_ne. by rewrite Heq.
Qed.

(** The clock test of a configuration either evaluates to a false value
    or it does not. *)
Lemma clocks_consistent_dec (configs : Configs) :
  clocks_consistent configs ∨ ¬ clocks_consistent configs.
Proof.
  unfold clocks_consistent.
  destruct (configs !! "single_clock") as [sc|]; [|right; by intros (? & ? & _)].
  destruct (truthy sc) eqn:Ht; [|left; exists sc; by rewrite Ht].
  destruct (configs !! "hperiod_ulogic") as [hu|].
  2:{ right. intros (? & [= <-] & H). by destruct (H Ht) as (? & ? & ? & _). }
  destruct (configs !! "hperiod_bus") as [hb|].
  2:{ right. intros (? & [= <-] & H). by destruct (H Ht) as (? & ? & _ & ? & _). }
  destruct (py_eq hu hb) eqn:Heq.
  - left. exists sc. split; [done|]. intros _. by exists hu, hb.
  - right. intros (? & [= <-] & H).
    destruct (H Ht) as (? & ? & [= <-] & [= <-] & ?). congruence.
Qed.

Lemma config_get_inv (configs : Configs) k v w w' :
  config_get (Resource:=Resource) configs k w = (Ok v, w') →
  configs !! k = Some v ∧ w' = w.
Proof. unfold config_get. destruct (configs !! k); [|done]. by intros [= -> ->]. Qed.

(** A build that returns has passed the clock test, had its design
    analyzed and found the interface family and the external address
    width. *)
Lemma build_success_inv configs top fl inc def mi ut skip ign w u w' :
  build configs top fl inc def mi ut skip ign w = (Ok u, w') →
  clocks_consistent configs ∧
  ∃ an t a, RtlConverter fl top inc def skip = Ok an ∧
            configs !! "if_type" = Some t ∧ configs !! "ext_addrwidth" = Some a.
Proof.
  intros H.
  destruct (clocks_consistent_dec configs) as [Hc|Hn].
  2:{ destruct (build_stops_at_clock_check configs top fl inc def mi ut skip ign w Hn)
        as (e & He & _). congruence. }
  split; [done|].
  destruct (clock_check configs w Hc) as (s & Hs & Hcheck).
  unfold build in H.
  rewrite (bind_config_get _ _ _ _ _ Hs), (bind_ok _ _ _ _ _ Hcheck) in H.
  cbn iota in H.
  apply bind_inv_ok in H as (an & w1 & Hconv & H).
  unfold convert in Hconv. rewrite bind_emit in Hconv.
  unfold of_result in Hconv. injection Hconv as Han _.
  apply bind_inv_ok in H as (_ & w2 & _ & H).
  destruct (foldl build_parameters_step ([], []) (an_top_parameters an).*2) as [dp dl].
  apply bind_inv_ok in H as ([di ni] & w3 & _ & H).
  apply bind_inv_ok in H as (t & w4 & [Ht _]%config_get_inv & H).
  apply bind_inv_ok in H as (a & w5 & [Ha _]%config_get_inv & H).
  by exists an, t, a.
Qed.

(** X1.  [build] calls the analyzer exactly when the clock test of the
    configuration evaluates to a false value: then the call of the
    analyzer is its first action; otherwise it raises [ValueError], or
    [KeyError] for a key that the configuration lacks, and leaves the
    world as it found it. *)
Theorem analyzer_runs_iff_clocks_consistent
    (configs : Configs) (userlogic_topmodule : string)
    (userlogic_filelist : list string) (include define : option (list string))
    (memimg usertest : option string) (skip_not_found ignore_protocol_error : bool)
    (w : World Resource) :
  let rw := build configs userlogic_topmodule userlogic_filelist include define
                  memimg usertest skip_not_found ignore_protocol_error w in
  (clocks_consistent configs ∧
   ∃ evs, log rw.2 = log w ++ EvAnalyze userlogic_filelist userlogic_topmodule
                                        include define skip_not_found :: evs) ∨
  (¬ clocks_consistent configs ∧ rw.2 = w ∧
   ∃ e, rw.1 = Raise e ∧
        (e = ValueError "All clock periods should be same in single clock mode." ∨
         ∃ k, e = KeyError k ∧ configs !! k = None)).
Proof.
  intros rw. subst rw.
  destruct (clocks_consistent_dec configs) as [Hc|Hn].
  - left. split; [done|]. by apply build_calls_analyzer.
  - right. split; [done|].
    destruct (build_stops_at_clock_check configs userlogic_topmodule userlogic_filelist
                include define memimg usertest skip_not_found ignore_protocol_error w Hn)
      as (e & -> & He).
    split; [done|]. by exists e.
Qed.

(** X2.  When the clocks are consistent and the analyzer raises, [build]
    raises the same exception; by then it has called the analyzer and done
    nothing else: nothing is rendered and the file system is as it was. *)
Theorem build_analysis_failure
    (configs : Configs) (userlogic_topmodule : string)
    (userlogic_filelist : list string) (include define : option (list string))
    (memimg usertest : option string) (skip_not_found ignore_protocol_error : bool)
    (e : Exn) (w : World Resource) :
  clocks_consistent configs →
  RtlConverter userlogic_filelist userlogic_topmodule include define skip_not_found
    = Raise e →
  build configs userlogic_topmodule userlogic_filelist include define memimg usertest
        skip_not_found ignore_protocol_error w
  = (Raise e,
     mkWorld (fs w)
             (log w ++ [EvAnalyze userlogic_filelist userlogic_topmodule include define
                                  skip_not_found])).
Proof.
  intros Hc He. destruct (clock_check configs w Hc) as (s & Hs & Hcheck).
  unfold build. rewrite (bind_config_get _ _ _ _ _ Hs), (bind_ok _ _ _ _ _ Hcheck).
  cbn iota. unfold convert.
  rewrite (bind_assoc (emit _)), bind_emit.
  unfold bind, of_result. by rewrite He.
Qed.

Lemma build_ioports_loop_no_family (configs : Configs) l acc w :
  configs !! "if_type" = None →
  bind (foldM (build_ioports_step configs) l acc)
       (λ _, config_get (Resource:=Resource) configs "if_type") w
  = (Raise (KeyError "if_type"), w).
Proof.
  intros Ht. destruct l as [|[pk [pv pwidth]] l]; cbn [foldM].
  - rewrite bind_ret. unfold config_get. by rewrite Ht.
  - destruct acc as [di ni]. unfold build_ioports_step.
    unfold bind, config_get. by rewrite Ht.
Qed.

(** X3.  When the clocks are consistent and the analyzer succeeds but the
    configuration lacks the interface family or the external address
    width, [build] raises [KeyError] for the first of the two that is
    missing, after the analysis and its dump and before anything is
    rendered; the file system is as it was. *)
Theorem build_missing_family_or_address_width
    (configs : Configs) (userlogic_topmodule : string)
    (userlogic_filelist : list string) (include define : option (list string))
    (memimg usertest : option string) (skip_not_found ignore_protocol_error : bool)
    (an : Analysis Expr Ast Param Resource) (w : World Resource) :
  clocks_consistent configs →
  RtlConverter userlogic_filelist userlogic_topmodule include define skip_not_found
    = Ok an →
  configs !! "if_type" = None ∨ configs !! "ext_addrwidth" = None →
  build configs userlogic_topmodule userlogic_filelist include define memimg usertest
        skip_not_found ignore_protocol_error w
  = (Raise (KeyError (match configs !! "if_type" with
                    | Some _ => "ext_addrwidth"
                    | None => "if_type"
                    end)),
     mkWorld (fs w)
             (log w ++ [EvAnalyze userlogic_filelist userlogic_topmodule include define
                                  skip_not_found; EvDump])).
Proof.
  intros Hc Han Hmiss. destruct (clock_check configs w Hc) as (s & Hs & Hcheck).
  unfold build. rewrite (bind_config_get _ _ _ _ _ Hs), (bind_ok _ _ _ _ _ Hcheck).
  cbn iota. unfold convert.
  rewrite (bind_assoc (emit _)), bind_emit.
  unfold bind at 1. unfold of_result at 1. rewrite Han.
  rewrite bind_emit. cbn [fs log]. rewrite <- app_assoc. cbn [app].
  destruct (foldl build_parameters_step ([], []) (an_top_parameters an).*2) as [dp dl].
  destruct (configs !! "if_type") as [t|] eqn:Ht.
  - destruct Hmiss as [?|Ha]; [done|].
    rewrite (bind_ok _ _ _ _ _ (build_ioports_loop configs t _ [] [] _ Ht)).
    cbn iota beta. rewrite (bind_config_get _ _ _ _ _ Ht).
    unfold bind, config_get. by rewrite Ha.
  - match goal with |- bind (foldM ?f ?l ?a) ?k ?w1 = _ =>
      pose proof (build_ioports_loop_no_family configs l a w1 Ht) as Hloop end.
    revert Hloop. unfold bind.
    destruct (foldM _ _ _ _) as [[[di ni]|e'] w2].
    + intros Hl. by rewrite Hl.
    + by intros [= -> ->].
Qed.
End Phases.

(** ** What a successful run yields *)

Section YieldsLemmas.
Context {Resource : Type} {B : Type}.
Implicit Types (w : World Resource) (obs : Event Resource → option B).

Lemma Yields_weaken obs {A} (m : M Resource A) (R1 R : A → list B → Prop) :
  Yields obs m R1 → (∀ a l, R1 a l → R a l) → Yields obs m R.
Proof.
  intros Hm HR w a w' H. destruct (Hm _ _ _ H) as (evs & Hl & H1). eauto.
Qed.

(** The observations of the first part are handed on to the second. *)
Lemma Yields_bind obs {A C} (m : M Resource A) (k : A → M Resource C)
    (R1 : A → list B → Prop) (R : C → list B → Prop) :
  Yields obs m R1 →
  (∀ a l1, R1 a l1 → Yields obs (k a) (λ c l2, R c (l1 ++ l2))) →
  Yields obs (bind m k) R.
Proof.
  intros Hm Hk w c w'' (a & w' & H1 & H2)%bind_inv_ok.
  destruct (Hm _ _ _ H1) as (evs1 & Hl1 & HR1).
  destruct (Hk a _ HR1 _ _ _ H2) as (evs2 & Hl2 & HR2).
  exists (evs1 ++ evs2). rewrite Hl2, Hl1, app_assoc, omap_app. done.
Qed.

Lemma Yields_static obs {A} (r : Result A) :
  Yields obs (of_result r) (λ a l, r = Ok a ∧ l = []).
Proof. intros w a w' [= -> <-]. exists []. by rewrite app_nil_r. Qed.

Lemma Yields_ret obs {A} (a : A) : Yields obs (ret a) (λ b l, b = a ∧ l = []).
Proof. intros w b w' [= <- <-]. exists []. by rewrite app_nil_r. Qed.

Lemma Yields_raise obs {A} e (R : A → list B → Prop) : Yields obs (raise e) R.
Proof. by intros w a w'. Qed.

Lemma Yields_config_get obs (configs : Configs) k :
  Yields obs (config_get configs k) (λ v l, configs !! k = Some v ∧ l = []).
Proof.
  intros w v w'. unfold config_get. destruct (configs !! k); [|done].
  intros [= <- <-]. exists []. by rewrite app_nil_r.
Qed.

Lemma Yields_emit obs ev : Yields obs (emit ev) (λ _ l, l = omap obs [ev]).
Proof. intros w a w' [= <- <-]. by exists [ev]. Qed.

Lemma Yields_update_fs obs f : Yields obs (update_fs f) (λ _ l, l = []).
Proof.
  intros w a w'. unfold update_fs. destruct (f (fs w)); [|done].
  intros [= <- <-]. exists []. by rewrite app_nil_r.
Qed.

Lemma Yields_query_fs obs {A} (f : FileSys → Result A) :
  Yields obs (query_fs f) (λ _ l, l = []).
Proof. intros w a w' [= _ <-]. exists []. by rewrite app_nil_r. Qed.

Lemma Yields_logged obs {A} ev (m : M Resource A) :
  Yields obs m (λ _ l, l = []) →
  Yields obs (bind (emit ev) (λ _, m)) (λ _ l, l = omap obs [ev]).
Proof.
  intros Hm. eapply Yields_bind; [apply Yields_emit|].
  intros _ l1 ->. eapply Yields_weaken; [apply Hm|].
  intros a l ->. by rewrite app_nil_r.
Qed.

Lemma Yields_write_file obs p c :
  Yields obs (write_file p c) (λ _ l, l = omap obs [EvWrite p c]).
Proof. apply Yields_logged, Yields_update_fs. Qed.

Lemma Yields_read_file obs p :
  Yields obs (read_file p) (λ _ l, l = omap obs [EvRead p]).
Proof. apply Yields_logged, Yields_query_fs. Qed.

Lemma Yields_shutil_copyfile obs src dst :
  Yields obs (shutil_copyfile src dst) (λ _ l, l = omap obs [EvCopy src dst]).
Proof. apply Yields_logged, Yields_update_fs. Qed.

Lemma Yields_shutil_copy obs src dst :
  Yields obs (shutil_copy src dst) (λ _ l, l = omap obs [EvCopy src dst]).
Proof. apply Yields_logged, Yields_update_fs. Qed.

Lemma Yields_mkdir_unless_exists obs d :
  obs (EvMkdir d) = None →
  Yields obs (mkdir_unless_exists d) (λ _ l, l = []).
Proof.
  intros Hobs. eapply Yields_bind; [apply Yields_query_fs|].
  intros e l1 ->. destruct e; cbn [negb].
  - eapply Yields_weaken; [apply Yields_ret | by intros ? ? [_ ->]].
  - eapply Yields_weaken; [apply Yields_logged, Yields_update_fs|].
    intros _ l ->. cbn. by rewrite Hobs.
Qed.

(** The optional reading of the user test code. *)
Lemma Yields_read_optional obs (usertest : option string) :
  Yields obs
    (match usertest with
     | Some path => bind (read_file path) (λ c, ret (Some c))
     | None => ret None
     end)
    (λ code l,
       l = omap obs (match usertest with Some path => [EvRead path] | None => [] end) ∧
       (usertest = None → code = None)).
Proof.
  destruct usertest as [path|].
  - eapply Yields_bind; [apply Yields_read_file|].
    intros c l1 ->. eapply Yields_weaken; [apply Yields_ret|].
    intros ? ? [-> ->]. by rewrite app_nil_r.
  - eapply Yields_weaken; [apply Yields_ret|]. by intros ? ? [-> ->].
Qed.

(** A step that acts on nothing passes on what it returns. *)
Lemma Yields_of_result_bind obs {A C} (r : Result A) (k : A → M Resource C) R :
  (∀ a, r = Ok a → Yields obs (k a) R) → Yields obs (bind (of_result r) k) R.
Proof.
  intros H w c w' Hrun. destruct r as [a|e]; [|done].
  exact (H a eq_refl w c w' Hrun).
Qed.

Lemma Yields_forM_print obs (f : string * PyVal → string) items :
  Yields obs (forM_ (λ item, print (f item)) items)
         (λ _ l, l = omap obs ((λ item, EvPrint (f item)) <$> items)).
Proof.
  intros w a w'. rewrite forM_print. intros [= _ <-]. eauto.
Qed.
End YieldsLemmas.

Section YieldsPipeline.
Context `{E : External} {B : Type}.
Implicit Types (obs : Event Resource → option B).

Lemma Yields_render obs tf name ml sl dp dl di ni kws :
  let b := kwarg (λ k, match k with kw_ext_burstlength v => Some v | _ => None end)
                 256 kws in
  let td := template_dict name ml sl dp dl di ni kws (math_ceil (math_log b 2)) in
  Yields obs (render tf name ml sl dp dl di ni kws)
         (λ code l, code = jinja_render tf td ∧ l = omap obs [EvRender tf td]).
Proof.
  intros b td w code w'. unfold render. fold b. unfold log2.
  destruct (b <=? 0); [done|]. rewrite bind_ret, bind_emit. intros [= <- <-].
  by exists [EvRender tf td].
Qed.

Lemma Yields_convert obs fl top inc def skip :
  Yields obs (convert fl top inc def skip)
         (λ an l, RtlConverter fl top inc def skip = Ok an ∧
                  l = omap obs [EvAnalyze fl top inc def skip]).
Proof.
  eapply Yields_bind; [apply Yields_emit|]. intros _ l1 ->.
  eapply Yields_weaken; [apply Yields_static|].
  intros an l [? ->]. by rewrite app_nil_r.
Qed.
End YieldsPipeline.

(** One step of a successful run: the first part of a sequence is
    replaced by what it is known to yield. *)
Ltac same_lookup H :=
  try match type of H with
      | ?lk = Some _ =>
          match goal with
          | H0 : lk = Some _ |- _ =>
              tryif constr_eq H0 H then fail
              else (rewrite H0 in H; injection H as <-)
          end
      end.

Ltac yields_step :=
  lazymatch goal with
  | |- Yields _ (bind (config_get _ _) _) _ =>
      let H := fresh "Hget" in
      eapply Yields_bind; [apply Yields_config_get | intros ? ? [H ->]; same_lookup H]
  | |- Yields _ (bind (mkdir_unless_exists _) _) _ =>
      eapply Yields_bind;
      [apply Yields_mkdir_unless_exists; reflexivity | intros _ ? ->]
  | |- Yields _ (bind (write_file _ _) _) _ =>
      eapply Yields_bind; [apply Yields_write_file | intros _ ? ->]
  | |- Yields _ (bind (render _ _ _ _ _ _ _ _ _) _) _ =>
      eapply Yields_bind; [apply Yields_render | intros ? ? [-> ->]]
  | |- Yields _ (bind (emit _) _) _ =>
      eapply Yields_bind; [apply Yields_emit | intros _ ? ->]
  | |- Yields _ (bind (of_result _) _) _ =>
      apply Yields_of_result_bind; intros ? ?
  | |- Yields _ (bind (match ?u with Some _ => bind (read_file _) _ | None => _ end) _) _ =>
      let H := fresh "Hcode" in
      eapply Yields_bind; [apply Yields_read_optional | intros ? ? [-> H]]
  | |- Yields _ (bind (match ?x with _ => _ end) _) _ => destruct x eqn:?
  | |- Yields _ (bind (shutil_copyfile _ _) _) _ =>
      eapply Yields_bind; [apply Yields_shutil_copyfile | intros _ ? ->]
  | |- Yields _ (bind (shutil_copy _ _) _) _ =>
      eapply Yields_bind; [apply Yields_shutil_copy | intros _ ? ->]
  | |- Yields _ (bind (ret _) _) _ =>
      eapply Yields_bind; [apply Yields_ret | intros ? ? [-> ->]]
  | |- Yields _ (match ?x with _ => _ end) _ => destruct x eqn:?
  end.

(** ** The artifacts of the packages *)

Section Artifacts.
Context `{E : External}.
Implicit Types w : World Resource.

Lemma prelude_no_artifact configs an top fl inc def skip t a s :
  omap artifact (prelude_events configs an top fl inc def skip t a s) = [].
Proof.
  unfold prelude_events. rewrite omap_app. cbn.
  induction (sorted_items configs) as [|item items IH]; [done|]. by cbn.
Qed.


Lemma build_package_axi_yields configs syn common ml sl tp ti top mi ut ign :
  let dirname := "ipgen_" +:+ top +:+ "_v1_00_a" +:+ "/" in
  Yields artifact
    (build_package_axi configs syn common ml sl tp ti top mi ut ign)
    (λ _ l, ∃ a s mpd_dict pao_dict xgui_dict test_dict makefile_dict,
       configs !! "ext_addrwidth" = Some a ∧
       configs !! "single_clock" = Some s ∧
       l = [Written ((dirname +:+ "data/") +:+ ("ipgen_" +:+ top +:+ "_v2_1_0" +:+ ".mpd"))
                    (jinja_render "mpd.txt" mpd_dict);
            Written ((dirname +:+ "data/") +:+ ("ipgen_" +:+ top +:+ "_v2_1_0" +:+ ".pao"))
                    (jinja_render "pao.txt" pao_dict);
            Written ((dirname +:+ "data/") +:+ ("ipgen_" +:+ top +:+ "_v2_1_0" +:+ ".tcl"))
                    (if negb (truthy s) then template_source "pcore_tcl.tcl" else "");
            Written (dirname +:+ "component.xml")
                    (componentgen_generate ("ipgen_" +:+ top) (axi_memorylist ml sl) a 256
                       (ext_port_row <$> ti)
                       (parameter_row axi_dt
                        <$> filter (λ item, is_localparam item = false) tp));
            Written ((dirname +:+ "data/") +:+ ("ipgen_" +:+ top +:+ ".xdc"))
                    (if negb (truthy s) then template_source "ipxact.xdc" else "");
            Written ((dirname +:+ "bd/") +:+ "bd.tcl") (template_source "bd.tcl");
            Written ((dirname +:+ "xgui/") +:+ "xgui.tcl")
                    (jinja_render "xgui_tcl.txt" xgui_dict);
            Written ((dirname +:+ "hdl/verilog/") +:+ ("ipgen_" +:+ top +:+ ".v"))
                    (syn +:+ common);
            Written ((dirname +:+ "test/") +:+ ("test_ipgen_" +:+ top +:+ ".v"))
                    (jinja_render "test_ipgen_axi.txt" test_dict
                     +:+ template_source "axi_master_fifo.v")] ++
           match mi with
           | Some m => [Copied (expanduser m) ((dirname +:+ "test/") +:+ "mem.img")]
           | None => []
           end ++
           [Written ((dirname +:+ "test/") +:+ "Makefile")
                    (jinja_render "Makefile.txt" makefile_dict)]).
Proof.
  intros dirname. unfold build_package_axi.
  rewrite axi_mpd_parameters_loop, axi_mpd_ports_loop. cbv beta iota zeta.
  apply Yields_of_result_bind. intros ext_ports [_ ->]%axi_ext_ports_loop_inv.
  rewrite axi_ext_params_loop. cbv beta iota zeta. fold dirname.
  repeat yields_step.
  all: eapply Yields_weaken; [apply Yields_write_file | intros _ ? ->].
  all: destruct ut; cbn; eexists _, _, _, _, _, _, _; by split_and!.
Qed.

(** X8.  A build for the family [axi] that returns has written, in this
    order and with nothing else written or copied: the [.mpd] and [.pao]
    files (renderings of [mpd.txt] and [pao.txt]), the [.tcl] file (the
    source [pcore_tcl.tcl], or nothing in single-clock mode),
    [component.xml] (what the IP-XACT generator returns for the memory
    list, the address width, the burst length 256, the rows of the ports
    and the rows of the parameters that are not localparams), the [.xdc]
    file (the source [ipxact.xdc], or nothing in single-clock mode),
    [bd/bd.tcl], [xgui/xgui.tcl] (a rendering of [xgui_tcl.txt]), the one
    HDL file
    (the wrapper, the regenerated user logic and the four AXI interface
    sources), the test bench (a rendering of [test_ipgen_axi.txt]
    followed by the source [axi_master_fifo.v]), then the copy of the
    memory image with its home directory expanded, when one is given, and
    the [Makefile]. *)
Theorem axi_build_artifacts
    (configs : Configs) (userlogic_topmodule : string)
    (userlogic_filelist : list string) (include define : option (list string))
    (memimg usertest : option string) (skip_not_found ignore_protocol_error : bool)
    (w w' : World Resource) :
  build configs userlogic_topmodule userlogic_filelist include define memimg usertest
        skip_not_found ignore_protocol_error w = (Ok tt, w') →
  configs !! "if_type" = Some (VStr "axi") →
  ∃ an a s evs mpd_dict pao_dict xgui_dict test_dict makefile_dict,
    RtlConverter userlogic_filelist userlogic_topmodule include define skip_not_found
      = Ok an ∧
    configs !! "ext_addrwidth" = Some a ∧
    configs !! "single_clock" = Some s ∧
    log w' = log w ++ evs ∧
    let dirname := "ipgen_" +:+ userlogic_topmodule +:+ "_v1_00_a" +:+ "/" in
    let mpd_version := "_v2_1_0" in
    omap artifact evs
    = [Written ((dirname +:+ "data/")
                +:+ ("ipgen_" +:+ userlogic_topmodule +:+ mpd_version +:+ ".mpd"))
               (jinja_render "mpd.txt" mpd_dict);
       Written ((dirname +:+ "data/")
                +:+ ("ipgen_" +:+ userlogic_topmodule +:+ mpd_version +:+ ".pao"))
               (jinja_render "pao.txt" pao_dict);
       Written ((dirname +:+ "data/")
                +:+ ("ipgen_" +:+ userlogic_topmodule +:+ mpd_version +:+ ".tcl"))
               (if negb (truthy s) then template_source "pcore_tcl.tcl" else "");
       Written (dirname +:+ "component.xml")
               (componentgen_generate ("ipgen_" +:+ userlogic_topmodule)
                  (axi_memorylist (an_masterlist an) (an_slavelist an)) a 256
                  (ext_port_row <$> an_top_ioports an)
                  (parameter_row axi_dt
                   <$> filter (λ item, is_localparam item = false)
                              (an_top_parameters an)));
       Written ((dirname +:+ "data/") +:+ ("ipgen_" +:+ userlogic_topmodule +:+ ".xdc"))
               (if negb (truthy s) then template_source "ipxact.xdc" else "");
       Written ((dirname +:+ "bd/") +:+ "bd.tcl") (template_source "bd.tcl");
       Written ((dirname +:+ "xgui/") +:+ "xgui.tcl")
               (jinja_render "xgui_tcl.txt" xgui_dict);
       Written ((dirname +:+ "hdl/verilog/")
                +:+ ("ipgen_" +:+ userlogic_topmodule +:+ ".v"))
               ((jinja_render "node_axi.txt"
                              (node_dict an userlogic_topmodule (VStr "axi") a s)
                 +:+ visit (NSource (userlogic_ast an)))
                +:+ PyStr.join [template_source "axi_master_interface.v";
                                template_source "axi_lite_master_interface.v";
                                template_source "axi_slave_interface.v";
                                template_source "axi_lite_slave_interface.v"]);
       Written ((dirname +:+ "test/")
                +:+ ("test_ipgen_" +:+ userlogic_topmodule +:+ ".v"))
               (jinja_render "test_ipgen_axi.txt" test_dict
                +:+ template_source "axi_master_fifo.v")] ++
      match memimg with
      | Some m => [Copied (expanduser m) ((dirname +:+ "test/") +:+ "mem.img")]
      | None => []
      end ++
      [Written ((dirname +:+ "test/") +:+ "Makefile")
               (jinja_render "Makefile.txt" makefile_dict)].
Proof.
  intros Hrun Ht.
  destruct (build_success_inv _ _ _ _ _ _ _ _ _ _ _ _ Hrun)
    as (Hc & an & t & a & Han & Ht' & Ha).
  rewrite Ht in Ht'. injection Ht' as <-.
  destruct (build_dispatch configs userlogic_topmodule userlogic_filelist include define
              memimg usertest skip_not_found ignore_protocol_error an _ a w Hc Han Ht Ha)
    as (s & Hs & Hbuild).
  rewrite Hbuild in Hrun. cbn [py_eq String.eqb Ascii.eqb Bool.eqb] in Hrun.
  destruct (build_package_axi_yields _ _ _ _ _ _ _ _ _ _ _ _ _ _ Hrun)
    as (evs & Hlog & a' & s' & mpd_dict & pao_dict & xgui_dict & test_dict
        & makefile_dict & Ha' & Hs' & Hevs).
  rewrite Hs in Hs'. injection Hs' as <-. rewrite Ha in Ha'. injection Ha' as <-.
  exists an, a, s, (prelude_events configs an userlogic_topmodule userlogic_filelist
                      include define skip_not_found (VStr "axi") a s ++ evs),
         mpd_dict, pao_dict, xgui_dict, test_dict, makefile_dict.
  split_and!; [done..| |].
  - rewrite Hlog. cbn [log]. by rewrite app_assoc.
  - cbv zeta. by rewrite omap_app, prelude_no_artifact, Hevs.
Qed.

End Artifacts.

(** ** The template contexts of the packages *)

Section PackageContexts.
Context `{E : External}.
Implicit Types w : World Resource.

(** [memorylist]: the masters, then the slaves. *)
Lemma axi_memorylist_spec (ml sl : list Resource) :
  axi_memorylist ml sl
  = ((λ m, mkAxiDefinition (res_name m +:+ "_AXI") (res_datawidth m) true (res_lite m))
       <$> ml) ++
    ((λ s, mkAxiDefinition (res_name s +:+ "_AXI") (res_datawidth s) false (res_lite s))
       <$> sl).
Proof.
  unfold axi_memorylist.
  assert (Hfold : ∀ (master : bool) (l : list Resource) acc,
    foldl (λ acc m, acc ++ [mkAxiDefinition (res_name m +:+ "_AXI") (res_datawidth m)
                                            master (res_lite m)]) acc l
    = acc ++ ((λ m, mkAxiDefinition (res_name m +:+ "_AXI") (res_datawidth m) master
                                    (res_lite m)) <$> l)).
  { intros master l. induction l as [|m l IH]; intros acc; cbn [foldl fmap list_fmap].
    - by rewrite app_nil_r.
    - rewrite IH, <- app_assoc. done. }
  by rewrite !Hfold.
Qed.

Lemma build_package_axi_contexts configs syn common ml sl tp ti top mi ut ign :
  let locals := (λ item : string * Param, visit (NParam item.2))
                <$> filter (λ item, is_localparam item = true) tp in
  Emits (λ ev, ∀ tf td, rendering ev = Some (tf, td) →
           td_userlogic_name td = top ∧
           td_masterlist td = ml ∧ td_slavelist td = sl ∧
           td_def_top_parameters td
           = (λ item : string * Param, visit (NParam item.2)) <$> tp ∧
           td_def_top_localparams td = locals ++ locals ∧
           td_def_top_ioports td
           = (λ item : string * (Port Expr * option Z), visit (NWire (wire_of item.2.1))) <$> ti ∧
           td_name_top_ioports td = ti.*1)
        (build_package_axi configs syn common ml sl tp ti top mi ut ign).
Proof.
  intros locals. unfold build_package_axi.
  rewrite axi_mpd_parameters_loop, axi_mpd_ports_loop. cbv beta iota zeta.
  rewrite axi_ext_params_loop. cbv beta iota zeta.
  emits ltac:(by intros ? ? [= <- <-]).
Qed.

Lemma build_package_avalon_contexts configs syn common ml sl tp ti top mi ut ign :
  Emits (λ ev, ∀ tf td, rendering ev = Some (tf, td) →
           td_userlogic_name td = top ∧
           td_masterlist td = ml ∧ td_slavelist td = sl ∧
           td_def_top_parameters td
           = (λ item : string * Param, visit (NParam item.2)) <$> tp ∧
           td_def_top_localparams td
           = (λ item : string * Param, visit (NParam item.2))
             <$> filter (λ item, is_localparam item = true) tp ∧
           td_def_top_ioports td
           = (λ item : string * (Port Expr * option Z), visit (NWire (wire_of item.2.1))) <$> ti ∧
           td_name_top_ioports td = ti.*1)
        (build_package_avalon configs syn common ml sl tp ti top mi ut ign).
Proof.
  unfold build_package_avalon.
  rewrite avalon_tcl_parameters_loop, avalon_tcl_ports_loop. cbv beta iota zeta.
  emits ltac:(by intros ? ? [= <- <-]).
Qed.

(** X5.  Every template that the AXI package and the Avalon package
    render is handed the name of the top module, the masters and the
    slaves, the declaration of every parameter as the code generator
    renders it (localparams included, and nothing rewritten), the
    declaration of every port as a wire, and the keys of the port
    dictionary.  The two packages differ in the list of localparam
    declarations: the Avalon package hands over each localparam once, the
    AXI package hands over the whole list twice in a row, since both of
    its loops over the parameters append to the same list. *)
Theorem package_template_contexts
    (configs : Configs) (synthesized_code common_code : string)
    (masterlist slavelist : list Resource)
    (top_parameters : list (string * Param))
    (top_ioports : list (string * (Port Expr * option Z)))
    (userlogic_topmodule : string) (memimg usertest : option string)
    (ignore_protocol_error : bool) (w : World Resource) :
  let declaration := λ item : string * Param, visit (NParam item.2) in
  let localparams :=
    declaration <$> filter (λ item, is_localparam item = true) top_parameters in
  let shared (td : TemplateDict Resource) :=
    td_userlogic_name td = userlogic_topmodule ∧
    td_masterlist td = masterlist ∧ td_slavelist td = slavelist ∧
    td_def_top_parameters td = declaration <$> top_parameters ∧
    td_def_top_ioports td
    = (λ item : string * (Port Expr * option Z),
         visit (NWire (mkWire (port_name item.2.1) (port_width item.2.1)
                              (port_signed item.2.1)))) <$> top_ioports ∧
    td_name_top_ioports td = top_ioports.*1 in
  (∃ evs,
     log (build_package_axi configs synthesized_code common_code masterlist slavelist
            top_parameters top_ioports userlogic_topmodule memimg usertest
            ignore_protocol_error w).2 = log w ++ evs ∧
     Forall (λ ev, ∀ tf td, rendering ev = Some (tf, td) →
                     shared td ∧ td_def_top_localparams td = localparams ++ localparams)
            evs) ∧
  (∃ evs,
     log (build_package_avalon configs synthesized_code common_code masterlist slavelist
            top_parameters top_ioports userlogic_topmodule memimg usertest
            ignore_protocol_error w).2 = log w ++ evs ∧
     Forall (λ ev, ∀ tf td, rendering ev = Some (tf, td) →
                     shared td ∧ td_def_top_localparams td = localparams)
            evs).
Proof.
  intros declaration localparams shared. split.
  - destruct (Emits_run _ _ w
                (build_package_axi_contexts configs synthesized_code common_code
                   masterlist slavelist top_parameters top_ioports userlogic_topmodule
                   memimg usertest ignore_protocol_error)) as (evs & Hlog & Hevs).
    exists evs. split; [done|].
    eapply Forall_impl; [exact Hevs|]. intros ev Hev tf td Hr.
    destruct (Hev tf td Hr) as (? & ? & ? & ? & ? & ? & ?). by repeat split.
  - destruct (Emits_run _ _ w
                (build_package_avalon_contexts configs synthesized_code common_code
                   masterlist slavelist top_parameters top_ioports userlogic_topmodule
                   memimg usertest ignore_protocol_error)) as (evs & Hlog & Hevs).
    exists evs. split; [done|].
    eapply Forall_impl; [exact Hevs|]. intros ev Hev tf td Hr.
    destruct (Hev tf td Hr) as (? & ? & ? & ? & ? & ? & ?). by repeat split.
Qed.
End PackageContexts.

(** ** The IP-XACT generator, file names and the caller's files *)

Section Generator.
Context `{E : External}.
Implicit Types w : World Resource.

Lemma prelude_no_generator_call configs an top fl inc def skip t a s :
  omap generator_call (prelude_events configs an top fl inc def skip t a s) = [].
Proof.
  unfold prelude_events. rewrite omap_app. cbn.
  induction (sorted_items configs) as [|item items IH]; [done|]. by cbn.
Qed.

Lemma build_package_axi_generator configs syn common ml sl tp ti top mi ut ign :
  Yields generator_call
    (build_package_axi configs syn common ml sl tp ti top mi ut ign)
    (λ _ l, ∃ a, configs !! "ext_addrwidth" = Some a ∧
       l = [("ipgen_" +:+ top, axi_memorylist ml sl, a, 256, ext_port_row <$> ti,
             parameter_row axi_dt <$> filter (λ item, is_localparam item = false) tp)]).
Proof.
  unfold build_package_axi.
  rewrite axi_mpd_parameters_loop, axi_mpd_ports_loop. cbv beta iota zeta.
  apply Yields_of_result_bind. intros ext_ports [_ ->]%axi_ext_ports_loop_inv.
  rewrite axi_ext_params_loop. cbv beta iota zeta.
  repeat yields_step.
  all: eapply Yields_weaken; [apply Yields_write_file | intros _ ? ->].
  all: destruct ut; cbn; by eexists.
Qed.

(** X6.  A build for the family [axi] that returns has called the
    IP-XACT generator exactly once: for the component [ipgen_<module>],
    with the configured external address width and the burst length 256,
    with one memory definition per master followed by one per slave, each
    named after the resource with the suffix [_AXI] and carrying its data
    width, its role and its lite flag, with one row per port and with one
    row per parameter that is not a localparam. *)
Theorem axi_build_generator_call
    (configs : Configs) (userlogic_topmodule : string)
    (userlogic_filelist : list string) (include define : option (list string))
    (memimg usertest : option string) (skip_not_found ignore_protocol_error : bool)
    (w w' : World Resource) :
  build configs userlogic_topmodule userlogic_filelist include define memimg usertest
        skip_not_found ignore_protocol_error w = (Ok tt, w') →
  configs !! "if_type" = Some (VStr "axi") →
  ∃ an a evs,
    RtlConverter userlogic_filelist userlogic_topmodule include define skip_not_found
      = Ok an ∧
    configs !! "ext_addrwidth" = Some a ∧
    log w' = log w ++ evs ∧
    omap generator_call evs
    = [("ipgen_" +:+ userlogic_topmodule,
        ((λ m, mkAxiDefinition (res_name m +:+ "_AXI") (res_datawidth m) true (res_lite m))
           <$> an_masterlist an) ++
        ((λ s, mkAxiDefinition (res_name s +:+ "_AXI") (res_datawidth s) false (res_lite s))
           <$> an_slavelist an),
        a, 256,
        ext_port_row <$> an_top_ioports an,
        parameter_row axi_dt
        <$> filter (λ item, is_localparam item = false) (an_top_parameters an))].
Proof.
  intros Hrun Ht.
  destruct (build_success_inv _ _ _ _ _ _ _ _ _ _ _ _ Hrun)
    as (Hc & an & t & a & Han & Ht' & Ha).
  rewrite Ht in Ht'. injection Ht' as <-.
  destruct (build_dispatch configs userlogic_topmodule userlogic_filelist include define
              memimg usertest skip_not_found ignore_protocol_error an _ a w Hc Han Ht Ha)
    as (s & Hs & Hbuild).
  rewrite Hbuild in Hrun. cbn [py_eq String.eqb Ascii.eqb Bool.eqb] in Hrun.
  destruct (build_package_axi_generator _ _ _ _ _ _ _ _ _ _ _ _ _ _ Hrun)
    as (evs & Hlog & a' & Ha' & Hevs).
  rewrite Ha in Ha'. injection Ha' as <-.
  exists an, a, (prelude_events configs an userlogic_topmodule userlogic_filelist
                   include define skip_not_found (VStr "axi") a s ++ evs).
  split_and!; [done..| |].
  - rewrite Hlog. cbn [log]. by rewrite app_assoc.
  - by rewrite omap_app, prelude_no_generator_call, Hevs, axi_memorylist_spec.
Qed.
End Generator.

Section Names.
Context `{E : External}.
Implicit Types w : World Resource.



End Names.


Section FileNames.
Context `{E : External}.
Implicit Types w : World Resource.




Lemma Emits_bind_ret (P : Event Resource → Prop) {A B} (a : A)
    (k : A → M Resource B) :
  Emits P (k a) → Emits P (bind (ret a) k).
Proof. intros Hk w r w' Hm. rewrite bind_ret in Hm. by eapply Hk. Qed.

Ltac emits_ret_step :=
  lazymatch goal with
  | |- Emits _ (bind (ret _) _) => apply Emits_bind_ret
  end.

Ltac solve_caller_files :=
  split_and!;
  [ by intros ? [= <-]
  | intros ? ? [= <- <-]; eauto
  | intros ? ? [= <- <-]; cbn; split_and!; try done;
    try (intros [stem ->]%endswith_spec; by exists stem);
    try (intros _; split; [done|]);
    try (intros [stem [= ->]]; apply endswith_spec; by eexists);
    try (by intros [? ?]) ].

Lemma build_package_axi_caller_files configs syn common ml sl tp ti top mi ut ign :
  Emits (λ ev,
           (∀ p, ev = EvRead p → ut = Some p) ∧
           (∀ src dst, ev = EvCopy src dst →
              ∃ m, mi = Some m ∧ src = expanduser m ∧
                   dst = (("ipgen_" +:+ top +:+ "_v1_00_a" +:+ "/") +:+ "test/")
                         +:+ "mem.img") ∧
           (∀ tf td, ev = EvRender tf td →
              (td_binfile td = true → ∃ stem, mi = Some (stem +:+ ".bin")) ∧
              (ut = None → td_usertestcode td = "") ∧
              (tf = "test_ipgen_axi.txt" →
               td_memimg td = match mi with Some _ => "mem.img" | None => "None" end ∧
               ((∃ stem, mi = Some (stem +:+ ".bin")) → td_binfile td = true))))
        (build_package_axi configs syn common ml sl tp ti top mi ut ign).
Proof.
  unfold build_package_axi. cbv zeta. destruct mi as [m|], ut as [u|].
  all: repeat first [ emits_ret_step | emits_step ltac:(solve_caller_files) ].
Qed.

Lemma build_package_avalon_caller_files configs syn common ml sl tp ti top mi ut ign :
  Emits (λ ev,
           (∀ p, ev = EvRead p → ut = Some p) ∧
           (∀ src dst, ev = EvCopy src dst →
              ∃ m, mi = Some m ∧ src = m ∧
                   dst = (("ipgen_" +:+ top +:+ "_v1_00_a" +:+ "/") +:+ "test/")
                         +:+ "mem.img") ∧
           (∀ tf td, ev = EvRender tf td →
              (td_binfile td = true → ∃ stem, mi = Some (stem +:+ ".bin")) ∧
              (ut = None → td_usertestcode td = "") ∧
              (tf = "test_ipgen_avalon.txt" →
               td_memimg td = match mi with Some _ => "mem.img" | None => "None" end ∧
               ((∃ stem, mi = Some (stem +:+ ".bin")) → td_binfile td = true))))
        (build_package_avalon configs syn common ml sl tp ti top mi ut ign).
Proof.
  unfold build_package_avalon. cbv zeta. destruct mi as [m|], ut as [u|].
  all: repeat first [ emits_ret_step | emits_step ltac:(solve_caller_files) ].
Qed.

(** X10.  Of the caller's files a package touches two at most, whether
    it returns or raises: it reads no file but the user test code, and
    copies no file but the memory image, to [test/mem.img] in the package
    directory.  The AXI package expands the home directory in the path of
    the memory image, the Avalon package takes the path as it is given.
    The test bench template is told the image [mem.img] when an image is
    given and the string [None] otherwise; it is told that the image is
    binary exactly when the given path ends in [.bin]; and without a user
    test file every template is handed the empty string as test code. *)
Theorem package_caller_files
    (configs : Configs) (synthesized_code common_code : string)
    (masterlist slavelist : list Resource)
    (top_parameters : list (string * Param))
    (top_ioports : list (string * (Port Expr * option Z)))
    (userlogic_topmodule : string) (memimg usertest : option string)
    (ignore_protocol_error : bool) (w : World Resource) :
  let testpath := ("ipgen_" +:+ userlogic_topmodule +:+ "_v1_00_a" +:+ "/") +:+ "test/" in
  let touches (source : string → string) (test_template : string)
              (ev : Event Resource) :=
    (∀ p, ev = EvRead p → usertest = Some p) ∧
    (∀ src dst, ev = EvCopy src dst →
       ∃ m, memimg = Some m ∧ src = source m ∧ dst = testpath +:+ "mem.img") ∧
    (∀ tf td, ev = EvRender tf td →
       (td_binfile td = true → ∃ stem, memimg = Some (stem +:+ ".bin")) ∧
       (usertest = None → td_usertestcode td = "") ∧
       (tf = test_template →
        td_memimg td = match memimg with Some _ => "mem.img" | None => "None" end ∧
        ((∃ stem, memimg = Some (stem +:+ ".bin")) → td_binfile td = true))) in
  (∃ evs,
     log (build_package_axi configs synthesized_code common_code masterlist slavelist
            top_parameters top_ioports userlogic_topmodule memimg usertest
            ignore_protocol_error w).2 = log w ++ evs ∧
     Forall (touches expanduser "test_ipgen_axi.txt") evs) ∧
  (∃ evs,
     log (build_package_avalon configs synthesized_code common_code masterlist slavelist
            top_parameters top_ioports userlogic_topmodule memimg usertest
            ignore_protocol_error w).2 = log w ++ evs ∧
     Forall (touches (λ m, m) "test_ipgen_avalon.txt") evs).
Proof.
  intros testpath touches. split.
  - apply Emits_run, build_package_axi_caller_files.
  - apply Emits_run, build_package_avalon_caller_files.
Qed.
End FileNames.

(** ** The wrapper's parameters and the printed settings *)

Section Wrapper.
Context `{E : External}.
Implicit Types w : World Resource.

Lemma build_parameters_loop (tp : list (string * Param)) :
  foldl build_parameters_step ([], []) (tp.*2)
  = ((λ item : string * Param, PyStr.replace (visit (NParam item.2)) ";" ",")
       <$> filter (λ item, is_localparam item = false) tp,
     (λ item : string * Param, visit (NParam item.2))
       <$> filter (λ item, is_localparam item = true) tp).
Proof.
  induction tp as [|[pk pv] tp IH] using rev_ind; [done|].
  rewrite fmap_app, foldl_app, IH. cbn [foldl fmap list_fmap snd build_parameters_step].
  change (PyStr.truthy_nat (PyStr.count (visit (NParam pv)) "localparam"))
    with (is_localparam (pk, pv)).
  destruct (is_localparam (pk, pv)) eqn:Hl.
  - rewrite filter_snoc_false, filter_snoc_true, fmap_app by (by rewrite ?Hl). done.
  - rewrite filter_snoc_true, filter_snoc_false, fmap_app by (by rewrite ?Hl). done.
Qed.

Lemma length_filter_split {A} (f : A → bool) (l : list A) :
  (length (filter (λ x, f x = false) l) + length (filter (λ x, f x = true) l)
   = length l)%nat.
Proof.
  induction l as [|x l IH]; [done|].
  destruct (f x) eqn:Hx.
  - rewrite filter_cons_False, filter_cons_True by (by rewrite ?Hx). cbn. lia.
  - rewrite filter_cons_True, filter_cons_False by (by rewrite ?Hx). cbn. lia.
Qed.

(** X4.  When the clocks are consistent, the analyzer succeeds and the
    interface family and the external address width are configured, the
    first template that [build] renders is the wrapper of the family, and
    its context splits the parameters of the top module in two: the
    localparams, declared as the code generator renders them, and the
    other parameters, each with every semicolon of its declaration
    replaced by a comma, in the order of the analyzer's dictionary.  No
    semicolon is left in a declaration of the second list, and every
    parameter is in exactly one of the two. *)
Theorem build_wrapper_parameters
    (configs : Configs) (userlogic_topmodule : string)
    (userlogic_filelist : list string) (include define : option (list string))
    (memimg usertest : option string) (skip_not_found ignore_protocol_error : bool)
    (an : Analysis Expr Ast Param Resource) (t a : PyVal) (w : World Resource) :
  clocks_consistent configs →
  RtlConverter userlogic_filelist userlogic_topmodule include define skip_not_found
    = Ok an →
  configs !! "ext_addrwidth" = Some a →
  configs !! "if_type" = Some t →
  ∃ td post,
    log (build configs userlogic_topmodule userlogic_filelist include define
               memimg usertest skip_not_found ignore_protocol_error w).2
    = log w ++ [EvAnalyze userlogic_filelist userlogic_topmodule include define
                          skip_not_found;
                EvDump;
                EvRender (node_template t) td] ++ post ∧
    td_def_top_parameters td
    = (λ item : string * Param, PyStr.replace (visit (NParam item.2)) ";" ",")
      <$> filter (λ item, is_localparam item = false) (an_top_parameters an) ∧
    td_def_top_localparams td
    = (λ item : string * Param, visit (NParam item.2))
      <$> filter (λ item, is_localparam item = true) (an_top_parameters an) ∧
    Forall (λ r, PyStr.count r ";" = 0%nat) (td_def_top_parameters td) ∧
    (length (td_def_top_parameters td) + length (td_def_top_localparams td)
     = length (an_top_parameters an))%nat.
Proof.
  intros Hc Han Ha Ht.
  destruct (build_dispatch configs userlogic_topmodule userlogic_filelist include define
              memimg usertest skip_not_found ignore_protocol_error an t a w Hc Han Ht Ha)
    as (s & Hs & ->).
  match goal with |- context [ ?m (mkWorld (fs w) ?l) ] =>
    destruct (Emits_run (λ _, True) m (mkWorld (fs w) l)) as (evs & Hlog & _) end.
  { apply Emits_true_build_tail. }
  exists (node_dict an userlogic_topmodule t a s),
         ([EvPrint "----------------------------------------"; EvPrint "Synthesis Setting"]
          ++ ((λ item, EvPrint (setting_line item)) <$> sorted_items configs) ++ evs).
  assert (Hp : td_def_top_parameters (node_dict an userlogic_topmodule t a s)
               = (λ item : string * Param, PyStr.replace (visit (NParam item.2)) ";" ",")
                 <$> filter (λ item, is_localparam item = false) (an_top_parameters an)).
  { unfold node_dict. by rewrite build_parameters_loop. }
  assert (Hl : td_def_top_localparams (node_dict an userlogic_topmodule t a s)
               = (λ item : string * Param, visit (NParam item.2))
                 <$> filter (λ item, is_localparam item = true) (an_top_parameters an)).
  { unfold node_dict. by rewrite build_parameters_loop. }
  split_and!; [|done|done| |].
  - rewrite Hlog. cbn [log]. unfold prelude_events. by rewrite <- !app_assoc.
  - rewrite Hp. apply Forall_fmap, Forall_true. intros item. cbn.
    by apply replace_char_count.
  - rewrite Hp, Hl, !length_fmap. apply length_filter_split.
Qed.

Lemma Emits_silent_general configs syn common :
  Emits (λ ev, printed ev = None) (build_package_general configs syn common).
Proof. unfold build_package_general. emits ltac:(done). Qed.

Lemma Emits_silent_axi configs syn common ml sl tp ti top mi ut ign :
  Emits (λ ev, printed ev = None)
        (build_package_axi configs syn common ml sl tp ti top mi ut ign).
Proof. unfold build_package_axi. cbv zeta. emits ltac:(done). Qed.

Lemma Emits_silent_avalon configs syn common ml sl tp ti top mi ut ign :
  Emits (λ ev, printed ev = None)
        (build_package_avalon configs syn common ml sl tp ti top mi ut ign).
Proof. unfold build_package_avalon. cbv zeta. emits ltac:(done). Qed.

Lemma omap_none {A B} (f : A → option B) (l : list A) :
  Forall (λ x, f x = None) l → omap f l = [].
Proof. induction 1 as [|x l Hx _ IH]; [done|]. cbn. by rewrite Hx. Qed.

Lemma omap_printed_settings (items : list (string * PyVal)) :
  omap (printed (Resource:=Resource)) ((λ item, EvPrint (setting_line item)) <$> items)
  = (λ item : string * PyVal, "  " +:+ item.1 +:+ " : " +:+ py_str item.2) <$> items.
Proof. induction items as [|item items IH]; [done|]. cbn. by rewrite IH. Qed.

Lemma key_le_total : Total key_le.
Proof. intros x y. apply String.leb_total. Qed.

(** X12.  When the clocks are consistent, the analyzer succeeds and
    the interface family and the external address width are configured,
    what [build] prints is the rule of dashes, the heading "Synthesis
    Setting" and then one line [  key : value] for each entry of the
    configuration, and nothing more, whatever the package builder then
    does: each key has exactly one line and the keys never decrease from
    one line to the next. *)
Theorem build_prints_sorted_settings
    (configs : Configs) (userlogic_topmodule : string)
    (userlogic_filelist : list string) (include define : option (list string))
    (memimg usertest : option string) (skip_not_found ignore_protocol_error : bool)
    (an : Analysis Expr Ast Param Resource) (t a : PyVal) (w : World Resource) :
  clocks_consistent configs →
  RtlConverter userlogic_filelist userlogic_topmodule include define skip_not_found
    = Ok an →
  configs !! "ext_addrwidth" = Some a →
  configs !! "if_type" = Some t →
  ∃ evs items,
    log (build configs userlogic_topmodule userlogic_filelist include define
               memimg usertest skip_not_found ignore_protocol_error w).2
    = log w ++ evs ∧
    omap printed evs
    = ["----------------------------------------"; "Synthesis Setting"] ++
      ((λ item : string * PyVal, "  " +:+ item.1 +:+ " : " +:+ py_str item.2) <$> items) ∧
    (∀ k v, (k, v) ∈ items ↔ configs !! k = Some v) ∧
    NoDup items.*1 ∧
    Sorted (λ x y : string * PyVal, String.leb x.1 y.1 = true) items.
Proof.
  intros Hc Han Ha Ht.
  destruct (build_dispatch configs userlogic_topmodule userlogic_filelist include define
              memimg usertest skip_not_found ignore_protocol_error an t a w Hc Han Ht Ha)
    as (s & Hs & ->).
  match goal with |- context [ ?m (mkWorld (fs w) ?l) ] =>
    destruct (Emits_run (λ ev, printed ev = None) m (mkWorld (fs w) l))
      as (evs & Hlog & Hevs) end.
  { destruct (py_eq t (VStr "general")); [apply Emits_silent_general|].
    destruct (py_eq t (VStr "axi")); [apply Emits_silent_axi|].
    destruct (py_eq t (VStr "avalon")); [apply Emits_silent_avalon | apply Emits_raise]. }
  exists (prelude_events configs an userlogic_topmodule userlogic_filelist include define
            skip_not_found t a s ++ evs), (sorted_items configs).
  assert (Hperm : sorted_items configs ≡ₚ map_to_list configs)
    by apply merge_sort_Permutation.
  split_and!.
  - rewrite Hlog. cbn [log]. by rewrite app_assoc.
  - rewrite omap_app, (omap_none _ evs Hevs), app_nil_r.
    unfold prelude_events. rewrite omap_app, omap_printed_settings. done.
  - intros k v. rewrite Hperm. apply elem_of_map_to_list.
  - rewrite Hperm. apply NoDup_fst_map_to_list.
  - apply (@Sorted_merge_sort _ key_le _ key_le_total).
Qed.
End Wrapper.

(** ** What a run keeps and what it leaves *)

Section KeepsLemmas.
Context {Resource : Type}.
Implicit Types w : World Resource.

Lemma Keeps_still {A} (m : M Resource A) :
  (∀ w r w', m w = (r, w') → fs w' = fs w) → Keeps m.
Proof. intros H w r w' Hm. rewrite (H _ _ _ Hm). apply fs_le_refl. Qed.

Lemma Keeps_ret {A} (a : A) : Keeps (ret (Resource:=Resource) a).
Proof. apply Keeps_still. by intros w r w' [= <- <-]. Qed.

Lemma Keeps_raise {A} e : Keeps (raise (Resource:=Resource) (A:=A) e).
Proof. apply Keeps_still. by intros w r w' [= <- <-]. Qed.

Lemma Keeps_of_result {A} (r : Result A) : Keeps (of_result (Resource:=Resource) r).
Proof. apply Keeps_still. by intros w r' w' [= <- <-]. Qed.

Lemma Keeps_emit ev : Keeps (emit (Resource:=Resource) ev).
Proof. apply Keeps_still. by intros w r w' [= <- <-]. Qed.

Lemma Keeps_query_fs {A} (f : FileSys → Result A) :
  Keeps (query_fs (Resource:=Resource) f).
Proof. apply Keeps_still. by intros w r w' [= <- <-]. Qed.

Lemma Keeps_config_get (configs : Configs) k :
  Keeps (config_get (Resource:=Resource) configs k).
Proof. unfold config_get. destruct (configs !! k); [apply Keeps_ret | apply Keeps_raise]. Qed.

Lemma Keeps_bind {A B} (m : M Resource A) (k : A → M Resource B) :
  Keeps m → (∀ a, Keeps (k a)) → Keeps (bind m k).
Proof.
  intros Hm Hk w r w'' [(a & w' & H1 & H2) | (e & H1 & ->)]%bind_inv.
  - eapply fs_le_trans; [by eapply Hm | by eapply Hk].
  - by eapply Hm.
Qed.

(** An operation that fails changes nothing. *)
Lemma Keeps_update_fs (op : FileSys → Result FileSys) :
  (∀ f f', op f = Ok f' → fs_le f f') → Keeps (update_fs (Resource:=Resource) op).
Proof.
  intros Hop w r w'. unfold update_fs. destruct (op (fs w)) as [f'|e] eqn:Hf.
  - intros [= <- <-]. by apply Hop.
  - intros [= <- <-]. apply fs_le_refl.
Qed.

Lemma Keeps_logged {A} ev (m : M Resource A) :
  Keeps m → Keeps (bind (emit ev) (λ _, m)).
Proof. intros Hm. apply Keeps_bind; [apply Keeps_emit | done]. Qed.

Lemma Keeps_write_file p c : Keeps (write_file (Resource:=Resource) p c).
Proof. apply Keeps_logged, Keeps_update_fs. intros f f'. apply fs_write_mono. Qed.

Lemma Keeps_read_file p : Keeps (read_file (Resource:=Resource) p).
Proof. apply Keeps_logged, Keeps_query_fs. Qed.

Lemma Keeps_shutil_copyfile src dst :
  Keeps (shutil_copyfile (Resource:=Resource) src dst).
Proof. apply Keeps_logged, Keeps_update_fs. intros f f'. apply fs_copyfile_mono. Qed.

Lemma Keeps_shutil_copy src dst : Keeps (shutil_copy (Resource:=Resource) src dst).
Proof. apply Keeps_logged, Keeps_update_fs. intros f f'. apply fs_copy_mono. Qed.

Lemma Keeps_mkdir_unless_exists d :
  Keeps (mkdir_unless_exists (Resource:=Resource) d).
Proof.
  apply Keeps_bind; [apply Keeps_query_fs|]. intros []; [apply Keeps_ret|].
  apply Keeps_logged, Keeps_update_fs. intros f f'. apply fs_mkdir_mono.
Qed.

Lemma Keeps_forM_ {B} (f : B → M Resource unit) l :
  (∀ x, Keeps (f x)) → Keeps (forM_ f l).
Proof.
  intros Hf. induction l as [|x l IH]; [apply Keeps_ret|].
  cbn. apply Keeps_bind; [apply Hf | by intros _].
Qed.

Lemma Keeps_foldM {A B} (f : A → B → M Resource A) l a :
  (∀ a x, Keeps (f a x)) → Keeps (foldM f l a).
Proof.
  intros Hf. revert a. induction l as [|x l IH]; intros a; [apply Keeps_ret|].
  cbn. apply Keeps_bind; [apply Hf | apply IH].
Qed.

(** What holds of the file system after the first part of a sequence and
    is not undone by additions holds after the whole of it. *)
Lemma Leaves_here (Q : FileSys → Prop) {A B} (m : M Resource A) (k : A → M Resource B) :
  (∀ f g, fs_le f g → Q f → Q g) →
  Leaves Q m → (∀ a, Keeps (k a)) → Leaves Q (bind m k).
Proof.
  intros HQ Hm Hk w b w'' (a & w' & H1 & H2)%bind_inv_ok.
  eapply HQ; [by eapply Hk | by eapply Hm].
Qed.

Lemma Leaves_later (Q : FileSys → Prop) {A B} (m : M Resource A)
    (k : A → M Resource B) :
  (∀ a, Leaves Q (k a)) → Leaves Q (bind m k).
Proof. intros Hk w b w'' (a & w' & H1 & H2)%bind_inv_ok. by eapply Hk. Qed.

Lemma mkdir_unless_exists_leaves d :
  Leaves (λ f, fs_exists f d = true) (mkdir_unless_exists (Resource:=Resource) d).
Proof.
  intros w a w'. unfold mkdir_unless_exists, os_path_exists.
  unfold bind at 1. unfold query_fs at 1.
  destruct (fs_exists (fs w) d) eqn:Hex; cbn [negb].
  - by intros [= _ <-].
  - unfold os_mkdir. rewrite bind_emit. unfold update_fs. cbn [fs log].
    destruct (fs_mkdir (fs w) d) as [f'|e] eqn:Hmk; [|done].
    intros [= _ <-]. cbn [fs].
    pose proof (fs_mkdir_mono _ _ _ Hmk) as Hle.
    pose proof Hmk as (Hk & _)%fs_mkdir_inv.
    apply fs_mkdir_ok in Hmk as (Hn & Hd & Hwalk & Hi & ->).
    unfold fs_exists.
    assert (fs_stat (set_inode (fs w) (resolve (fs w) d) Dir) d = Some Dir) as ->;
      [|done].
    apply fs_stat_some.
    change (resolve (set_inode (fs w) (resolve (fs w) d) Dir) d) with (resolve (fs w) d).
    change (steps (set_inode (fs w) (resolve (fs w) d) Dir) d) with (steps (fs w) d).
    split_and!; try done; [by apply (walk_le (fs w))|].
    rewrite inode_at_nodes by done. cbn. by rewrite lookup_insert_eq.
Qed.
End KeepsLemmas.

Section KeepsPipeline.
Context `{E : External}.

Lemma Keeps_render tf name ml sl dp dl di ni kws :
  Keeps (render tf name ml sl dp dl di ni kws).
Proof.
  unfold render, log2.
  destruct (_ <=? 0).
  - apply Keeps_bind; [apply Keeps_raise | intros ?].
    apply Keeps_bind; [apply Keeps_emit | intros ?; apply Keeps_ret].
  - apply Keeps_bind; [apply Keeps_ret | intros ?].
    apply Keeps_bind; [apply Keeps_emit | intros ?; apply Keeps_ret].
Qed.

Lemma Keeps_convert fl top inc def skip : Keeps (convert fl top inc def skip).
Proof. apply Keeps_bind; [apply Keeps_emit | intros _; apply Keeps_of_result]. Qed.

Lemma Keeps_build_ioports_step configs acc item :
  Keeps (build_ioports_step configs acc item).
Proof.
  destruct acc as [di ni], item as [pk [pv pwidth]]. unfold build_ioports_step.
  apply Keeps_bind; [apply Keeps_config_get | intros ?; apply Keeps_ret].
Qed.
End KeepsPipeline.

Ltac keeps_step :=
  lazymatch goal with
  | |- Keeps (bind _ _) => apply Keeps_bind; [ | intros ? ]
  | |- Keeps (ret _) => apply Keeps_ret
  | |- Keeps (raise _) => apply Keeps_raise
  | |- Keeps (of_result _) => apply Keeps_of_result
  | |- Keeps (config_get _ _) => apply Keeps_config_get
  | |- Keeps (mkdir_unless_exists _) => apply Keeps_mkdir_unless_exists
  | |- Keeps (write_file _ _) => apply Keeps_write_file
  | |- Keeps (read_file _) => apply Keeps_read_file
  | |- Keeps (shutil_copyfile _ _) => apply Keeps_shutil_copyfile
  | |- Keeps (shutil_copy _ _) => apply Keeps_shutil_copy
  | |- Keeps (render _ _ _ _ _ _ _ _ _) => apply Keeps_render
  | |- Keeps (convert _ _ _ _ _) => apply Keeps_convert
  | |- Keeps (print _) => apply Keeps_emit
  | |- Keeps (emit _) => apply Keeps_emit
  | |- Keeps (build_ioports_step _ _ _) => apply Keeps_build_ioports_step
  | |- Keeps (forM_ _ _) => apply Keeps_forM_; intros ?
  | |- Keeps (foldM _ _ _) => apply Keeps_foldM; intros ? ?
  | |- Keeps (match ?x with _ => _ end) => destruct x eqn:?
  end.

(** The directory [d] is looked for in the sequence of the steps. *)
Ltac leaves_step :=
  first [ apply Leaves_here;
          [ intros ? ?; apply fs_exists_le
          | apply mkdir_unless_exists_leaves
          | intros ?; repeat keeps_step ]
        | apply Leaves_later; intros ? ].

Section Keeping.
Context `{E : External}.
Implicit Types w : World Resource.

Lemma Keeps_build_package_general configs syn common :
  Keeps (build_package_general configs syn common).
Proof. unfold build_package_general. repeat keeps_step. Qed.

Lemma Keeps_build_package_axi configs syn common ml sl tp ti top mi ut ign :
  Keeps (build_package_axi configs syn common ml sl tp ti top mi ut ign).
Proof. unfold build_package_axi. cbv zeta. repeat keeps_step. Qed.

Lemma Keeps_build_package_avalon configs syn common ml sl tp ti top mi ut ign :
  Keeps (build_package_avalon configs syn common ml sl tp ti top mi ut ign).
Proof. unfold build_package_avalon. cbv zeta. repeat keeps_step. Qed.

(** X11.  Whether it returns or raises, and at whatever step it raises,
    [build] leaves the working directory as it is and every node that it
    found in the file system in place and of the same kind: it removes
    nothing, and turns no directory into a file and no file into a
    directory.  All that it does to the file system is to add nodes and
    to overwrite files. *)
Theorem build_keeps_the_file_system
    (configs : Configs) (userlogic_topmodule : string)
    (userlogic_filelist : list string) (include define : option (list string))
    (memimg usertest : option string) (skip_not_found ignore_protocol_error : bool)
    (w : World Resource) :
  let w' := (build configs userlogic_topmodule userlogic_filelist include define
                   memimg usertest skip_not_found ignore_protocol_error w).2 in
  cwd (fs w') = cwd (fs w) ∧
  ∀ k, nodes (fs w) !! k ≠ None →
       match nodes (fs w) !! k, nodes (fs w') !! k with
       | Some Dir, Some Dir => True
       | Some (File _), Some (File _) => True
       | _, _ => False
       end.
Proof.
  intros w'. subst w'.
  assert (Hk : Keeps (build configs userlogic_topmodule userlogic_filelist include define
                        memimg usertest skip_not_found ignore_protocol_error)).
  { unfold build. cbv zeta.
    repeat keeps_step;
      first [ apply Keeps_build_package_general | apply Keeps_build_package_axi
            | apply Keeps_build_package_avalon ]. }
  destruct (build _ _ _ _ _ _ _ _ _ w) as [r w'] eqn:Hrun.
  destruct (Hk _ _ _ Hrun) as [Hc Hle]. split; [done|].
  intros k Hne. specialize (Hle k Hne). cbn [snd].
  by destruct (nodes (fs w) !! k) as [[]|], (nodes (fs w') !! k) as [[]|].
Qed.

(** X16.  When the Avalon package builder returns, each of the four
    directories of the package exists: the package directory and, in it,
    [hdl], [hdl/verilog] and [test]. *)
Theorem avalon_package_directories
    (configs : Configs) (synthesized_code common_code : string)
    (masterlist slavelist : list Resource)
    (top_parameters : list (string * Param))
    (top_ioports : list (string * (Port Expr * option Z)))
    (userlogic_topmodule : string) (memimg usertest : option string)
    (ignore_protocol_error : bool) (w w' : World Resource) :
  build_package_avalon configs synthesized_code common_code masterlist slavelist
    top_parameters top_ioports userlogic_topmodule memimg usertest
    ignore_protocol_error w = (Ok tt, w') →
  let dirname := "ipgen_" +:+ userlogic_topmodule +:+ "_v1_00_a" +:+ "/" in
  Forall (λ d, fs_exists (fs w') d = true)
         [dirname; dirname +:+ "/" +:+ "hdl"; dirname +:+ "/" +:+ "hdl/verilog";
          dirname +:+ "/" +:+ "test"].
Proof.
  intros Hrun dirname. repeat apply Forall_cons_2; [..|apply Forall_nil_2].
  all: match goal with |- fs_exists _ ?d = true =>
         refine ((_ : Leaves (λ f, fs_exists f d = true)
                        (build_package_avalon configs synthesized_code common_code
                           masterlist slavelist top_parameters top_ioports
                           userlogic_topmodule memimg usertest ignore_protocol_error))
                   w tt w' Hrun) end.
  all: clear Hrun; unfold build_package_avalon; cbv zeta; fold dirname.
  all: repeat lazymatch goal with
              | |- Leaves _ (match ?x with _ => _ end) => destruct x
              end.
  all: repeat leaves_step.
Qed.
End Keeping.

(** ** Rendering, the required configuration and the generic family *)

Section Requirements.
Context `{E : External}.
Implicit Types w : World Resource.


Lemma build_package_general_requires configs syn common :
  Yields (λ _, @None unit) (build_package_general configs syn common)
         (λ _ _, is_Some (configs !! "output")).
Proof.
  unfold build_package_general. cbv zeta. repeat yields_step.
  all: first [ apply Yields_raise
             | eapply Yields_weaken; [apply Yields_write_file | by intros] ].
Qed.

Lemma build_package_axi_requires configs syn common ml sl tp ti top mi ut ign :
  Yields (λ _, @None unit)
         (build_package_axi configs syn common ml sl tp ti top mi ut ign)
         (λ _ _, is_Some (configs !! "sim_addrwidth") ∧
                 is_Some (configs !! "hperiod_ulogic") ∧
                 is_Some (configs !! "hperiod_bus")).
Proof.
  unfold build_package_axi. cbv zeta. repeat yields_step.
  all: eapply Yields_weaken; [apply Yields_write_file | by intros].
Qed.

Lemma build_package_avalon_requires configs syn common ml sl tp ti top mi ut ign :
  Yields (λ _, @None unit)
         (build_package_avalon configs syn common ml sl tp ti top mi ut ign)
         (λ _ _, is_Some (configs !! "sim_addrwidth") ∧
                 is_Some (configs !! "hperiod_ulogic") ∧
                 is_Some (configs !! "hperiod_bus")).
Proof.
  unfold build_package_avalon. cbv zeta. repeat yields_step.
  all: eapply Yields_weaken; [apply Yields_write_file | by intros].
Qed.

(** X14.  A build that returns has found in the configuration the keys
    [single_clock], [if_type] and [ext_addrwidth], an interface family
    that is one of [general], [axi] and [avalon], and what its package
    builder reads: the key [output] for the family [general], and for
    the two others the keys [sim_addrwidth], [hperiod_ulogic] and
    [hperiod_bus], which the test bench needs in single-clock mode and
    without it alike. *)
Theorem build_requires_configuration
    (configs : Configs) (userlogic_topmodule : string)
    (userlogic_filelist : list string) (include define : option (list string))
    (memimg usertest : option string) (skip_not_found ignore_protocol_error : bool)
    (w w' : World Resource) :
  build configs userlogic_topmodule userlogic_filelist include define memimg usertest
        skip_not_found ignore_protocol_error w = (Ok tt, w') →
  ∃ t, configs !! "if_type" = Some t ∧
       supported_family t = true ∧
       is_Some (configs !! "single_clock") ∧
       is_Some (configs !! "ext_addrwidth") ∧
       if py_eq t (VStr "general")
       then is_Some (configs !! "output")
       else is_Some (configs !! "sim_addrwidth") ∧
            is_Some (configs !! "hperiod_ulogic") ∧
            is_Some (configs !! "hperiod_bus").
Proof.
  intros Hrun.
  destruct (build_success_inv _ _ _ _ _ _ _ _ _ _ _ _ Hrun)
    as (Hc & an & t & a & Han & Ht & Ha).
  destruct (build_dispatch configs userlogic_topmodule userlogic_filelist include define
              memimg usertest skip_not_found ignore_protocol_error an _ a w Hc Han Ht Ha)
    as (s & Hs & Hbuild).
  rewrite Hbuild in Hrun. exists t. unfold supported_family.
  destruct (py_eq t (VStr "general")).
  { destruct (build_package_general_requires _ _ _ _ _ _ Hrun) as (_ & _ & Hout).
    split_and!; first [done | eexists; eassumption]. }
  destruct (py_eq t (VStr "axi")).
  { destruct (build_package_axi_requires _ _ _ _ _ _ _ _ _ _ _ _ _ _ Hrun)
      as (_ & _ & ? & ? & ?).
    split_and!; first [done | eexists; eassumption]. }
  destruct (py_eq t (VStr "avalon")); [|done].
  destruct (build_package_avalon_requires _ _ _ _ _ _ _ _ _ _ _ _ _ _ Hrun)
    as (_ & _ & ? & ? & ?).
  split_and!; first [done | eexists; eassumption].
Qed.

(** X17.  After a build for the family [general] that returns, with an
    output path [configs['output']] that has no component [..], the file
    at that path reads back as the rendering of the wrapper followed by
    the regenerated user logic, and nothing else in the file system has
    changed. *)
Theorem general_build_output_reads_back
    (configs : Configs) (userlogic_topmodule : string)
    (userlogic_filelist : list string) (include define : option (list string))
    (memimg usertest : option string) (skip_not_found ignore_protocol_error : bool)
    (path : string) (w w' : World Resource) :
  build configs userlogic_topmodule userlogic_filelist include define memimg usertest
        skip_not_found ignore_protocol_error w = (Ok tt, w') →
  configs !! "if_type" = Some (VStr "general") →
  configs !! "output" = Some (VStr path) →
  ".." ∉ components path →
  ∃ an a s,
    RtlConverter userlogic_filelist userlogic_topmodule include define skip_not_found
      = Ok an ∧
    configs !! "ext_addrwidth" = Some a ∧
    configs !! "single_clock" = Some s ∧
    fs_read (fs w') path
    = Ok (jinja_render "node_general.txt"
                       (node_dict an userlogic_topmodule (VStr "general") a s)
          +:+ visit (NSource (userlogic_ast an))) ∧
    cwd (fs w') = cwd (fs w) ∧
    ∀ k, k ≠ resolve (fs w) path → nodes (fs w') !! k = nodes (fs w) !! k.
Proof.
  intros Hrun Ht Hout _.
  destruct (build_success_inv _ _ _ _ _ _ _ _ _ _ _ _ Hrun)
    as (Hc & an & t & a & Han & Ht' & Ha).
  rewrite Ht in Ht'. injection Ht' as <-.
  destruct (build_dispatch configs userlogic_topmodule userlogic_filelist include define
              memimg usertest skip_not_found ignore_protocol_error an _ a w Hc Han Ht Ha)
    as (s & Hs & Hbuild).
  rewrite Hbuild in Hrun. cbn [py_eq String.eqb Ascii.eqb Bool.eqb] in Hrun.
  exists an, a, s. split_and!; [done..| | |].
  all: unfold build_package_general in Hrun;
    rewrite (bind_config_get _ _ _ _ _ Hout) in Hrun;
    unfold write_file in Hrun; rewrite bind_emit in Hrun;
    unfold update_fs in Hrun; cbn [fs log] in Hrun;
    destruct (fs_write (fs w) path _) as [f'|e] eqn:Hw; [|done];
    injection Hrun as <-; cbn [fs].
  - apply fs_write_read in Hw. rewrite Hw.
    unfold synthesized_code_of, common_code_of, node_template.
    cbn [py_eq String.eqb Ascii.eqb Bool.eqb].
    change (PyStr.join ([] ++ [])) with "". by rewrite append_empty_r.
  - by apply fs_write_inv in Hw as (_ & _ & _ & _ & ->).
  - intros k Hk. apply fs_write_inv in Hw as (_ & _ & _ & _ & ->).
    cbn. by rewrite lookup_insert_ne.
Qed.
End Requirements.

(** ** The order of the actions and what the contexts take from the
    configuration *)

Section Order.
Context {Resource : Type}.
Implicit Types w : World Resource.

Lemma DirectoriesFirst_begin {A B} (m : M Resource A) (k : A → M Resource B) :
  Emits (λ ev, is_mkdir ev = true) m →
  (∀ a, DirectoriesFirst (k a)) →
  DirectoriesFirst (bind m k).
Proof.
  intros Hm Hk w r w'' [(a & w' & H1 & H2) | (e & H1 & ->)]%bind_inv.
  - destruct (Hm _ _ _ H1) as (evs & Hl1 & Hd).
    destruct (Hk a _ _ _ H2) as (dirs & rest & Hl2 & Hdirs & Hrest).
    exists (evs ++ dirs), rest. rewrite Hl2, Hl1, <- !app_assoc.
    split; [done|]. split; [by apply Forall_app | done].
  - destruct (Hm _ _ _ H1) as (evs & Hl1 & Hd).
    exists evs, []. rewrite app_nil_r. by split_and!.
Qed.

Lemma DirectoriesFirst_rest {A} (m : M Resource A) :
  Emits (λ ev, is_mkdir ev = false) m → DirectoriesFirst m.
Proof.
  intros Hm w r w' H. destruct (Hm _ _ _ H) as (evs & Hl & Hevs).
  exists [], evs. by split_and!.
Qed.
End Order.

Section OrderOfPackages.
Context `{E : External}.
Implicit Types w : World Resource.

Ltac directories_first :=
  repeat (apply DirectoriesFirst_begin;
          [ by apply Emits_mkdir_unless_exists | intros _ ]);
  apply DirectoriesFirst_rest; emits ltac:(done).

Lemma build_package_axi_order configs syn common ml sl tp ti top mi ut ign :
  DirectoriesFirst (build_package_axi configs syn common ml sl tp ti top mi ut ign).
Proof.
  unfold build_package_axi. cbv zeta.
  repeat lazymatch goal with
         | |- DirectoriesFirst (match ?x with _ => _ end) => destruct x
         | |- DirectoriesFirst (bind (of_result _) _) =>
             apply DirectoriesFirst_begin; [apply Emits_of_result | intros ?]
         end.
  directories_first.
Qed.

Lemma build_package_avalon_order configs syn common ml sl tp ti top mi ut ign :
  DirectoriesFirst (build_package_avalon configs syn common ml sl tp ti top mi ut ign).
Proof.
  unfold build_package_avalon. cbv zeta.
  repeat lazymatch goal with
         | |- DirectoriesFirst (match ?x with _ => _ end) => destruct x
         end.
  directories_first.
Qed.

(** X18.  The AXI package builder and the Avalon package builder make
    their directories first: in what either adds to the log, whether it
    returns or raises, no directory is created after the first template
    has been rendered or the first file has been written, read or
    copied. *)
Theorem package_directories_first
    (configs : Configs) (synthesized_code common_code : string)
    (masterlist slavelist : list Resource)
    (top_parameters : list (string * Param))
    (top_ioports : list (string * (Port Expr * option Z)))
    (userlogic_topmodule : string) (memimg usertest : option string)
    (ignore_protocol_error : bool) (w : World Resource) :
  (∃ dirs rest,
     log (build_package_axi configs synthesized_code common_code masterlist slavelist
            top_parameters top_ioports userlogic_topmodule memimg usertest
            ignore_protocol_error w).2 = log w ++ dirs ++ rest ∧
     Forall (λ ev, ∃ d, ev = EvMkdir d) dirs ∧
     Forall (λ ev, ∀ d, ev ≠ EvMkdir d) rest) ∧
  (∃ dirs rest,
     log (build_package_avalon configs synthesized_code common_code masterlist slavelist
            top_parameters top_ioports userlogic_topmodule memimg usertest
            ignore_protocol_error w).2 = log w ++ dirs ++ rest ∧
     Forall (λ ev, ∃ d, ev = EvMkdir d) dirs ∧
     Forall (λ ev, ∀ d, ev ≠ EvMkdir d) rest).
Proof.
  split.
  - destruct (build_package_axi _ _ _ _ _ _ _ _ _ _ _ w) as [r w'] eqn:Hrun.
    destruct (build_package_axi_order _ _ _ _ _ _ _ _ _ _ _ _ _ _ Hrun)
      as (dirs & rest & Hlog & Hdirs & Hrest).
    exists dirs, rest. split_and!; [done| |].
    + eapply Forall_impl; [exact Hdirs|]. intros [] ?; try done. by eexists.
    + eapply Forall_impl; [exact Hrest|]. by intros [] ? ?.
  - destruct (build_package_avalon _ _ _ _ _ _ _ _ _ _ _ w) as [r w'] eqn:Hrun.
    destruct (build_package_avalon_order _ _ _ _ _ _ _ _ _ _ _ _ _ _ Hrun)
      as (dirs & rest & Hlog & Hdirs & Hrest).
    exists dirs, rest. split_and!; [done| |].
    + eapply Forall_impl; [exact Hdirs|]. intros [] ?; try done. by eexists.
    + eapply Forall_impl; [exact Hrest|]. by intros [] ? ?.
Qed.

Lemma Emits_no_generator_general configs syn common :
  Emits (λ ev, generator_call ev = None) (build_package_general configs syn common).
Proof. unfold build_package_general. emits ltac:(done). Qed.

Lemma Emits_no_generator_avalon configs syn common ml sl tp ti top mi ut ign :
  Emits (λ ev, generator_call ev = None)
        (build_package_avalon configs syn common ml sl tp ti top mi ut ign).
Proof. unfold build_package_avalon. cbv zeta. emits ltac:(done). Qed.

(** X19.  Unless the configured interface family is [axi], [build]
    never calls the IP-XACT generator, whether it returns or raises. *)
Theorem only_axi_calls_generator
    (configs : Configs) (userlogic_topmodule : string)
    (userlogic_filelist : list string) (include define : option (list string))
    (memimg usertest : option string) (skip_not_found ignore_protocol_error : bool)
    (w : World Resource) :
  configs !! "if_type" ≠ Some (VStr "axi") →
  ∃ evs,
    log (build configs userlogic_topmodule userlogic_filelist include define
               memimg usertest skip_not_found ignore_protocol_error w).2
    = log w ++ evs ∧
    Forall (λ ev, generator_call ev = None) evs.
Proof.
  intros Hfam. apply Emits_run. unfold build. cbv zeta.
  emits ltac:(done);
    first [ apply Emits_no_generator_general | apply Emits_no_generator_avalon | idtac ].
  exfalso. apply Hfam.
  match goal with H : py_eq ?t (VStr "axi") = true |- _ =>
    apply py_eq_str in H; subst t end.
  done.
Qed.

Ltac solve_configured :=
  intros ? ? [= <- <-]; cbn; split_and!; try done; by intros ? [= <-].

Lemma build_package_axi_configured configs syn common ml sl tp ti top mi ut ign :
  Emits (λ ev, ∀ tf td, rendering ev = Some (tf, td) →
           configs !! "ext_addrwidth" = Some (td_ext_addrwidth td) ∧
           configs !! "single_clock" = Some (td_single_clock td) ∧
           (∀ v, td_simaddrwidth td = Some v → configs !! "sim_addrwidth" = Some v) ∧
           (∀ v, td_clock_hperiod_userlogic td = Some v →
                 configs !! "hperiod_ulogic" = Some v) ∧
           (∀ v, td_clock_hperiod_bus td = Some v → configs !! "hperiod_bus" = Some v) ∧
           (td_ignore_protocol_error td = true → ign = true))
        (build_package_axi configs syn common ml sl tp ti top mi ut ign).
Proof. unfold build_package_axi. cbv zeta. emits solve_configured. Qed.

Lemma build_package_avalon_configured configs syn common ml sl tp ti top mi ut ign :
  Emits (λ ev, ∀ tf td, rendering ev = Some (tf, td) →
           configs !! "ext_addrwidth" = Some (td_ext_addrwidth td) ∧
           configs !! "single_clock" = Some (td_single_clock td) ∧
           (∀ v, td_simaddrwidth td = Some v → configs !! "sim_addrwidth" = Some v) ∧
           (∀ v, td_clock_hperiod_userlogic td = Some v →
                 configs !! "hperiod_ulogic" = Some v) ∧
           (∀ v, td_clock_hperiod_bus td = Some v → configs !! "hperiod_bus" = Some v) ∧
           (td_ignore_protocol_error td = true → ign = true))
        (build_package_avalon configs syn common ml sl tp ti top mi ut ign).
Proof. unfold build_package_avalon. cbv zeta. emits solve_configured. Qed.

Lemma build_package_general_configured (P : Event Resource → Prop) configs syn common :
  (∀ p c, P (EvWrite p c)) → Emits P (build_package_general configs syn common).
Proof. intros HP. unfold build_package_general. emits ltac:(apply HP). Qed.

(** X20.  Whatever [build] hands to a template of the configuration is
    what the configuration holds: every context carries the external
    address width and the single-clock flag of the configuration, and a
    context that carries an address width for simulation or a clock half
    period carries the configured one.  A context asks for protocol
    errors to be ignored only if the caller did. *)
Theorem contexts_carry_the_configuration
    (configs : Configs) (userlogic_topmodule : string)
    (userlogic_filelist : list string) (include define : option (list string))
    (memimg usertest : option string) (skip_not_found ignore_protocol_error : bool)
    (w : World Resource) :
  ∃ evs,
    log (build configs userlogic_topmodule userlogic_filelist include define
               memimg usertest skip_not_found ignore_protocol_error w).2
    = log w ++ evs ∧
    Forall (λ ev, ∀ tf td, rendering ev = Some (tf, td) →
              configs !! "ext_addrwidth" = Some (td_ext_addrwidth td) ∧
              configs !! "single_clock" = Some (td_single_clock td) ∧
              (∀ v, td_simaddrwidth td = Some v → configs !! "sim_addrwidth" = Some v) ∧
              (∀ v, td_clock_hperiod_userlogic td = Some v →
                    configs !! "hperiod_ulogic" = Some v) ∧
              (∀ v, td_clock_hperiod_bus td = Some v →
                    configs !! "hperiod_bus" = Some v) ∧
              (td_ignore_protocol_error td = true → ignore_protocol_error = true))
           evs.
Proof.
  apply Emits_run. unfold build. cbv zeta.
  emits solve_configured;
    first [ by apply build_package_general_configured
          | apply build_package_axi_configured
          | apply build_package_avalon_configured ].
Qed.
End OrderOfPackages.

(** ** Reading back the HDL files of the packages *)

(** Components of the paths of the package tree. *)

Lemma occurs_slash_cons (c : ascii) (s : string) :
  occurs "/" (String c s) = false → c ≠ "/"%char ∧ occurs "/" s = false.
Proof.
  cbn [occurs String.prefix]. destruct (Ascii.ascii_dec "/" c) as [<-|Hc].
  - by destruct s.
  - cbn. intros ->. split; [congruence | done].
Qed.

Lemma occurs_slash_app (s t : string) :
  occurs "/" s = false → occurs "/" t = false → occurs "/" (s +:+ t) = false.
Proof.
  intros Hs Ht. induction s as [|c s IH]; [by rewrite append_empty_l|].
  apply occurs_slash_cons in Hs as [Hc Hs]. rewrite append_cons.
  cbn [occurs String.prefix]. destruct (Ascii.ascii_dec "/" c); [congruence|].
  cbn. by apply IH.
Qed.

Lemma components_from_plain (cur s : string) :
  occurs "/" s = false →
  components_from cur s = push_component (cur +:+ s) [].
Proof.
  revert cur. induction s as [|c s IH]; intros cur Hs.
  - by rewrite append_empty_r.
  - apply occurs_slash_cons in Hs as [Hc Hs]. cbn [components_from].
    destruct (Ascii.eqb_spec c "/"); [done|].
    rewrite IH by done. by rewrite append_assoc, append_cons, append_empty_l.
Qed.

(** A name without a slash is its own single component. *)
Lemma components_plain (c : ascii) (s : string) :
  occurs "/" (String c s) = false → String c s ≠ "." →
  components (String c s) = [String c s].
Proof.
  intros Hs Hdot. unfold components. rewrite components_from_plain by done.
  rewrite append_empty_l. unfold push_component.
  destruct (String.eqb_spec (String c s) ""); [done|].
  destruct (String.eqb_spec (String c s) "."); done.
Qed.

Lemma resolve_in_package f (top rest : string) :
  resolve f (("ipgen_" +:+ top +:+ "_v1_00_a" +:+ "/") +:+ rest)
  = cwd f ++ components ("ipgen_" +:+ top +:+ "_v1_00_a") ++ components rest.
Proof.
  assert (Hp : ("ipgen_" +:+ top +:+ "_v1_00_a" +:+ "/") +:+ rest
               = ("ipgen_" +:+ top +:+ "_v1_00_a") +:+ ("/" +:+ rest)).
  { by rewrite !append_assoc. }
  rewrite Hp.
  change ("ipgen_" +:+ ?x) with (String "i" ("pgen_" +:+ x)).
  rewrite !append_cons, resolve_relative by done.
  by rewrite <- !append_cons, components_sep, app_assoc.
Qed.

Lemma resolve_in_test f (top rest : string) :
  resolve f ((("ipgen_" +:+ top +:+ "_v1_00_a" +:+ "/") +:+ "test/") +:+ rest)
  = cwd f ++ components ("ipgen_" +:+ top +:+ "_v1_00_a") ++ "test" :: components rest.
Proof.
  rewrite append_assoc, resolve_in_package.
  change ("test/" +:+ rest) with ("test" +:+ ("/" +:+ rest)).
  by rewrite components_sep.
Qed.

Lemma resolve_in_verilog f (top rest : string) :
  resolve f ((("ipgen_" +:+ top +:+ "_v1_00_a" +:+ "/") +:+ "hdl/verilog/") +:+ rest)
  = cwd f ++ components ("ipgen_" +:+ top +:+ "_v1_00_a")
    ++ "hdl" :: "verilog" :: components rest.
Proof.
  rewrite append_assoc, resolve_in_package.
  change ("hdl/verilog/" +:+ rest) with ("hdl" +:+ ("/" +:+ ("verilog" +:+ ("/" +:+ rest)))).
  by rewrite !components_sep.
Qed.

Lemma test_not_verilog f (top x y : string) :
  resolve f ((("ipgen_" +:+ top +:+ "_v1_00_a" +:+ "/") +:+ "test/") +:+ x)
  ≠ resolve f ((("ipgen_" +:+ top +:+ "_v1_00_a" +:+ "/") +:+ "hdl/verilog/") +:+ y).
Proof.
  rewrite resolve_in_test, resolve_in_verilog.
  intros H. do 2 apply app_inv_head in H. discriminate H.
Qed.

Lemma append_inv_tail (s s' t : string) : s +:+ t = s' +:+ t → s = s'.
Proof.
  revert s'. induction s as [|c s IH]; intros [|c' s'] H; [done|..].
  - apply (f_equal String.length) in H. rewrite append_empty_l, length_append in H.
    cbn in H. lia.
  - apply (f_equal String.length) in H. rewrite append_empty_l, length_append in H.
    cbn in H. lia.
  - rewrite !append_cons in H. injection H as -> H. f_equal. by apply IH.
Qed.

Lemma append_inv_head (s t t' : string) : s +:+ t = s +:+ t' → t = t'.
Proof.
  induction s as [|c s IH]; [by rewrite !append_empty_l|].
  rewrite !append_cons. intros [= H]. by apply IH.
Qed.

(** In [hdl/verilog/] the file of the interface sources and the HDL file
    of a module are two files unless the module is called [common]. *)
Lemma common_not_hdl f (top : string) :
  occurs "/" top = false → top ≠ "common" →
  resolve f ((("ipgen_" +:+ top +:+ "_v1_00_a" +:+ "/") +:+ "hdl/verilog/")
             +:+ "ipgen_common.v")
  ≠ resolve f ((("ipgen_" +:+ top +:+ "_v1_00_a" +:+ "/") +:+ "hdl/verilog/")
               +:+ ("ipgen_" +:+ top +:+ ".v")).
Proof.
  intros Hslash Hne. rewrite !resolve_in_verilog.
  intros H. do 2 apply app_inv_head in H.
  change ("ipgen_" +:+ top +:+ ".v") with (String "i" ("pgen_" +:+ top +:+ ".v")) in H.
  rewrite (components_plain "i" ("pgen_" +:+ top +:+ ".v")) in H.
  - change (components "ipgen_common.v") with ["ipgen_" +:+ "common" +:+ ".v"] in H.
    injection H as H.
    change (String "i" ("pgen_" +:+ top +:+ ".v")) with ("ipgen_" +:+ top +:+ ".v") in H.
    apply append_inv_head, append_inv_tail in H. congruence.
  - change (String "i" ("pgen_" +:+ top +:+ ".v")) with ("ipgen_" +:+ top +:+ ".v").
    apply (occurs_slash_app "ipgen_"); [done|]. by apply occurs_slash_app.
  - done.
Qed.

(** [os.path.basename] gives no path that starts at the root. *)
Lemma basename_from_relative (cur s : string) :
  PyStr.startswith cur "/" = false →
  PyStr.startswith (basename_from cur s) "/" = false.
Proof.
  revert cur. induction s as [|c s IH]; intros cur Hcur; [done|].
  cbn [basename_from]. destruct (Ascii.eqb_spec c "/") as [->|Hc]; [by apply IH|].
  apply IH. destruct cur as [|d cur].
  - rewrite append_empty_l. unfold PyStr.startswith. cbn [String.prefix].
    by destruct (Ascii.ascii_dec "/" c) as [<-|].
  - rewrite append_cons. unfold PyStr.startswith in *. cbn [String.prefix] in *.
    destruct (Ascii.ascii_dec "/" d); [by destruct cur | done].
Qed.

(** Writing and copying elsewhere. *)

Lemma fs_write_other f p c f' q c' :
  fs_write f p c = Ok f' → resolve f p ≠ resolve f q →
  fs_read f q = Ok c' → fs_read f' q = Ok c'.
Proof.
  intros Hw Hne Hr. pose proof (fs_write_mono _ _ _ _ Hw) as Hle.
  apply fs_write_inv in Hw as (_ & _ & Hk & _ & ->).
  pose proof Hr as (_ & _ & Hkq & Hnode)%fs_read_inv.
  apply fs_read_ok in Hr as (Hn & Hq & Hwalk & He & Hi).
  apply fs_read_ok.
  change (resolve (set_inode f (resolve f p) (File c)) q) with (resolve f q).
  change (steps (set_inode f (resolve f p) (File c)) q) with (steps f q).
  split_and!; try done; [by apply (walk_le f)|].
  rewrite inode_at_nodes by done. cbn. by rewrite lookup_insert_ne.
Qed.

Lemma fs_copyfile_other f src dst f' q c' :
  fs_copyfile f src dst = Ok f' → resolve f dst ≠ resolve f q →
  fs_read f q = Ok c' → fs_read f' q = Ok c'.
Proof.
  unfold fs_copyfile. destruct (fs_samefile f src dst); [done|].
  destruct (fs_read f src); [apply fs_write_other | done].
Qed.

Lemma fs_copy_other f src dst f' q c' :
  fs_copy f src dst = Ok f' → (∀ x, resolve f (dst +:+ x) ≠ resolve f q) →
  fs_read f q = Ok c' → fs_read f' q = Ok c'.
Proof.
  unfold fs_copy. intros Hcopy Hne. eapply fs_copyfile_other; [exact Hcopy|].
  destruct (fs_isdir f dst).
  - unfold path_join.
    rewrite (basename_from_relative "" src eq_refl : PyStr.startswith (basename src) "/" = false).
    destruct (_ || _); apply Hne.
  - rewrite <- (append_empty_r dst). apply Hne.
Qed.

Section ReadingBack.
Context {Resource : Type}.
Implicit Types w : World Resource.

Lemma Preserves_still (Q : FileSys → Prop) {A} (m : M Resource A) :
  (∀ w r w', m w = (r, w') → fs w' = fs w) → Preserves Q m.
Proof. intros H w a w' HQ Hm. by rewrite (H _ _ _ Hm). Qed.

Lemma Preserves_ret Q {A} (a : A) : Preserves Q (ret (Resource:=Resource) a).
Proof. apply Preserves_still. by intros w r w' [= <- <-]. Qed.

Lemma Preserves_of_result Q {A} (r : Result A) :
  Preserves Q (of_result (Resource:=Resource) r).
Proof. apply Preserves_still. by intros w r' w' [= <- <-]. Qed.

Lemma Preserves_emit Q ev : Preserves Q (emit (Resource:=Resource) ev).
Proof. apply Preserves_still. by intros w r w' [= <- <-]. Qed.

Lemma Preserves_query_fs Q {A} (f : FileSys → Result A) :
  Preserves Q (query_fs (Resource:=Resource) f).
Proof. apply Preserves_still. by intros w r w' [= <- <-]. Qed.

Lemma Preserves_config_get Q (configs : Configs) k :
  Preserves Q (config_get (Resource:=Resource) configs k).
Proof.
  apply Preserves_still. intros w r w'. unfold config_get.
  by destruct (configs !! k); intros [= <- <-].
Qed.

Lemma Preserves_bind Q {A B} (m : M Resource A) (k : A → M Resource B) :
  Preserves Q m → (∀ a, Preserves Q (k a)) → Preserves Q (bind m k).
Proof.
  intros Hm Hk w b w'' HQ (a & w' & H1 & H2)%bind_inv_ok.
  eapply Hk; [|exact H2]. by eapply Hm.
Qed.

Lemma Preserves_read_file Q p : Preserves Q (read_file (Resource:=Resource) p).
Proof.
  apply Preserves_bind; [apply Preserves_emit | intros _; apply Preserves_query_fs].
Qed.

(** Writing to another node keeps what a file reads as. *)
Lemma Preserves_update_fs (q c : string) (op : FileSys → Result FileSys) :
  (∀ f f', op f = Ok f' → fs_read f q = Ok c → fs_read f' q = Ok c) →
  Preserves (λ f, fs_read f q = Ok c) (update_fs (Resource:=Resource) op).
Proof.
  intros Hop w a w' HQ. unfold update_fs.
  destruct (op (fs w)) as [f'|e] eqn:Hf; [|done].
  intros [= _ <-]. cbn. by apply (Hop _ _ Hf).
Qed.

Lemma Preserves_write_file (q c p c' : string) :
  (∀ f, resolve f p ≠ resolve f q) →
  Preserves (λ f, fs_read f q = Ok c) (write_file (Resource:=Resource) p c').
Proof.
  intros Hne. apply Preserves_bind; [apply Preserves_emit | intros _].
  apply Preserves_update_fs. intros f f' Hw. by eapply fs_write_other.
Qed.

Lemma Preserves_shutil_copyfile (q c src dst : string) :
  (∀ f, resolve f dst ≠ resolve f q) →
  Preserves (λ f, fs_read f q = Ok c) (shutil_copyfile (Resource:=Resource) src dst).
Proof.
  intros Hne. apply Preserves_bind; [apply Preserves_emit | intros _].
  apply Preserves_update_fs. intros f f' Hw. by eapply fs_copyfile_other.
Qed.

Lemma Preserves_shutil_copy (q c src dst : string) :
  (∀ f x, resolve f (dst +:+ x) ≠ resolve f q) →
  Preserves (λ f, fs_read f q = Ok c) (shutil_copy (Resource:=Resource) src dst).
Proof.
  intros Hne. apply Preserves_bind; [apply Preserves_emit | intros _].
  apply Preserves_update_fs. intros f f' Hw. eapply fs_copy_other; [exact Hw|].
  apply Hne.
Qed.

Lemma Leaves_then (Q : FileSys → Prop) {A B} (m : M Resource A)
    (k : A → M Resource B) :
  Leaves Q m → (∀ a, Preserves Q (k a)) → Leaves Q (bind m k).
Proof.
  intros Hm Hk w b w'' (a & w' & H1 & H2)%bind_inv_ok.
  eapply Hk; [|exact H2]. by eapply Hm.
Qed.

Lemma Leaves_write_file (p c : string) :
  Leaves (λ f, fs_read f p = Ok c) (write_file (Resource:=Resource) p c).
Proof.
  intros w a w'. unfold write_file. rewrite bind_emit. unfold update_fs. cbn [fs log].
  destruct (fs_write (fs w) p c) as [f'|e] eqn:Hw; [|done].
  intros [= _ <-]. cbn. by eapply fs_write_read.
Qed.
End ReadingBack.

Section ReadingBackPipeline.
Context `{E : External}.

Lemma Preserves_render Q tf name ml sl dp dl di ni kws :
  Preserves Q (render tf name ml sl dp dl di ni kws).
Proof.
  apply Preserves_still. intros w r w'. unfold render, log2.
  destruct (_ <=? 0); [by intros [= <- <-]|].
  rewrite bind_ret, bind_emit. by intros [= <- <-].
Qed.
End ReadingBackPipeline.

(** A step of a computation that writes elsewhere; [solve_path] proves
    that the path of a write resolves to another node. *)
Ltac preserves_step solve_path :=
  lazymatch goal with
  | |- Preserves _ (bind _ _) => apply Preserves_bind; [ | intros ? ]
  | |- Preserves _ (ret _) => apply Preserves_ret
  | |- Preserves _ (of_result _) => apply Preserves_of_result
  | |- Preserves _ (config_get _ _) => apply Preserves_config_get
  | |- Preserves _ (write_file _ _) => apply Preserves_write_file; solve_path
  | |- Preserves _ (read_file _) => apply Preserves_read_file
  | |- Preserves _ (shutil_copyfile _ _) => apply Preserves_shutil_copyfile; solve_path
  | |- Preserves _ (shutil_copy _ _) => apply Preserves_shutil_copy; solve_path
  | |- Preserves _ (render _ _ _ _ _ _ _ _ _) => apply Preserves_render
  | |- Preserves _ (emit _) => apply Preserves_emit
  | |- Preserves _ (match ?x with _ => _ end) => destruct x eqn:?
  end.

(** The write of the file is looked for in the sequence of the steps. *)
Ltac reads_back solve_path :=
  lazymatch goal with
  | |- Leaves _ (match ?x with _ => _ end) => destruct x; reads_back solve_path
  | |- _ =>
      first [ apply Leaves_then;
              [ apply Leaves_write_file
              | intros ?; repeat preserves_step solve_path ]
            | apply Leaves_later; intros ?; reads_back solve_path ]
  end.

Section HdlFiles.
Context `{E : External}.
Implicit Types w : World Resource.

Ltac in_test :=
  intros; first [ apply test_not_verilog | rewrite append_assoc; apply test_not_verilog ].

(** X21.  When the AXI package builder returns, the HDL file
    [hdl/verilog/ipgen_<module>.v] of the package reads back as the
    synthesized code followed by the common code: nothing that the
    builder does after writing it touches it. *)
Theorem axi_package_hdl_reads_back
    (configs : Configs) (synthesized_code common_code : string)
    (masterlist slavelist : list Resource)
    (top_parameters : list (string * Param))
    (top_ioports : list (string * (Port Expr * option Z)))
    (userlogic_topmodule : string) (memimg usertest : option string)
    (ignore_protocol_error : bool) (w w' : World Resource) :
  build_package_axi configs synthesized_code common_code masterlist slavelist
    top_parameters top_ioports userlogic_topmodule memimg usertest
    ignore_protocol_error w = (Ok tt, w') →
  let dirname := "ipgen_" +:+ userlogic_topmodule +:+ "_v1_00_a" +:+ "/" in
  fs_read (fs w')
          ((dirname +:+ "hdl/verilog/") +:+ ("ipgen_" +:+ userlogic_topmodule +:+ ".v"))
  = Ok (synthesized_code +:+ common_code).
Proof.
  intros Hrun dirname. unfold dirname. clear dirname.
  refine ((_ : Leaves (λ f, fs_read f _ = Ok _)
                 (build_package_axi configs synthesized_code common_code
                    masterlist slavelist top_parameters top_ioports
                    userlogic_topmodule memimg usertest ignore_protocol_error))
            w tt w' Hrun).
  clear Hrun. unfold build_package_axi. cbv zeta.
  repeat lazymatch goal with
         | |- Leaves _ (match ?x with _ => _ end) => destruct x
         end.
  reads_back in_test.
Qed.

Ltac in_verilog Hslash Hne :=
  intros; first [ apply test_not_verilog
                | rewrite append_assoc; apply test_not_verilog
                | by apply common_not_hdl ].

(** X22.  When the Avalon package builder returns, the file
    [hdl/verilog/ipgen_common.v] reads back as the common code.  For a
    module whose name holds no slash, the HDL file
    [hdl/verilog/ipgen_<module>.v] reads back as the synthesized code,
    unless the module is called [common]: then the two files are one, the
    common code is written over the synthesized code, and the HDL file
    reads back as the common code. *)
Theorem avalon_package_hdl_reads_back
    (configs : Configs) (synthesized_code common_code : string)
    (masterlist slavelist : list Resource)
    (top_parameters : list (string * Param))
    (top_ioports : list (string * (Port Expr * option Z)))
    (userlogic_topmodule : string) (memimg usertest : option string)
    (ignore_protocol_error : bool) (w w' : World Resource) :
  build_package_avalon configs synthesized_code common_code masterlist slavelist
    top_parameters top_ioports userlogic_topmodule memimg usertest
    ignore_protocol_error w = (Ok tt, w') →
  occurs "/" userlogic_topmodule = false →
  let dirname := "ipgen_" +:+ userlogic_topmodule +:+ "_v1_00_a" +:+ "/" in
  fs_read (fs w') ((dirname +:+ "hdl/verilog/") +:+ "ipgen_common.v") = Ok common_code ∧
  fs_read (fs w')
          ((dirname +:+ "hdl/verilog/") +:+ ("ipgen_" +:+ userlogic_topmodule +:+ ".v"))
  = Ok (if String.eqb userlogic_topmodule "common"
        then common_code else synthesized_code).
Proof.
  intros Hrun Hslash dirname. unfold dirname. clear dirname.
  assert (Hcommon : fs_read (fs w')
            ((("ipgen_" +:+ userlogic_topmodule +:+ "_v1_00_a" +:+ "/") +:+ "hdl/verilog/")
             +:+ "ipgen_common.v") = Ok common_code).
  { refine ((_ : Leaves (λ f, fs_read f _ = Ok _)
                   (build_package_avalon configs synthesized_code common_code
                      masterlist slavelist top_parameters top_ioports
                      userlogic_topmodule memimg usertest ignore_protocol_error))
              w tt w' Hrun).
    unfold build_package_avalon. cbv zeta.
    repeat lazymatch goal with
           | |- Leaves _ (match ?x with _ => _ end) => destruct x
           end.
    reads_back in_test. }
  split; [done|].
  destruct (String.eqb_spec userlogic_topmodule "common") as [->|Hne]; [exact Hcommon|].
  refine ((_ : Leaves (λ f, fs_read f _ = Ok _)
                 (build_package_avalon configs synthesized_code common_code
                    masterlist slavelist top_parameters top_ioports
                    userlogic_topmodule memimg usertest ignore_protocol_error))
            w tt w' Hrun).
  unfold build_package_avalon. cbv zeta.
  repeat lazymatch goal with
         | |- Leaves _ (match ?x with _ => _ end) => destruct x
         end.
  reads_back ltac:(in_verilog Hslash Hne).
Qed.
End HdlFiles.

(** ** The directories of the AXI package *)

(** A path whose first character is a letter has a component. *)
Lemma components_from_letter (c : ascii) (cur s : string) :
  c ≠ "/"%char → c ≠ "."%char → components_from (String c cur) s ≠ [].
Proof.
  intros Hs Hd. revert cur. induction s as [|x s IH]; intros cur; cbn [components_from].
  - unfold push_component. cbn [String.eqb]. destruct (Ascii.eqb_spec c "."); done.
  - destruct (Ascii.eqb x "/").
    + unfold push_component. cbn [String.eqb]. destruct (Ascii.eqb_spec c "."); done.
    + rewrite append_cons. apply IH.
Qed.

Lemma components_ipgen (s : string) : components ("ipgen_" +:+ s) ≠ [].
Proof.
  unfold components. change ("ipgen_" +:+ s) with (String "i" ("pgen_" +:+ s)).
  cbn [components_from Ascii.eqb Bool.eqb]. rewrite append_empty_l.
  by apply components_from_letter.
Qed.

Lemma has_nul_app (s t : string) : has_nul (s +:+ t) = has_nul s || has_nul t.
Proof.
  induction s as [|c s IH]; [done|]. rewrite append_cons. cbn [has_nul].
  by rewrite IH, orb_assoc.
Qed.

Lemma walk_from_app_2 f cur a b :
  walk_from f cur a = None → walk_from f (cur ++ a) b = None →
  walk_from f cur (a ++ b) = None.
Proof.
  revert cur. induction a as [|c a IH]; intros cur; cbn [app walk_from].
  - by rewrite app_nil_r.
  - destruct (inode_at f cur) as [[]|]; try done.
    intros Ha Hb. apply IH; [done|]. by rewrite <- app_assoc.
Qed.

(** The walk to a directory can be taken to its very end. *)
Lemma walk_to_directory f p :
  walk f (resolve f p) = None → inode_at f (resolve f p) = Some Dir →
  walk f (steps f p) = None.
Proof.
  intros Hw Hi. unfold steps. destruct (trailing_dot p); [|by rewrite app_nil_r].
  apply walk_from_app_2; [done|]. cbn. by rewrite Hi.
Qed.

Section Directories.
Context {Resource : Type}.

(** A file that has been written lies in directories. *)
Lemma write_file_leaves_dir (d p c : string) :
  d ≠ "" →
  (has_nul p = false → has_nul d = false) →
  (∀ f, ∃ rest, rest ≠ [] ∧ resolve f p = resolve f d ++ rest) →
  Leaves (λ f, fs_isdir f d = true) (write_file (Resource:=Resource) p c).
Proof.
  intros Hd Hnul Hp w a w'. unfold write_file. rewrite bind_emit. unfold update_fs.
  cbn [fs log]. destruct (fs_write (fs w) p c) as [f'|e] eqn:Hw; [|done].
  intros [= _ <-]. cbn [fs].
  apply (fs_isdir_le (fs w)); [by eapply fs_write_mono|].
  pose proof Hw as (Hn & _)%fs_write_ok.
  apply fs_write_walk in Hw. destruct (Hp (fs w)) as (rest & Hrest & Hr).
  rewrite Hr in Hw. apply walk_through in Hw as [Hwalk Hi]; [|done].
  unfold fs_isdir.
  assert (fs_stat (fs w) d = Some Dir) as ->; [|done].
  apply fs_stat_some. split_and!; try done; [by apply Hnul | by apply walk_to_directory].
Qed.
End Directories.

(** The directory [d] is looked for above the files that are written;
    [solve_path] proves that a file lies in [d]. *)
Ltac finds_directory solve_path :=
  lazymatch goal with
  | |- Leaves _ (match ?x with _ => _ end) => destruct x; finds_directory solve_path
  | |- _ =>
      first [ apply Leaves_here;
              [ intros ? ?; apply fs_isdir_le
              | apply write_file_leaves_dir; solve_path
              | intros ?; repeat keeps_step ]
            | apply write_file_leaves_dir; solve_path
            | apply Leaves_later; intros ?; finds_directory solve_path ]
  end.

Ltac finds_path solve_path :=
  lazymatch goal with
  | |- Leaves _ (match ?x with _ => _ end) => destruct x; finds_path solve_path
  | |- _ =>
      first [ apply Leaves_here;
              [ intros ? ?; apply fs_exists_le
              | apply mkdir_unless_exists_leaves
              | intros ?; repeat keeps_step ]
            | apply Leaves_later; intros ?; finds_path solve_path ]
  end.

Section AxiDirectories.
Context `{E : External}.
Implicit Types w : World Resource.

Lemma package_nonempty (top rest : string) :
  ("ipgen_" +:+ top +:+ "_v1_00_a" +:+ "/") +:+ rest ≠ "".
Proof. by change ("ipgen_" +:+ ?x) with (String "i" ("pgen_" +:+ x)). Qed.

Lemma no_nul (top sub name d : string) :
  has_nul ((("ipgen_" +:+ top +:+ "_v1_00_a" +:+ "/") +:+ sub) +:+ name) = false →
  has_nul d = false →
  has_nul (("ipgen_" +:+ top +:+ "_v1_00_a" +:+ "/") +:+ d) = false.
Proof.
  intros Hp Hd. rewrite !has_nul_app, Hd in *.
  by destruct (has_nul "ipgen_"), (has_nul top), (has_nul "_v1_00_a"), (has_nul "/").
Qed.

Lemma no_nul_package (top name : string) :
  has_nul (("ipgen_" +:+ top +:+ "_v1_00_a" +:+ "/") +:+ name) = false →
  has_nul ("ipgen_" +:+ top +:+ "_v1_00_a" +:+ "/") = false.
Proof.
  rewrite !has_nul_app.
  by destruct (has_nul "ipgen_"), (has_nul top), (has_nul "_v1_00_a"), (has_nul "/").
Qed.

(** A path of the package whose components go on after those of another
    lies beneath it. *)
Lemma beneath_package f (top d rest : string) (l l' : list string) :
  components d = l → components rest = l ++ l' → l' ≠ [] →
  ∃ r, r ≠ [] ∧
    resolve f (("ipgen_" +:+ top +:+ "_v1_00_a" +:+ "/") +:+ rest)
    = resolve f (("ipgen_" +:+ top +:+ "_v1_00_a" +:+ "/") +:+ d) ++ r.
Proof.
  intros Hd Hrest Hl. exists l'. split; [done|].
  rewrite !resolve_in_package, Hd, Hrest. by rewrite <- !app_assoc.
Qed.

Lemma components_in (sub name : string) :
  components (sub +:+ ("/" +:+ name)) = components sub ++ components name.
Proof. apply components_sep. Qed.

Lemma dir_package f (top : string) :
  ∃ r, r ≠ [] ∧
    resolve f (("ipgen_" +:+ top +:+ "_v1_00_a" +:+ "/") +:+ "component.xml")
    = resolve f ("ipgen_" +:+ top +:+ "_v1_00_a" +:+ "/") ++ r.
Proof.
  pose proof (beneath_package f top "" "component.xml" [] ["component.xml"]
                eq_refl eq_refl ltac:(done)) as H.
  by rewrite append_empty_r in H.
Qed.

Lemma dir_data f (top : string) :
  ∃ r, r ≠ [] ∧
    resolve f ((("ipgen_" +:+ top +:+ "_v1_00_a" +:+ "/") +:+ "data/")
               +:+ ("ipgen_" +:+ top +:+ "_v2_1_0" +:+ ".mpd"))
    = resolve f (("ipgen_" +:+ top +:+ "_v1_00_a" +:+ "/") +:+ "/" +:+ "data") ++ r.
Proof.
  rewrite append_assoc.
  apply (beneath_package f top ("/" +:+ "data") _ ["data"]
           (components ("ipgen_" +:+ top +:+ "_v2_1_0" +:+ ".mpd")) eq_refl).
  - apply (components_in "data").
  - apply components_ipgen.
Qed.

Lemma dir_bd f (top : string) :
  ∃ r, r ≠ [] ∧
    resolve f ((("ipgen_" +:+ top +:+ "_v1_00_a" +:+ "/") +:+ "bd/") +:+ "bd.tcl")
    = resolve f (("ipgen_" +:+ top +:+ "_v1_00_a" +:+ "/") +:+ "/" +:+ "bd") ++ r.
Proof.
  rewrite append_assoc.
  by apply (beneath_package f top ("/" +:+ "bd") _ ["bd"] ["bd.tcl"] eq_refl).
Qed.

Lemma dir_xgui f (top : string) :
  ∃ r, r ≠ [] ∧
    resolve f ((("ipgen_" +:+ top +:+ "_v1_00_a" +:+ "/") +:+ "xgui/") +:+ "xgui.tcl")
    = resolve f (("ipgen_" +:+ top +:+ "_v1_00_a" +:+ "/") +:+ "/" +:+ "xgui") ++ r.
Proof.
  rewrite append_assoc.
  by apply (beneath_package f top ("/" +:+ "xgui") _ ["xgui"] ["xgui.tcl"] eq_refl).
Qed.

Lemma dir_hdl f (top : string) :
  ∃ r, r ≠ [] ∧
    resolve f ((("ipgen_" +:+ top +:+ "_v1_00_a" +:+ "/") +:+ "hdl/verilog/")
               +:+ ("ipgen_" +:+ top +:+ ".v"))
    = resolve f (("ipgen_" +:+ top +:+ "_v1_00_a" +:+ "/") +:+ "/" +:+ "hdl") ++ r.
Proof.
  rewrite append_assoc.
  apply (beneath_package f top ("/" +:+ "hdl") _ ["hdl"]
           ("verilog" :: components ("ipgen_" +:+ top +:+ ".v")) eq_refl); [|done].
  change ("hdl/verilog/" +:+ ?x) with ("hdl" +:+ ("/" +:+ ("verilog" +:+ ("/" +:+ x)))).
  by rewrite !components_in.
Qed.

Lemma dir_verilog f (top : string) :
  ∃ r, r ≠ [] ∧
    resolve f ((("ipgen_" +:+ top +:+ "_v1_00_a" +:+ "/") +:+ "hdl/verilog/")
               +:+ ("ipgen_" +:+ top +:+ ".v"))
    = resolve f (("ipgen_" +:+ top +:+ "_v1_00_a" +:+ "/") +:+ "/" +:+ "hdl/verilog")
      ++ r.
Proof.
  rewrite append_assoc.
  apply (beneath_package f top ("/" +:+ "hdl/verilog") _ ["hdl"; "verilog"]
           (components ("ipgen_" +:+ top +:+ ".v")) eq_refl).
  - change ("hdl/verilog/" +:+ ?x) with ("hdl" +:+ ("/" +:+ ("verilog" +:+ ("/" +:+ x)))).
    by rewrite !components_in.
  - apply components_ipgen.
Qed.

Lemma dir_test f (top : string) :
  ∃ r, r ≠ [] ∧
    resolve f ((("ipgen_" +:+ top +:+ "_v1_00_a" +:+ "/") +:+ "test/") +:+ "Makefile")
    = resolve f (("ipgen_" +:+ top +:+ "_v1_00_a" +:+ "/") +:+ "/" +:+ "test") ++ r.
Proof.
  rewrite append_assoc.
  by apply (beneath_package f top ("/" +:+ "test") _ ["test"] ["Makefile"] eq_refl).
Qed.

Ltac in_directory :=
  first [ apply package_nonempty
        | by change ("ipgen_" +:+ ?x) with (String "i" ("pgen_" +:+ x))
        | let H := fresh in
          intros H;
          first [ eapply no_nul; [exact H | reflexivity]
                | eapply no_nul_package; exact H ]
        | intros ?;
          first [ apply dir_package | apply dir_data | apply dir_bd | apply dir_xgui
                | apply dir_hdl | apply dir_verilog | apply dir_test ] ].

(** X15.  When the AXI package builder returns, the package directory
    and, in it, [data], [bd], [xgui], [hdl], [hdl/verilog] and [test] are
    directories: the builder has written a file into each of them, or
    into a directory in it.  The path [doc] in the package directory
    exists; the builder writes nothing into it, and leaves in place what
    it finds there, a directory or a regular file. *)
Theorem axi_package_directories
    (configs : Configs) (synthesized_code common_code : string)
    (masterlist slavelist : list Resource)
    (top_parameters : list (string * Param))
    (top_ioports : list (string * (Port Expr * option Z)))
    (userlogic_topmodule : string) (memimg usertest : option string)
    (ignore_protocol_error : bool) (w w' : World Resource) :
  build_package_axi configs synthesized_code common_code masterlist slavelist
    top_parameters top_ioports userlogic_topmodule memimg usertest
    ignore_protocol_error w = (Ok tt, w') →
  let dirname := "ipgen_" +:+ userlogic_topmodule +:+ "_v1_00_a" +:+ "/" in
  Forall (λ d, fs_isdir (fs w') d = true)
         [dirname; dirname +:+ "/" +:+ "data"; dirname +:+ "/" +:+ "bd";
          dirname +:+ "/" +:+ "xgui"; dirname +:+ "/" +:+ "hdl";
          dirname +:+ "/" +:+ "hdl/verilog"; dirname +:+ "/" +:+ "test"] ∧
  fs_exists (fs w') (dirname +:+ "/" +:+ "doc") = true.
Proof.
  intros Hrun dirname. unfold dirname. clear dirname. split.
  - repeat apply Forall_cons_2; [..|apply Forall_nil_2].
    all: match goal with |- fs_isdir _ ?d = true =>
           refine ((_ : Leaves (λ f, fs_isdir f d = true)
                          (build_package_axi configs synthesized_code common_code
                             masterlist slavelist top_parameters top_ioports
                             userlogic_topmodule memimg usertest ignore_protocol_error))
                     w tt w' Hrun) end.
    all: clear Hrun; unfold build_package_axi; cbv zeta.
    all: finds_directory in_directory.
  - refine ((_ : Leaves (λ f, fs_exists f _ = true)
                   (build_package_axi configs synthesized_code common_code
                      masterlist slavelist top_parameters top_ioports
                      userlogic_topmodule memimg usertest ignore_protocol_error))
              w tt w' Hrun).
    clear Hrun; unfold build_package_axi; cbv zeta.
    finds_path idtac.
Qed.
End AxiDirectories.

(** ** The further properties on the sample instance *)

Section SampleRuns.
#[local] Existing Instance Sample.collaborators.

Lemma build_analysis_failure_witness :
  build (E:=Sample.failing) (Sample.configs "axi" "out") "foo" ["foo.v"] None None
        None None false false Sample.world
  = (Raise (ExternalError "module bar is not found"),
     mkWorld (fs Sample.world)
             (log Sample.world ++ [EvAnalyze ["foo.v"] "foo" None None false])).
Proof.
  apply (build_analysis_failure (E:=Sample.failing) (Sample.configs "axi" "out")
           "foo" ["foo.v"] None None None None false false
           (ExternalError "module bar is not found") Sample.world).
  - apply sample_clocks_consistent.
  - reflexivity.
Defined.

Lemma build_missing_family_or_address_width_witness :
  build (delete "if_type" (Sample.configs "axi" "out")) "foo" ["foo.v"] None None
        None None false false Sample.world
  = (Raise (KeyError (match delete "if_type" (Sample.configs "axi" "out") !! "if_type"
                      with
                      | Some _ => "ext_addrwidth"
                      | None => "if_type"
                      end)),
     mkWorld (fs Sample.world)
             (log Sample.world ++ [EvAnalyze ["foo.v"] "foo" None None false; EvDump])).
Proof.
  apply (build_missing_family_or_address_width (E:=Sample.collaborators)
           (delete "if_type" (Sample.configs "axi" "out"))
           "foo" ["foo.v"] None None None None false false Sample.foo Sample.world).
  - exists (VBool false). split; [vm_compute; reflexivity | intros H; discriminate H].
  - reflexivity.
  - left. vm_compute. reflexivity.
Defined.

Lemma build_wrapper_parameters_witness :
  ∃ td post,
    log (build (Sample.configs "axi" "out") "foo" ["foo.v"] None None None None
               false false Sample.world).2
    = log Sample.world ++ [EvAnalyze ["foo.v"] "foo" None None false;
                           EvDump;
                           EvRender (node_template (VStr "axi")) td] ++ post ∧
    td_def_top_parameters td
    = (λ item : string * Sample.param, PyStr.replace (visit (NParam item.2)) ";" ",")
      <$> filter (λ item, is_localparam item = false) (an_top_parameters Sample.foo) ∧
    td_def_top_localparams td
    = (λ item : string * Sample.param, visit (NParam item.2))
      <$> filter (λ item, is_localparam item = true) (an_top_parameters Sample.foo) ∧
    Forall (λ r, PyStr.count r ";" = 0%nat) (td_def_top_parameters td) ∧
    (length (td_def_top_parameters td) + length (td_def_top_localparams td)
     = length (an_top_parameters Sample.foo))%nat.
Proof.
  apply (build_wrapper_parameters (E:=Sample.collaborators)
             (Sample.configs "axi" "out") "foo" ["foo.v"]
           None None None None false false Sample.foo (VStr "axi") (VInt 32)
           Sample.world).
  - apply sample_clocks_consistent.
  - reflexivity.
  - vm_compute. reflexivity.
  - vm_compute. reflexivity.
Defined.

Lemma axi_build_generator_call_witness :
  ∃ an a evs,
    RtlConverter ["foo.v"] "foo" None None false = Ok an ∧
    Sample.configs "axi" "out" !! "ext_addrwidth" = Some a ∧
    log (Sample.run "axi" "out" None None).2 = log Sample.world ++ evs ∧
    omap generator_call evs
    = [("ipgen_" +:+ "foo",
        ((λ m, mkAxiDefinition (res_name m +:+ "_AXI") (res_datawidth m) true (res_lite m))
           <$> an_masterlist an) ++
        ((λ s, mkAxiDefinition (res_name s +:+ "_AXI") (res_datawidth s) false (res_lite s))
           <$> an_slavelist an),
        a, 256,
        ext_port_row <$> an_top_ioports an,
        parameter_row axi_dt
        <$> filter (λ item, is_localparam item = false) (an_top_parameters an))].
Proof.
  apply (axi_build_generator_call (E:=Sample.collaborators)
             (Sample.configs "axi" "out") "foo" ["foo.v"]
           None None None None false false Sample.world
           (Sample.run "axi" "out" None None).2).
  - apply (run_returns (Sample.run "axi" "out" None None)). vm_compute. reflexivity.
  - vm_compute. reflexivity.
Defined.


Lemma axi_build_artifacts_witness :
  let w' := (Sample.run "axi" "out" (Some "mem.bin") (Some "tb.v")).2 in
  ∃ an a s evs mpd_dict pao_dict xgui_dict test_dict makefile_dict,
    RtlConverter ["foo.v"] "foo" None None false = Ok an ∧
    Sample.configs "axi" "out" !! "ext_addrwidth" = Some a ∧
    Sample.configs "axi" "out" !! "single_clock" = Some s ∧
    log w' = log Sample.world ++ evs ∧
    let dirname := "ipgen_" +:+ "foo" +:+ "_v1_00_a" +:+ "/" in
    let mpd_version := "_v2_1_0" in
    omap artifact evs
    = [Written ((dirname +:+ "data/") +:+ ("ipgen_" +:+ "foo" +:+ mpd_version +:+ ".mpd"))
               (jinja_render "mpd.txt" mpd_dict);
       Written ((dirname +:+ "data/") +:+ ("ipgen_" +:+ "foo" +:+ mpd_version +:+ ".pao"))
               (jinja_render "pao.txt" pao_dict);
       Written ((dirname +:+ "data/") +:+ ("ipgen_" +:+ "foo" +:+ mpd_version +:+ ".tcl"))
               (if negb (truthy s) then template_source "pcore_tcl.tcl" else "");
       Written (dirname +:+ "component.xml")
               (componentgen_generate ("ipgen_" +:+ "foo")
                  (axi_memorylist (an_masterlist an) (an_slavelist an)) a 256
                  (ext_port_row <$> an_top_ioports an)
                  (parameter_row axi_dt
                   <$> filter (λ item, is_localparam item = false)
                              (an_top_parameters an)));
       Written ((dirname +:+ "data/") +:+ ("ipgen_" +:+ "foo" +:+ ".xdc"))
               (if negb (truthy s) then template_source "ipxact.xdc" else "");
       Written ((dirname +:+ "bd/") +:+ "bd.tcl") (template_source "bd.tcl");
       Written ((dirname +:+ "xgui/") +:+ "xgui.tcl")
               (jinja_render "xgui_tcl.txt" xgui_dict);
       Written ((dirname +:+ "hdl/verilog/") +:+ ("ipgen_" +:+ "foo" +:+ ".v"))
               ((jinja_render "node_axi.txt" (node_dict an "foo" (VStr "axi") a s)
                 +:+ visit (NSource (userlogic_ast an)))
                +:+ PyStr.join [template_source "axi_master_interface.v";
                                template_source "axi_lite_master_interface.v";
                                template_source "axi_slave_interface.v";
                                template_source "axi_lite_slave_interface.v"]);
       Written ((dirname +:+ "test/") +:+ ("test_ipgen_" +:+ "foo" +:+ ".v"))
               (jinja_render "test_ipgen_axi.txt" test_dict
                +:+ template_source "axi_master_fifo.v")] ++
      [Copied (expanduser "mem.bin") ((dirname +:+ "test/") +:+ "mem.img")] ++
      [Written ((dirname +:+ "test/") +:+ "Makefile")
               (jinja_render "Makefile.txt" makefile_dict)].
Proof.
  intros w'.
  apply (axi_build_artifacts (E:=Sample.collaborators)
             (Sample.configs "axi" "out") "foo" ["foo.v"] None None
           (Some "mem.bin") (Some "tb.v") false false Sample.world w').
  - apply (run_returns (Sample.run "axi" "out" (Some "mem.bin") (Some "tb.v"))).
    vm_compute. reflexivity.
  - vm_compute. reflexivity.
Defined.


Lemma build_prints_sorted_settings_witness :
  ∃ evs items,
    log (build (Sample.configs "general" "out/foo.v") "foo" ["foo.v"] None None None None
               false false Sample.world).2
    = log Sample.world ++ evs ∧
    omap printed evs
    = ["----------------------------------------"; "Synthesis Setting"] ++
      ((λ item : string * PyVal, "  " +:+ item.1 +:+ " : " +:+ py_str item.2) <$> items) ∧
    (∀ k v, (k, v) ∈ items ↔ Sample.configs "general" "out/foo.v" !! k = Some v) ∧
    NoDup items.*1 ∧
    Sorted (λ x y : string * PyVal, String.leb x.1 y.1 = true) items.
Proof.
  apply (build_prints_sorted_settings (E:=Sample.collaborators)
             (Sample.configs "general" "out/foo.v") "foo"
           ["foo.v"] None None None None false false Sample.foo (VStr "general")
           (VInt 32) Sample.world).
  - apply sample_clocks_consistent.
  - reflexivity.
  - vm_compute. reflexivity.
  - vm_compute. reflexivity.
Defined.

Lemma build_requires_configuration_witness :
  ∃ t, Sample.configs "avalon" "out" !! "if_type" = Some t ∧
       supported_family t = true ∧
       is_Some (Sample.configs "avalon" "out" !! "single_clock") ∧
       is_Some (Sample.configs "avalon" "out" !! "ext_addrwidth") ∧
       if py_eq t (VStr "general")
       then is_Some (Sample.configs "avalon" "out" !! "output")
       else is_Some (Sample.configs "avalon" "out" !! "sim_addrwidth") ∧
            is_Some (Sample.configs "avalon" "out" !! "hperiod_ulogic") ∧
            is_Some (Sample.configs "avalon" "out" !! "hperiod_bus").
Proof.
  apply (build_requires_configuration (E:=Sample.collaborators)
             (Sample.configs "avalon" "out") "foo" ["foo.v"]
           None None None None false false Sample.world
           (Sample.run "avalon" "out" None None).2).
  apply (run_returns (Sample.run "avalon" "out" None None)). vm_compute. reflexivity.
Defined.

Lemma axi_package_directories_witness :
  let w' := (build_package_axi (E:=Sample.collaborators)
             (Sample.configs "axi" "out") "module foo;" ""
               (an_masterlist Sample.foo) (an_slavelist Sample.foo)
               (an_top_parameters Sample.foo) (an_top_ioports Sample.foo) "foo"
               None None false Sample.world).2 in
  let dirname := "ipgen_" +:+ "foo" +:+ "_v1_00_a" +:+ "/" in
  Forall (λ d, fs_isdir (fs w') d = true)
         [dirname; dirname +:+ "/" +:+ "data"; dirname +:+ "/" +:+ "bd";
          dirname +:+ "/" +:+ "xgui"; dirname +:+ "/" +:+ "hdl";
          dirname +:+ "/" +:+ "hdl/verilog"; dirname +:+ "/" +:+ "test"] ∧
  fs_exists (fs w') (dirname +:+ "/" +:+ "doc") = true.
Proof.
  intros w'.
  apply (axi_package_directories (E:=Sample.collaborators)
             (Sample.configs "axi" "out") "module foo;" ""
           (an_masterlist Sample.foo) (an_slavelist Sample.foo)
           (an_top_parameters Sample.foo) (an_top_ioports Sample.foo) "foo"
           None None false Sample.world w').
  apply (run_returns
           (build_package_axi (E:=Sample.collaborators)
                      (Sample.configs "axi" "out") "module foo;" ""
              (an_masterlist Sample.foo) (an_slavelist Sample.foo)
              (an_top_parameters Sample.foo) (an_top_ioports Sample.foo) "foo"
              None None false Sample.world)).
  vm_compute. reflexivity.
Defined.

Lemma avalon_package_directories_witness :
  let w' := (build_package_avalon (E:=Sample.collaborators)
             (Sample.configs "avalon" "out") "module foo;" ""
               (an_masterlist Sample.foo) (an_slavelist Sample.foo)
               (an_top_parameters Sample.foo) (an_top_ioports Sample.foo) "foo"
               None None false Sample.world).2 in
  let dirname := "ipgen_" +:+ "foo" +:+ "_v1_00_a" +:+ "/" in
  Forall (λ d, fs_exists (fs w') d = true)
         [dirname; dirname +:+ "/" +:+ "hdl"; dirname +:+ "/" +:+ "hdl/verilog";
          dirname +:+ "/" +:+ "test"].
Proof.
  intros w'.
  apply (avalon_package_directories (E:=Sample.collaborators)
             (Sample.configs "avalon" "out") "module foo;" ""
           (an_masterlist Sample.foo) (an_slavelist Sample.foo)
           (an_top_parameters Sample.foo) (an_top_ioports Sample.foo) "foo"
           None None false Sample.world w').
  apply (run_returns
           (build_package_avalon (E:=Sample.collaborators)
                      (Sample.configs "avalon" "out") "module foo;" ""
              (an_masterlist Sample.foo) (an_slavelist Sample.foo)
              (an_top_parameters Sample.foo) (an_top_ioports Sample.foo) "foo"
              None None false Sample.world)).
  vm_compute. reflexivity.
Defined.

Lemma general_build_output_reads_back_witness :
  let w' := (Sample.run "general" "out/foo.v" None None).2 in
  ∃ an a s,
    RtlConverter ["foo.v"] "foo" None None false = Ok an ∧
    Sample.configs "general" "out/foo.v" !! "ext_addrwidth" = Some a ∧
    Sample.configs "general" "out/foo.v" !! "single_clock" = Some s ∧
    fs_read (fs w') "out/foo.v"
    = Ok (jinja_render "node_general.txt" (node_dict an "foo" (VStr "general") a s)
          +:+ visit (NSource (userlogic_ast an))) ∧
    cwd (fs w') = cwd (fs Sample.world) ∧
    ∀ k, k ≠ resolve (fs Sample.world) "out/foo.v" →
         nodes (fs w') !! k = nodes (fs Sample.world) !! k.
Proof.
  intros w'.
  apply (general_build_output_reads_back (E:=Sample.collaborators)
             (Sample.configs "general" "out/foo.v") "foo"
           ["foo.v"] None None None None false false "out/foo.v" Sample.world w').
  - apply (run_returns (Sample.run "general" "out/foo.v" None None)).
    vm_compute. reflexivity.
  - vm_compute. reflexivity.
  - vm_compute. reflexivity.
  - apply (bool_decide_unpack _). vm_compute. exact I.
Defined.

Lemma only_axi_calls_generator_witness :
  ∃ evs,
    log (build (Sample.configs "avalon" "out") "foo" ["foo.v"] None None None None
               false false Sample.world).2
    = log Sample.world ++ evs ∧
    Forall (λ ev, generator_call ev = None) evs.
Proof.
  apply (only_axi_calls_generator (E:=Sample.collaborators)
             (Sample.configs "avalon" "out") "foo" ["foo.v"]
           None None None None false false Sample.world).
  intros H. vm_compute in H. discriminate H.
Defined.

Lemma axi_package_hdl_reads_back_witness :
  let w' := (build_package_axi (E:=Sample.collaborators) (Sample.configs "axi" "out")
               "module foo;" "module axi;"
               (an_masterlist Sample.foo) (an_slavelist Sample.foo)
               (an_top_parameters Sample.foo) (an_top_ioports Sample.foo) "foo"
               (Some "mem.bin") (Some "tb.v") false Sample.world).2 in
  let dirname := "ipgen_" +:+ "foo" +:+ "_v1_00_a" +:+ "/" in
  fs_read (fs w') ((dirname +:+ "hdl/verilog/") +:+ ("ipgen_" +:+ "foo" +:+ ".v"))
  = Ok ("module foo;" +:+ "module axi;").
Proof.
  intros w'.
  apply (axi_package_hdl_reads_back (E:=Sample.collaborators)
           (Sample.configs "axi" "out") "module foo;" "module axi;"
           (an_masterlist Sample.foo) (an_slavelist Sample.foo)
           (an_top_parameters Sample.foo) (an_top_ioports Sample.foo) "foo"
           (Some "mem.bin") (Some "tb.v") false Sample.world w').
  apply (run_returns
           (build_package_axi (E:=Sample.collaborators) (Sample.configs "axi" "out")
              "module foo;" "module axi;"
              (an_masterlist Sample.foo) (an_slavelist Sample.foo)
              (an_top_parameters Sample.foo) (an_top_ioports Sample.foo) "foo"
              (Some "mem.bin") (Some "tb.v") false Sample.world)).
  vm_compute. reflexivity.
Defined.

(** A module called [common]: its HDL file ends up holding the interface
    sources. *)
Lemma avalon_package_hdl_reads_back_witness :
  let w' := (build_package_avalon (E:=Sample.collaborators)
               (Sample.configs "avalon" "out") "module common;" "module avalon;"
               (an_masterlist Sample.foo) (an_slavelist Sample.foo)
               (an_top_parameters Sample.foo) (an_top_ioports Sample.foo) "common"
               None None false Sample.world).2 in
  let dirname := "ipgen_" +:+ "common" +:+ "_v1_00_a" +:+ "/" in
  fs_read (fs w') ((dirname +:+ "hdl/verilog/") +:+ "ipgen_common.v")
  = Ok "module avalon;" ∧
  fs_read (fs w') ((dirname +:+ "hdl/verilog/") +:+ ("ipgen_" +:+ "common" +:+ ".v"))
  = Ok (if String.eqb "common" "common" then "module avalon;" else "module common;").
Proof.
  intros w'.
  apply (avalon_package_hdl_reads_back (E:=Sample.collaborators)
           (Sample.configs "avalon" "out") "module common;" "module avalon;"
           (an_masterlist Sample.foo) (an_slavelist Sample.foo)
           (an_top_parameters Sample.foo) (an_top_ioports Sample.foo) "common"
           None None false Sample.world w').
  - apply (run_returns
             (build_package_avalon (E:=Sample.collaborators)
                (Sample.configs "avalon" "out") "module common;" "module avalon;"
                (an_masterlist Sample.foo) (an_slavelist Sample.foo)
                (an_top_parameters Sample.foo) (an_top_ioports Sample.foo) "common"
                None None false Sample.world)).
    vm_compute. reflexivity.
  - vm_compute. reflexivity.
Defined.
End SampleRuns.
